(** * 2dir-insight: the data loader ([src/core/data_loader.py])

    A shallow embedding of [DataLoader] and of the fragments of numpy,
    pandas, h5py, json and pathlib that its methods call, and of the
    setup and diagnostic scripts, followed by the properties of the
    ingestion layer and of the scripts.

    Conventions of the embedding
    - a float64 is a primitive binary64 float ([PrimFloat.float]);
    - a numpy array is its shape together with its elements in row-major
      order;
    - the file system and numpy's global random generator form the
      [world] that every method threads through; a Python exception is
      the [Raise] outcome of a computation;
    - the record dictionary with the keys ['spectrum'],
      ['frequencies_f1'], ['frequencies_f2'] and ['metadata'] is the
      Rocq record [record].

    What the library models leave out
    - paths are taken as [pathlib] normalises them, the file system is
      flat (no directories, no permissions) and a write never fails;
    - arrays hold float64 numbers or Python objects; integer and complex
      dtypes are not told apart from them;
    - a numeral in a text file stands for the float it denotes: the
      digits that ['%.18e'] and [repr] print are not spelled out, and the
      float that pandas reads from a numeral is the parameter
      [csv_strtod]; a text cell is a text that no reader takes for a
      number or a truth value, the NaN markers of [read_csv] apart;
    - a file has one kind and is modelled for the reader of its kind;
      of a reader given a file of another kind only this is certain and
      relied on: no text reader reads a binary container, [np.loadtxt]
      reads no JSON object, and [json.load] reads neither a JSON text
      broken off nor a table of two numerals or more; a table or a JSON
      text read by [read_csv] as a table of its own, and a text that is
      JSON without being an object (a lone number), are given the
      failure of the reader and no property rests on them;
    - [np.loadtxt]'s comment lines and [read_csv]'s quoting and implicit
      index column are not modelled;
    - the order of a dictionary is not modelled: where a loop over the
      metadata stops at an exception, what it did before is that of the
      enumeration of the map, and the text [json.dump] leaves behind is
      kept as [JsonPrefix];
    - an attribute name is checked for being empty only, and the size
      of an attribute is not checked;
    - numpy's reductions are sequential here; what the properties say of
      a minimum, a maximum or a sum depends neither on the order nor on
      the sign of a zero;
    - the messages of the exceptions the libraries raise are
      abbreviated; the messages the loader itself builds are exact. *)

From Stdlib Require Import ZArith List String Ascii Bool Lia.
From Stdlib Require Import PrimFloat FloatOps FloatAxioms SpecFloat.
From stdpp Require Import gmap strings pretty list fin_maps.

(** ** Python values and exceptions *)

Abbreviation float64 := PrimFloat.float.

Inductive seq_kind := Tuple | PyList | NdArray.

(** The values a metadata dictionary holds: Python scalars, strings,
    flat sequences of integers such as an array shape, and the numpy
    scalars an attribute of a container reads back as ([np.int64] or
    [np.uint64], [np.float64], [np.bool_]). *)
Inductive py_value :=
| PyInt (z : Z)
| PyFloat (x : float64)
| PyBool (b : bool)
| PyStr (s : string)
| PySeq (k : seq_kind) (l : list Z)
| NpInt (z : Z)
| NpFloat (x : float64)
| NpBool (b : bool).

Definition scalar_or_str (v : py_value) : bool :=
  match v with PySeq _ _ => false | _ => true end.

Inductive exn :=
| FileNotFoundError (msg : string)
| ValueError (msg : string)
| NotImplementedError (msg : string)
| KeyError (msg : string)
| TypeError (msg : string)
| OSError (msg : string).

(** [str(e)] *)
Definition exn_str (e : exn) : string :=
  match e with
  | FileNotFoundError m | ValueError m | NotImplementedError m
  | KeyError m | TypeError m | OSError m => m
  end.

Inductive outcome (A : Type) :=
| Ok (a : A)
| Raise (e : exn).
Arguments Ok {A} a.
Arguments Raise {A} e.

(** ** numpy arrays *)

(** A cell of a delimited text file.  [CNum x] is a decimal numeral that
    denotes the float [x] exactly (what ['%.18e'] and [repr] print);
    [CEmpty] is the empty field; [CText s] is any other text;
    [CMangled c k] is the text of [c] followed by ["."] and [k], the
    name pandas gives to a repeated column label. *)
Inductive cell :=
| CNum (x : float64)
| CEmpty
| CText (s : string)
| CMangled (c : cell) (k : nat).

(** An array element: a float64, or a Python object (the text of a cell
    read into an object column). *)
Inductive npval :=
| NFloat (x : float64)
| NObj (c : cell).

Record ndarray := mk_ndarray {
  nd_shape : list nat;
  nd_data : list npval
}.

Definition nd_size (a : ndarray) : nat := fold_right Nat.mul 1 (nd_shape a).
Definition nd_ndim (a : ndarray) : nat := length (nd_shape a).

Definition is_float (v : npval) : bool :=
  match v with NFloat _ => true | NObj _ => false end.

(** The array has dtype float64 and as many elements as its shape says. *)
Definition nd_float_ok (a : ndarray) : bool :=
  forallb is_float (nd_data a) && (length (nd_data a) =? nd_size a)%nat.

Definition floats_of (l : list npval) : list float64 :=
  flat_map (fun v => match v with NFloat x => [x] | NObj _ => [] end) l.

Definition nd_of_floats (sh : list nat) (l : list float64) : ndarray :=
  mk_ndarray sh (map NFloat l).

(** [str(a.dtype)] *)
Definition dtype_str (a : ndarray) : string :=
  if forallb is_float (nd_data a) then "float64" else "object".

Fixpoint float_of_nat (n : nat) : float64 :=
  match n with
  | O => 0%float
  | S k => (float_of_nat k + 1)%float
  end.

(** [np.linspace(start, stop, num)] with [endpoint=True]: the multiples
    of the step shifted by [start], the last one overwritten by [stop]. *)
Definition np_linspace (start stop : float64) (num : nat) : ndarray :=
  let div := float_of_nat (num - 1) in
  let delta := (stop - start)%float in
  let y := map float_of_nat (seq 0 num) in
  let y :=
    if 0 <? num - 1 then
      let step := (delta / div)%float in
      if PrimFloat.eqb step 0%float
      then map (fun v => (v / div * delta)%float) y
      else map (fun v => (v * step)%float) y
    else map (fun v => (v * delta)%float) y in
  let y := map (fun v => (v + start)%float) y in
  let y := if 1 <? num then firstn (num - 1) y ++ [stop] else y in
  nd_of_floats [num] y.

(** numpy's [minimum] and [maximum]: a NaN wins, and of two equal
    numbers (zeros of opposite signs) the second is returned. *)
Definition np_minimum (a b : float64) : float64 :=
  if (a <? b)%float || PrimFloat.is_nan a then a else b.
Definition np_maximum (a b : float64) : float64 :=
  if (b <? a)%float || PrimFloat.is_nan a then a else b.

(** A reduction of a non-empty list from its first element on. *)
Definition reduce (f : float64 -> float64 -> float64) (l : list float64)
  : float64 :=
  match l with
  | [] => nan
  | x :: t => fold_left f t x
  end.

Definition zero_size_msg (op : string) : string :=
  "zero-size array to reduction operation " +:+ op +:+ " which has no identity".

(** A reduction without identity over all the elements of an array: it
    raises on an array of size zero; on an array of objects the
    comparison of a text with a number raises. *)
Definition np_reduce (op : string) (f : float64 -> float64 -> float64)
  (a : ndarray) : outcome float64 :=
  if nd_size a =? 0 then Raise (ValueError (zero_size_msg op))
  else if forallb is_float (nd_data a)
  then Ok (reduce f (floats_of (nd_data a)))
  else Raise (TypeError "'<' not supported between instances of 'str' and 'float'").

(** [np.min(a)], [np.max(a)] *)
Definition np_min : ndarray -> outcome float64 := np_reduce "minimum" np_minimum.
Definition np_max : ndarray -> outcome float64 := np_reduce "maximum" np_maximum.

(** ** The world: files and the random generator *)

Record h5file := mk_h5 {
  h5_datasets : gmap string ndarray;
  h5_attrs : gmap string py_value
}.

(** What a path holds.  A delimited file is kept as its lines, each the
    list of its fields; a JSON file as the object it spells;
    [JsonPrefix] is the beginning of the text of a JSON object, broken
    off before its end. *)
Inductive file :=
| H5File (h : h5file)
| TextFile (rows : list (list cell))
| CsvFile (rows : list (list cell))
| JsonFile (obj : gmap string py_value)
| JsonPrefix.

(** [w_rng] is the sequence of floats numpy's global generator will
    produce next. *)
Record world := mk_world {
  w_fs : gmap string file;
  w_rng : nat -> float64
}.

Definition M (A : Type) : Type := world -> outcome A * world.

Definition ret {A} (a : A) : M A := fun w => (Ok a, w).
Definition raise {A} (e : exn) : M A := fun w => (Raise e, w).
Definition lift {A} (o : outcome A) : M A := fun w => (o, w).
Definition bind {A B} (m : M A) (k : A -> M B) : M B :=
  fun w =>
    match m w with
    | (Ok a, w') => k a w'
    | (Raise e, w') => (Raise e, w')
    end.

(** [try: m  except Exception as e: h e] *)
Definition try_except {A} (m : M A) (h : exn -> M A) : M A :=
  fun w =>
    match m w with
    | (Ok a, w') => (Ok a, w')
    | (Raise e, w') => h e w'
    end.

Declare Scope py_scope.
Delimit Scope py_scope with py.
Notation "x <- m ;; k" := (bind m (fun x => k))
  (at level 100, m at next level, right associativity) : py_scope.
Notation "m ;; k" := (bind m (fun _ => k))
  (at level 100, right associativity) : py_scope.
Open Scope py_scope.

Definition get_file (path : string) : M (option file) :=
  fun w => (Ok (w_fs w !! path), w).
Definition put_file (path : string) (f : file) : M unit :=
  fun w => (Ok tt, mk_world (<[path := f]> (w_fs w)) (w_rng w)).

(** ** pathlib *)

Fixpoint take_until (c : ascii) (l : list ascii) : list ascii :=
  match l with
  | [] => []
  | a :: t => if Ascii.eqb a c then [] else a :: take_until c t
  end.

(** [Path(p).name]: the text after the last separator. *)
Definition path_name (p : string) : list ascii :=
  rev (take_until "/"%char (rev (list_ascii_of_string p))).

(** [Path(p).suffix]: the name from its last dot on, when that dot is
    neither the first nor the last character of the name. *)
Definition suffix (p : string) : string :=
  let name := path_name p in
  let ext := rev (take_until "."%char (rev name)) in
  if (length ext <? length name)%nat
     && (0 <? length name - length ext - 1)%nat
     && (0 <? length ext)%nat
  then string_of_list_ascii ("."%char :: ext)
  else "".

(** [Path(p).exists()] *)
Definition path_exists (p : string) : M bool :=
  fun w => (Ok (bool_decide (is_Some (w_fs w !! p))), w).

(** [Path(p).with_suffix(s)] for a well-formed suffix [s]. *)
Definition with_suffix (p s : string) : outcome string :=
  let cs := list_ascii_of_string p in
  let name := path_name p in
  if (length name =? 0)%nat
  then Raise (ValueError (p +:+ " has an empty name"))
  else
    let old := String.length (suffix p) in
    Ok (string_of_list_ascii (firstn (length cs - old) cs) +:+ s).

(** ** numpy text files *)

Fixpoint chunks {A} (n width : nat) (l : list A) : list (list A) :=
  match n with
  | O => []
  | S k => firstn width l :: chunks k width (skipn width l)
  end.

(** [np.squeeze] on a shape: the axes of length one are dropped. *)
Definition squeeze (sh : list nat) : list nat :=
  List.filter (fun d => negb (d =? 1)%nat) sh.

(** [float(text)] *)
Definition python_float (c : cell) : option float64 :=
  match c with
  | CNum x => Some x
  | _ => None
  end.

Definition blank {A} (r : list A) : bool := (length r =? 0)%nat.

(** [np.loadtxt(path)] with its defaults: blank lines are skipped, every
    field must be a number, every line must have as many fields as the
    first, and (as [ndmin] is 0) the result is squeezed. *)
Definition np_loadtxt (path : string) : M ndarray :=
  f <- get_file path;;
  match f with
  | None => raise (FileNotFoundError (path +:+ " not found."))
  | Some (TextFile rows) =>
      let lines := List.filter (fun r => negb (blank r)) rows in
      match mapM (mapM python_float) lines with
      | None => raise (ValueError "could not convert string to float")
      | Some vals =>
          let ncols := match vals with [] => 1 | r :: _ => length r end in
          if forallb (fun r => (length r =? ncols)%nat) vals
          then ret (nd_of_floats (squeeze [length vals; ncols]) (concat vals))
          else raise (ValueError "the number of columns changed")
      end
  | Some _ => raise (ValueError "could not convert string to float")
  end.

(** ['%.18e' % v] *)
Definition fmt_e (v : npval) : option cell :=
  match v with
  | NFloat x => Some (CNum x)
  | NObj _ => None
  end.

(** The lines written before the first one that cannot be formatted,
    and whether all of them were. *)
Fixpoint write_rows (rows : list (list npval)) : list (list cell) * bool :=
  match rows with
  | [] => ([], true)
  | r :: t =>
      match mapM fmt_e r with
      | None => ([], false)
      | Some line => let (done, ok) := write_rows t in (line :: done, ok)
      end
  end.

(** [np.savetxt(path, X)]: the file is created, then [X] must be 1-D (a
    column) or 2-D, then its rows are written one per line. *)
Definition np_savetxt (path : string) (X : ndarray) : M unit :=
  put_file path (TextFile []);;
  rows <- lift (match nd_shape X with
                | [n] => Ok (chunks n 1 (nd_data X))
                | [n1; n2] => Ok (chunks n1 n2 (nd_data X))
                | _ => Raise (ValueError "Expected 1D or 2D array")
                end);;
  let (done, ok) := write_rows rows in
  put_file path (TextFile done);;
  if ok then ret tt
  else raise (TypeError "Mismatch between array dtype ('object') and format specifier ('%.18e')").

(** ** h5py *)

(** [h5py.File(path, 'r')] *)
Definition h5_open_r (path : string) : M h5file :=
  f <- get_file path;;
  match f with
  | None => raise (FileNotFoundError ("Unable to open file " +:+ path))
  | Some (H5File h) => ret h
  | Some _ => raise (OSError "Unable to open file (file signature not found)")
  end.

(** The message of the [KeyError] h5py raises for an absent name. *)
Definition absent_msg (name : string) : string :=
  "Unable to synchronously open object (object '" +:+ name
  +:+ "' doesn't exist)".

(** [np.array(f[name])] *)
Definition h5_getitem (h : h5file) (name : string) : outcome ndarray :=
  match h5_datasets h !! name with
  | Some a => Ok a
  | None => Raise (KeyError (absent_msg name))
  end.

(** [h5py.File(path, 'w')]: an empty container replaces what was there. *)
Definition h5_open_w (path : string) : M unit :=
  put_file path (H5File (mk_h5 ∅ ∅)).

Definition h5_update (path : string) (g : h5file -> h5file) : M unit :=
  f <- get_file path;;
  match f with
  | Some (H5File h) => put_file path (H5File (g h))
  | _ => raise (OSError "Not a file id")
  end.

(** [f.create_dataset(name, data=a)]: only numeric arrays have an HDF5
    type. *)
Definition h5_create_dataset (path name : string) (a : ndarray) : M unit :=
  if forallb is_float (nd_data a)
  then h5_update path (fun h => mk_h5 (<[name := a]> (h5_datasets h)) (h5_attrs h))
  else raise (TypeError "Object dtype dtype('O') has no native HDF5 equivalent").

(** The integers of numpy's [int64], those of [uint64], and those of
    either. *)
Definition in_int64 (z : Z) : bool :=
  (- 2 ^ 63 <=? z)%Z && (z <? 2 ^ 63)%Z.
Definition in_uint64 (z : Z) : bool :=
  (0 <=? z)%Z && (z <? 2 ^ 64)%Z.
Definition in_64_bits (z : Z) : bool :=
  (- 2 ^ 63 <=? z)%Z && (z <? 2 ^ 64)%Z.

Definition has_nul (s : string) : bool :=
  existsb (Ascii.eqb "000"%char) (list_ascii_of_string s).

(** Whether the value has an HDF5 type: numpy turns a Python int
    outside 64 bits, alone or in a sequence, into an object, which has
    none, and a variable-length string holds no NUL.  A sequence is an
    array of [int64] or of [uint64]; one that would need both (numpy
    makes it an array of floats) is not a sequence of integers any more
    and is left out here. *)
Definition h5_storable (v : py_value) : bool :=
  match v with
  | PyInt z | NpInt z => in_64_bits z
  | PyFloat _ | NpFloat _ | PyBool _ | NpBool _ => true
  | PyStr s => negb (has_nul s)
  | PySeq _ l => forallb in_int64 l || forallb in_uint64 l
  end.

(** What a stored attribute reads back as: a number or a truth value as
    a numpy scalar, a string as itself, a sequence as an array. *)
Definition h5_stored (v : py_value) : py_value :=
  match v with
  | PyInt z | NpInt z => NpInt z
  | PyFloat x | NpFloat x => NpFloat x
  | PyBool b | NpBool b => NpBool b
  | PyStr s => PyStr s
  | PySeq _ l => PySeq NdArray l
  end.

Definition h5_attr_store (v : py_value) : outcome py_value :=
  if h5_storable v then Ok (h5_stored v)
  else match v with
       | PyStr _ =>
           Raise (ValueError "VLEN strings do not support embedded NULLs")
       | _ =>
           Raise (TypeError "Object dtype dtype('O') has no native HDF5 equivalent")
       end.

(** [f.attrs[key] = value]: the value is converted before anything is
    written; HDF5 refuses an attribute without a name. *)
Definition h5_attrs_setitem (path key : string) (v : py_value) : M unit :=
  if String.eqb key "" then raise (ValueError "no attribute name")
  else
    stored <- lift (h5_attr_store v);;
    h5_update path
      (fun h => mk_h5 (h5_datasets h) (<[key := stored]> (h5_attrs h))).

(** ** json *)

(** The encoder knows the Python types and their subclasses:
    [np.float64] is a [float]; an array, [np.int64] and [np.bool_] are
    refused. *)
Definition json_serializable (v : py_value) : bool :=
  match v with
  | PySeq NdArray _ | NpInt _ | NpBool _ => false
  | _ => true
  end.

(** What a value reads back as after [json.dump]: a tuple becomes a
    list, an [np.float64] a float. *)
Definition json_value (v : py_value) : py_value :=
  match v with
  | PySeq _ l => PySeq PyList l
  | NpFloat x => PyFloat x
  | _ => v
  end.

(** [with open(path, 'w') as f: json.dump(obj, f, indent=2)]: the file
    is emptied when it is opened and the text is written piece by
    piece, so a value the encoder refuses leaves the text written
    before it. *)
Definition json_dump (path : string) (obj : gmap string py_value) : M unit :=
  put_file path (TextFile []);;
  if bool_decide (map_Forall (fun _ v => json_serializable v = true) obj)
  then put_file path (JsonFile (json_value <$> obj))
  else
    put_file path JsonPrefix;;
    raise (TypeError "Object of type ndarray is not JSON serializable").

(** [with open(path, 'r') as f: json.load(f)], for a file that holds a
    JSON object or no JSON text at all. *)
Definition json_load (path : string) : M (gmap string py_value) :=
  f <- get_file path;;
  match f with
  | None => raise (FileNotFoundError ("No such file or directory: " +:+ path))
  | Some (JsonFile obj) => ret obj
  | Some _ => raise (ValueError "Expecting value: line 1 column 1 (char 0)")
  end.

(** ** pandas *)

Record DataFrame := mk_df {
  df_values : ndarray;
  df_index : list npval;
  df_columns : list npval
}.

(** [len(pd.Index(labels))]: the labels are a 1-D array. *)
Definition pd_Index (labels : ndarray) : outcome nat :=
  match nd_shape labels with
  | [] => Raise (TypeError "Index(...) must be called with a collection of some kind")
  | [n] => Ok n
  | _ => Raise (ValueError "Index data must be 1-dimensional")
  end.

(** [pd.DataFrame(data, index=idx, columns=cols)]: the data are made
    2-D, then the row labels and the column labels are built, and their
    numbers must be those of the rows and columns of the data. *)
Definition pd_DataFrame (data idx cols : ndarray) : outcome DataFrame :=
  match
    match nd_shape data with
    | [n] => Some (mk_ndarray [n; 1] (nd_data data), n, 1)
    | [n1; n2] => Some (data, n1, n2)
    | _ => None
    end
  with
  | None => Raise (ValueError "Must pass 2-d input")
  | Some (values, n1, n2) =>
      match pd_Index idx with
      | Raise e => Raise e
      | Ok ni =>
          match pd_Index cols with
          | Raise e => Raise e
          | Ok nc =>
              if (ni =? n1)%nat && (nc =? n2)%nat
              then Ok (mk_df values (nd_data idx) (nd_data cols))
              else Raise (ValueError "Shape of passed values does not match the indices")
          end
      end
  end.

(** The text [to_csv] writes for a label or a value: a NaN is the empty
    field. *)
Definition csv_text (v : npval) : cell :=
  match v with
  | NFloat x => if PrimFloat.is_nan x then CEmpty else CNum x
  | NObj c => c
  end.

(** [df.to_csv(path)]: a header line with an empty first field and the
    column labels, then one line per row, led by its index label. *)
Definition pd_to_csv (df : DataFrame) (path : string) : M unit :=
  let width := match nd_shape (df_values df) with
               | [_; n2] => n2
               | _ => 0
               end in
  let body := chunks (length (df_index df)) width (nd_data (df_values df)) in
  let lines :=
    map (fun '(i, r) => csv_text i :: map csv_text r)
        (combine (df_index df) body) in
  put_file path (CsvFile ((CEmpty :: map csv_text (df_columns df)) :: lines)).

Fixpoint cell_eqb (a b : cell) : bool :=
  match a, b with
  | CNum x, CNum y => PrimFloat.Leibniz.eqb x y
  | CEmpty, CEmpty => true
  | CText s, CText t => String.eqb s t
  | CMangled c j, CMangled d k => cell_eqb c d && (j =? k)%nat
  | _, _ => false
  end.

Definition count_cell (c : cell) (seen : list cell) : nat :=
  length (List.filter (cell_eqb c) seen).

(** A label seen [k > 0] times before is renamed with the suffix [.k]. *)
Fixpoint mangle_dupe_cols (seen names : list cell) : list cell :=
  match names with
  | [] => []
  | c :: t =>
      let k := count_cell c seen in
      (if (k =? 0)%nat then c else CMangled c k)
        :: mangle_dupe_cols (c :: seen) t
  end.

(** A header field left empty is named after its position. *)
Definition unnamed (header : list cell) : list cell :=
  imap (fun j c => match c with
                   | CEmpty => CText ("Unnamed: " +:+ pretty j)
                   | _ => c
                   end) header.

(** The texts [read_csv] takes for a missing value, beside the empty
    field. *)
Definition pd_na_values : list string :=
  ["#N/A"; "#N/A N/A"; "#NA"; "-1.#IND"; "-1.#QNAN"; "-NaN"; "-nan";
   "1.#IND"; "1.#QNAN"; "<NA>"; "N/A"; "NA"; "NULL"; "NaN"; "None";
   "n/a"; "nan"; "null"].

Definition is_na (s : string) : bool := existsb (String.eqb s) pd_na_values.

Definition cell_numeric (c : cell) : bool :=
  match c with
  | CNum _ | CEmpty => true
  | CText s => is_na s
  | _ => false
  end.

Definition pad (width : nat) (r : list cell) : list cell :=
  r ++ repeat CEmpty (width - length r).

(** An empty line; a line that holds one empty field is written [""]
    and is not empty. *)
Definition csv_blank (r : list cell) : bool :=
  match r with
  | [] => true
  | _ => false
  end.

Section Loader.

(** The float that pandas' tokenizer returns for the numeral of [x]. *)
Variable csv_strtod : float64 -> float64.

(** numpy's [add.reduce] over all the elements of a float array
    (pairwise summation). *)
Variable umr_sum : list float64 -> float64.

(** The value of a field in a column: a number in a numeric column, the
    text itself otherwise; an empty field or a NaN marker is a NaN. *)
Definition convert (numeric : bool) (c : cell) : npval :=
  match c with
  | CEmpty => NFloat nan
  | CNum x => if numeric then NFloat (csv_strtod x) else NObj c
  | CText s => if is_na s then NFloat nan else NObj c
  | _ => NObj c
  end.

(** [pd.read_csv(path, index_col=0)]: the first non-blank line is the
    header; a line longer than the header is an error and a shorter one
    is filled with empty fields; the type of each column is inferred;
    the first column is the index and the labels of the others are the
    header's texts. *)
Definition pd_read_csv (path : string) : M DataFrame :=
  f <- get_file path;;
  match f with
  | None => raise (FileNotFoundError ("No such file or directory: " +:+ path))
  | Some (CsvFile rows) =>
      match List.filter (fun r => negb (csv_blank r)) rows with
      | [] => raise (ValueError "No columns to parse from file")
      | header :: body =>
          let width := length header in
          if existsb (fun r => (width <? length r)%nat) body
          then raise (ValueError "Error tokenizing data")
          else
            let body := map (pad width) body in
            let numeric :=
              map (fun j => forallb (fun r => cell_numeric (nth j r CEmpty)) body)
                  (seq 0 width) in
            let typed :=
              map (fun r => map (fun '(n, c) => convert n c) (combine numeric r))
                  body in
            let names := mangle_dupe_cols [] (unnamed header) in
            ret (mk_df
                   (mk_ndarray [length body; width - 1]
                               (concat (map (@tl npval) typed)))
                   (map (fun r => hd (NFloat nan) r) typed)
                   (map NObj (tl names)))
      end
  | Some _ => raise (ValueError "Error tokenizing data")
  end.

(** [labels.astype(float)] *)
Definition astype_float (labels : list npval) : outcome ndarray :=
  match mapM (fun v => match v with
                       | NFloat x => Some x
                       | NObj c => python_float c
                       end) labels with
  | Some xs => Ok (nd_of_floats [length xs] xs)
  | None => Raise (ValueError "could not convert string to float")
  end.

(** [np.mean(a)] and [np.std(a)] *)
Definition np_mean (a : ndarray) : float64 :=
  (umr_sum (floats_of (nd_data a)) / float_of_nat (nd_size a))%float.

Definition np_std (a : ndarray) : float64 :=
  let arrmean := np_mean a in
  let x := map (fun v => (v - arrmean)%float) (floats_of (nd_data a)) in
  let x := map (fun v => (v * v)%float) x in
  PrimFloat.sqrt (umr_sum x / float_of_nat (nd_size a))%float.

(** [np.random.random(shape)]: the next floats of the generator. *)
Definition np_random_random (sh : list nat) : M ndarray :=
  fun w =>
    let n := fold_right Nat.mul 1 sh in
    (Ok (nd_of_floats sh (map (w_rng w) (seq 0 n))),
     mk_world (w_fs w) (fun i => w_rng w (i + n))).

(** ** DataLoader *)

(** The dictionary every loader returns. *)
Record record := mk_record {
  spectrum : ndarray;
  frequencies_f1 : ndarray;
  frequencies_f2 : ndarray;
  metadata : gmap string py_value
}.

Record DataLoader := mk_loader {
  supported_formats : list string;
  current_data : option record;
  self_metadata : gmap string py_value
}.

Definition __init__ : DataLoader :=
  mk_loader [".nmr"; ".fid"; ".dat"; ".txt"; ".csv"; ".h5"] None ∅.

(** [x in l] on strings *)
Definition py_in (x : string) (l : list string) : bool :=
  existsb (String.eqb x) l.

Fixpoint for_each {A} (l : list A) (body : A -> M unit) : M unit :=
  match l with
  | [] => ret tt
  | a :: t => body a;; for_each t body
  end.

Definition not_enough (got : nat) : string :=
  "not enough values to unpack (expected 2, got " +:+ pretty got +:+ ")".

(** [n1, n2 = shape] *)
Definition unpack2 (sh : list nat) : outcome (nat * nat) :=
  match sh with
  | [n1; n2] => Ok (n1, n2)
  | [] | [_] => Raise (ValueError (not_enough (length sh)))
  | _ => Raise (ValueError "too many values to unpack (expected 2)")
  end.

Definition _load_hdf5 (file_path : string) : M record :=
  f <- h5_open_r file_path;;
  s <- lift (h5_getitem f "spectrum");;
  f1 <- lift (h5_getitem f "frequencies_f1");;
  f2 <- lift (h5_getitem f "frequencies_f2");;
  ret (mk_record s f1 f2 (h5_attrs f)).

Definition _load_text_format (file_path : string) : M record :=
  try_except
    (data_matrix <- np_loadtxt file_path;;
     metadata_file <- lift (with_suffix file_path ".json");;
     found <- path_exists metadata_file;;
     metadata <- (if found then json_load metadata_file else ret ∅);;
     points <- lift (unpack2 (nd_shape data_matrix));;
     let '(f1_points, f2_points) := points in
     let freq_f1 := np_linspace 0 12 f1_points in
     let freq_f2 := np_linspace 0 12 f2_points in
     ret (mk_record data_matrix freq_f1 freq_f2 metadata))
    (fun e => raise (ValueError ("テキストファイルの読み込みに失敗: " +:+ exn_str e))).

Definition csv_metadata (file_path : string) (data_matrix : ndarray)
  : gmap string py_value :=
  <["file_format" := PyStr "csv"]>
    (<["original_file" := PyStr file_path]>
       (<["data_shape" := PySeq Tuple (map Z.of_nat (nd_shape data_matrix))]> ∅)).

Definition _load_csv (file_path : string) : M record :=
  try_except
    (df <- pd_read_csv file_path;;
     let data_matrix := df_values df in
     freq_f1 <- lift (astype_float (df_index df));;
     freq_f2 <- lift (astype_float (df_columns df));;
     let metadata := csv_metadata file_path data_matrix in
     ret (mk_record data_matrix freq_f1 freq_f2 metadata))
    (fun e => raise (ValueError ("CSVファイルの読み込みに失敗: " +:+ exn_str e))).

Definition nmr_metadata (file_path : string) : gmap string py_value :=
  <["file_format" := PyStr "nmr"]>
    (<["original_file" := PyStr file_path]>
       (<["note" := PyStr "NMR format loader needs implementation"]> ∅)).

Definition _load_nmr_format (file_path : string) : M record :=
  try_except
    (let metadata := nmr_metadata file_path in
     spectrum <- np_random_random [512; 1024];;
     let freq_f1 := np_linspace 0 12 512 in
     let freq_f2 := np_linspace 0 12 1024 in
     ret (mk_record spectrum freq_f1 freq_f2 metadata))
    (fun e => raise (ValueError ("NMRファイルの読み込みに失敗: " +:+ exn_str e))).

Definition load_data (self : DataLoader) (file_path : string) : M record :=
  found <- path_exists file_path;;
  if negb found
  then raise (FileNotFoundError ("ファイルが見つかりません: " +:+ file_path))
  else if negb (py_in (suffix file_path) (supported_formats self))
  then raise (ValueError ("サポートされていないファイル形式: " +:+ suffix file_path))
  else if String.eqb (suffix file_path) ".h5"
  then _load_hdf5 file_path
  else if py_in (suffix file_path) [".txt"; ".dat"]
  then _load_text_format file_path
  else if String.eqb (suffix file_path) ".csv"
  then _load_csv file_path
  else if py_in (suffix file_path) [".nmr"; ".fid"]
  then _load_nmr_format file_path
  else raise (NotImplementedError ("ローダーが未実装: " +:+ suffix file_path)).

(** The items of the metadata dictionary are visited in the order
    [map_to_list] gives; the keys being distinct, the order does not
    show in the attributes written. *)
Definition _save_hdf5 (data : record) (output_path : string) : M unit :=
  h5_open_w output_path;;
  h5_create_dataset output_path "spectrum" (spectrum data);;
  h5_create_dataset output_path "frequencies_f1" (frequencies_f1 data);;
  h5_create_dataset output_path "frequencies_f2" (frequencies_f2 data);;
  for_each (map_to_list (metadata data))
    (fun '(key, value) => h5_attrs_setitem output_path key value).

Definition _save_csv (data : record) (output_path : string) : M unit :=
  df <- lift (pd_DataFrame (spectrum data) (frequencies_f1 data)
                           (frequencies_f2 data));;
  pd_to_csv df output_path.

Definition _save_text (data : record) (output_path : string) : M unit :=
  np_savetxt output_path (spectrum data);;
  metadata_path <- lift (with_suffix output_path ".json");;
  json_dump metadata_path (metadata data).

Definition save_data (self : DataLoader) (data : record)
  (output_path format : string) : M unit :=
  if String.eqb format "h5" then _save_hdf5 data output_path
  else if String.eqb format "csv" then _save_csv data output_path
  else if String.eqb format "txt" then _save_text data output_path
  else raise (ValueError ("サポートされていない出力形式: " +:+ format)).

Record data_info := mk_info {
  shape : list nat;
  dtype : string;
  min_value : float64;
  max_value : float64;
  mean_value : float64;
  std_value : float64;
  frequency_range_f1 : float64 * float64;
  frequency_range_f2 : float64 * float64;
  info_metadata : gmap string py_value
}.

Definition get_data_info (self : DataLoader) (data : record) : M data_info :=
  let spectrum := spectrum data in
  let shape := nd_shape spectrum in
  let dtype := dtype_str spectrum in
  min_value <- lift (np_min spectrum);;
  max_value <- lift (np_max spectrum);;
  let mean_value := np_mean spectrum in
  let std_value := np_std spectrum in
  f1_min <- lift (np_min (frequencies_f1 data));;
  f1_max <- lift (np_max (frequencies_f1 data));;
  f2_min <- lift (np_min (frequencies_f2 data));;
  f2_max <- lift (np_max (frequencies_f2 data));;
  ret (mk_info shape dtype min_value max_value mean_value std_value
               (f1_min, f1_max) (f2_min, f2_max) (metadata data)).

End Loader.

(** ** The Canonical Record *)

(** [len(axis_f1) == n1 and len(axis_f2) == n2] for a matrix of
    dimensions [(n1, n2)] and two 1-D axes. *)
Definition dims_ok (r : record) : bool :=
  match nd_shape (spectrum r), nd_shape (frequencies_f1 r),
        nd_shape (frequencies_f2 r) with
  | [n1; n2], [l1], [l2] => (l1 =? n1)%nat && (l2 =? n2)%nat
  | _, _, _ => false
  end.

(** A record of the data model: a float matrix and float axes of
    matching lengths; it is a Canonical Record when moreover
    [n1, n2 >= 1]. *)
Definition well_formed (r : record) : bool :=
  dims_ok r
  && nd_float_ok (spectrum r)
  && nd_float_ok (frequencies_f1 r)
  && nd_float_ok (frequencies_f2 r).

Definition canonical (r : record) : bool :=
  well_formed r && (0 <? nd_size (spectrum r))%nat.

(** The four tests of the dispatch chain of [load_data], in order. *)
Definition branch_tests (s : string) : list bool :=
  [String.eqb s ".h5"; py_in s [".txt"; ".dat"];
   String.eqb s ".csv"; py_in s [".nmr"; ".fid"]].

(** The loader the first passing test selects, the chain having no
    final alternative. *)
Definition selected_loader (csv_strtod : float64 -> float64) (s : string)
  : string -> M record :=
  if String.eqb s ".h5" then _load_hdf5
  else if py_in s [".txt"; ".dat"] then _load_text_format
  else if String.eqb s ".csv" then _load_csv csv_strtod
  else _load_nmr_format.

Definition empty_world : world := mk_world ∅ (fun _ => 0%float).

(** The metadata flags the record as synthetic. *)
Definition has_synthetic_marker (r : record) : bool :=
  bool_decide (is_Some (metadata r !! "synthetic")).

(** *** Sample inputs *)

Definition floats (l : list float64) : list npval := map NFloat l.

(** A container whose f1 axis has five points for a 2 x 3 matrix. *)
Definition h5_mismatched : h5file :=
  mk_h5 (<["spectrum" := mk_ndarray [2; 3] (floats [1; 2; 3; 4; 5; 6]%float)]>
         (<["frequencies_f1" := mk_ndarray [5] (floats [0; 1; 2; 3; 4]%float)]>
          (<["frequencies_f2" := mk_ndarray [3] (floats [0; 1; 2]%float)]> ∅)))
        ∅.

(** A container whose spectrum dataset is of rank 1. *)
Definition h5_rank1 : h5file :=
  mk_h5 (<["spectrum" := mk_ndarray [3] (floats [1; 2; 3]%float)]>
         (<["frequencies_f1" := mk_ndarray [1] (floats [0]%float)]>
          (<["frequencies_f2" := mk_ndarray [3] (floats [0; 1; 2]%float)]> ∅)))
        ∅.

(** A container without the f2 axis. *)
Definition h5_no_f2 : h5file :=
  mk_h5 (<["spectrum" := mk_ndarray [1; 3] (floats [1; 2; 3]%float)]>
         (<["frequencies_f1" := mk_ndarray [1] (floats [0]%float)]> ∅))
        ∅.

Definition world_with (p : string) (f : file) : world :=
  mk_world {[ p := f ]} (fun _ => 0%float).

(** The matrix [[1,2,3],[4,5,6]] with the axes [0,1] and [0,1,2]. *)
Definition record_2x3 : record :=
  mk_record (mk_ndarray [2; 3] (floats [1; 2; 3; 4; 5; 6]%float))
            (mk_ndarray [2] (floats [0; 1]%float))
            (mk_ndarray [3] (floats [0; 1; 2]%float))
            (<["nucleus" := PyStr "1H"]> (<["scans" := PyInt 16]> ∅)).

(** The same matrix and axes without metadata. *)
Definition record_2x3_bare : record :=
  mk_record (spectrum record_2x3) (frequencies_f1 record_2x3)
            (frequencies_f2 record_2x3) ∅.

(** A single-row matrix [[1,2,3]]. *)
Definition record_1x3 : record :=
  mk_record (mk_ndarray [1; 3] (floats [1; 2; 3]%float))
            (mk_ndarray [1] (floats [0]%float))
            (mk_ndarray [3] (floats [0; 1; 2]%float))
            ∅.

(** A 1 x 2 matrix whose f2 axis repeats the value 5. *)
Definition record_dup_f2 : record :=
  mk_record (mk_ndarray [1; 2] (floats [1; 2]%float))
            (mk_ndarray [1] (floats [0]%float))
            (mk_ndarray [2] (floats [5; 5]%float))
            ∅.

(** A record of shape (0, 3). *)
Definition record_0x3 : record :=
  mk_record (mk_ndarray [0; 3] [])
            (mk_ndarray [0] [])
            (mk_ndarray [3] (floats [0; 1; 2]%float))
            ∅.

(** A 2 x 2 matrix in a delimited-text file. *)
Definition text_2x2 : file :=
  TextFile [[CNum 1; CNum 2]; [CNum 3; CNum 4]].

(** What [_save_hdf5] leaves at the path: the three datasets and the
    attributes set one after the other. *)
Definition set_attr (a : gmap string py_value) (kv : string * py_value)
  : gmap string py_value :=
  <[kv.1 := h5_stored kv.2]> a.

Definition h5_of_record (r : record) : h5file :=
  mk_h5 (<["frequencies_f2" := frequencies_f2 r]>
         (<["frequencies_f1" := frequencies_f1 r]>
          (<["spectrum" := spectrum r]> ∅)))
        (fold_left set_attr (map_to_list (metadata r)) ∅).

Definition write_file (p : string) (f : file) (w : world) : world :=
  mk_world (<[p := f]> (w_fs w)) (w_rng w).

(** A left-to-right sum, one possible [add.reduce]. *)
Definition naive_sum (l : list float64) : float64 :=
  fold_left PrimFloat.add l 0%float.

(** What [get_data_info] returns when no reduction fails. *)
Definition info_of (umr_sum : list float64 -> float64) (r : record)
  : data_info :=
  mk_info (nd_shape (spectrum r)) "float64"
    (reduce np_minimum (floats_of (nd_data (spectrum r))))
    (reduce np_maximum (floats_of (nd_data (spectrum r))))
    (np_mean umr_sum (spectrum r))
    (np_std umr_sum (spectrum r))
    (reduce np_minimum (floats_of (nd_data (frequencies_f1 r))),
     reduce np_maximum (floats_of (nd_data (frequencies_f1 r))))
    (reduce np_minimum (floats_of (nd_data (frequencies_f2 r))),
     reduce np_maximum (floats_of (nd_data (frequencies_f2 r))))
    (metadata r).

(** The line [np.savetxt] writes for a row of floats. *)
Definition cells_of (r : list npval) : list cell := map CNum (floats_of r).

(** The lines [np.savetxt] writes for a float matrix. *)
Definition text_of (a : ndarray) : list (list cell) :=
  match nd_shape a with
  | [n1; n2] => map cells_of (chunks n1 n2 (nd_data a))
  | _ => []
  end.

(** The exception the text loader re-raises. *)
Definition text_error (e : exn) : exn :=
  ValueError ("テキストファイルの読み込みに失敗: " +:+ exn_str e).

(** The header line and the lines [_save_csv] writes for a record. *)
Definition csv_header (r : record) : list cell :=
  CEmpty :: map csv_text (nd_data (frequencies_f2 r)).

Definition csv_lines (r : record) : list (list cell) :=
  let width := match nd_shape (spectrum r) with
               | [_; n2] => n2
               | _ => 0
               end in
  map (fun '(i, row) => csv_text i :: map csv_text row)
      (combine (nd_data (frequencies_f1 r))
               (chunks (length (nd_data (frequencies_f1 r))) width
                       (nd_data (spectrum r)))).

(** A computation that leaves the world as it found it. *)
Definition read_only {A} (m : M A) : Prop := forall w, snd (m w) = w.

Definition csv_error (e : exn) : exn :=
  ValueError ("CSVファイルの読み込みに失敗: " +:+ exn_str e).

(** A world holding a 2 x 2 text matrix and its sidecar. *)
Definition world_text_sidecar : world :=
  mk_world (<["m.txt" := text_2x2]>
              (<["m.json" := JsonFile (<["nucleus" := PyStr "1H"]> ∅)]> ∅))
           (fun _ => 0%float).

(** A 2 x 3 matrix with an f1 axis of five points. *)
Definition record_mismatched : record :=
  mk_record (mk_ndarray [2; 3] (floats [1; 2; 3; 4; 5; 6]%float))
            (mk_ndarray [5] (floats [0; 1; 2; 3; 4]%float))
            (mk_ndarray [3] (floats [0; 1; 2]%float))
            ∅.

(** The line of a CSV file for an index label and a row of numbers. *)
Definition csv_line (ir : float64 * list float64) : list cell :=
  CNum (fst ir) :: map CNum (snd ir).

(** A computation that touches no file outside [ps] and does not advance
    the random generator. *)
Definition writes_only {A} (ps : list string) (m : M A) : Prop :=
  forall w,
    w_rng (snd (m w)) = w_rng w
    /\ forall q, q ∉ ps -> w_fs (snd (m w)) !! q = w_fs w !! q.

(** The paths [save_data] may write for an output path and a format. *)
Definition save_targets (output_path format : string) : list string :=
  output_path
    :: (if String.eqb format "txt"
        then match with_suffix output_path ".json" with
             | Ok q => [q]
             | Raise _ => []
             end
        else []).

(** A record whose matrix is of rank 3, as the binary-container loader
    may return. *)
Definition record_rank3 : record :=
  mk_record (mk_ndarray [1; 1; 2] (floats [1; 2]%float))
            (mk_ndarray [1] (floats [0]%float))
            (mk_ndarray [1] (floats [0]%float))
            ∅.

(** The record of the matrix [[1,2,3],[4,5,6]] as [_load_csv] returns it
    for the path [m.csv]. *)
Definition record_from_csv : record :=
  mk_record (spectrum record_2x3) (frequencies_f1 record_2x3)
            (frequencies_f2 record_2x3)
            (csv_metadata "m.csv" (spectrum record_2x3)).

(** A world whose only file is the CSV export of the 2 x 3 record. *)
Definition world_csv_2x3 : world :=
  world_with "m.csv"
    (CsvFile (csv_header record_2x3_bare :: csv_lines record_2x3_bare)).

(** A line of a CSV file: an index numeral followed by any fields. *)
Definition csv_cells_line (ic : float64 * list cell) : list cell :=
  CNum (fst ic) :: snd ic.

(** A CSV table whose second line has a text in its last field. *)
Definition world_csv_text_cell : world :=
  world_with "t.csv"
    (CsvFile [CEmpty :: map CNum [0; 1]%float;
              csv_cells_line (0%float, [CNum 1; CNum 2]%float);
              csv_cells_line (1%float, [CNum 3%float; CText "abc"])]).

(** * The scripts

    [scripts/setup_environment.py] and [scripts/check_gui_environment.py].
    What they print is not modelled; what they read of the machine (the
    version of the interpreter, the environment, the installed
    packages) is an argument. *)

Module setup_environment.

(** An element of a tuple such as [sys.version_info]. *)
Inductive elt :=
| EInt (z : Z)
| EStr (s : string).

Definition elt_eqb (x y : elt) : bool :=
  match x, y with
  | EInt a, EInt b => (a =? b)%Z
  | EStr a, EStr b => String.eqb a b
  | _, _ => false
  end.

(** [x < y]: an int and a str are not ordered ([None] is the
    [TypeError]). *)
Definition elt_ltb (x y : elt) : option bool :=
  match x, y with
  | EInt a, EInt b => Some (a <? b)%Z
  | EStr a, EStr b => Some (String.ltb a b)
  | _, _ => None
  end.

(** [a < b] on tuples: the first two elements that differ decide;
    without such a pair the shorter tuple is the smaller. *)
Fixpoint tuple_lt (a b : list elt) : option bool :=
  match a, b with
  | _, [] => Some false
  | [], _ :: _ => Some true
  | x :: a', y :: b' => if elt_eqb x y then tuple_lt a' b' else elt_ltb x y
  end.

Record version_info := mk_version {
  major : Z;
  minor : Z;
  micro : Z;
  releaselevel : string;
  serial : Z
}.

Definition as_tuple (v : version_info) : list elt :=
  [EInt (major v); EInt (minor v); EInt (micro v); EStr (releaselevel v);
   EInt (serial v)].

(** The value returned; [None] is an exception. *)
Definition check_python_version (v : version_info) : option bool :=
  match tuple_lt (as_tuple v) [EInt 3; EInt 12] with
  | Some true => Some false
  | Some false => Some true
  | None => None
  end.

(** What [json.dump] is given. *)
#[warnings="-register-all"]
Inductive json :=
| JString (s : string)
| JArray (l : list json)
| JObject (l : list (string * json)).

(** The tree below the project root, which exists: a path is the list
    of its components, the empty list being the root itself. *)
Inductive node :=
| Dir
| File (content : json).

Definition tree := gmap (list string) node.

Definition node_at (t : tree) (p : list string) : option node :=
  match p with
  | [] => Some Dir
  | _ => t !! p
  end.

Inductive os_exn :=
| FileNotFoundError
| FileExistsError
| NotADirectoryError
| IsADirectoryError.

Inductive result :=
| Done
| Raised (e : os_exn).

(** The components of a relative path written with [/]. *)
Fixpoint split_slash (cur : string) (s : string) : list string :=
  match s with
  | EmptyString => [cur]
  | String c s' =>
      if Ascii.eqb c "/"%char then cur :: split_slash "" s'
      else split_slash (cur +:+ String c "") s'
  end.

Definition parts (s : string) : list string :=
  List.filter (fun c => negb (String.eqb c "")) (split_slash "" s).

(** Walking down from [here] through the components [todo]: each must
    lead to a directory. *)
Fixpoint resolve (t : tree) (here todo : list string) : option os_exn :=
  match todo with
  | [] => None
  | c :: rest =>
      match node_at t (here ++ [c]) with
      | Some Dir => resolve t (here ++ [c]) rest
      | Some (File _) => Some NotADirectoryError
      | None => Some FileNotFoundError
      end
  end.

(** [os.mkdir(p)] *)
Definition os_mkdir (p : list string) (t : tree) : result * tree :=
  match resolve t [] (removelast p) with
  | Some e => (Raised e, t)
  | None =>
      match node_at t p with
      | Some _ => (Raised FileExistsError, t)
      | None => (Done, <[p := Dir]> t)
      end
  end.

(** [Path.is_dir()] *)
Definition is_dir (p : list string) (t : tree) : bool :=
  match resolve t [] (removelast p), node_at t p with
  | None, Some Dir => true
  | _, _ => false
  end.

(** [Path.mkdir(parents=False, exist_ok=exist_ok)] *)
Definition mkdir_plain (p : list string) (exist_ok : bool) (t : tree)
  : result * tree :=
  match os_mkdir p t with
  | (Done, t') => (Done, t')
  | (Raised FileNotFoundError, t') => (Raised FileNotFoundError, t')
  | (Raised e, t') =>
      if negb exist_ok || negb (is_dir p t') then (Raised e, t')
      else (Done, t')
  end.

(** [Path.mkdir(parents=True, exist_ok=exist_ok)] on the path whose
    components, last first, are [rp]: when the parent is missing it is
    made first, with its own parents, and the directory is made again. *)
Fixpoint mkdir_parents (rp : list string) (exist_ok : bool) (t : tree)
  : result * tree :=
  match os_mkdir (rev rp) t with
  | (Done, t') => (Done, t')
  | (Raised FileNotFoundError, t') =>
      match rp with
      | [] => (Raised FileNotFoundError, t')
      | _ :: rparent =>
          match mkdir_parents rparent true t' with
          | (Done, t1) => mkdir_plain (rev rp) exist_ok t1
          | (Raised e, t1) => (Raised e, t1)
          end
      end
  | (Raised e, t') =>
      if negb exist_ok || negb (is_dir (rev rp) t') then (Raised e, t')
      else (Done, t')
  end.

Definition mkdir (p : list string) (parents exist_ok : bool) (t : tree)
  : result * tree :=
  if parents then mkdir_parents (rev p) exist_ok t
  else mkdir_plain p exist_ok t.

Definition directories : list string :=
  ["data/sample_spectra/cosy";
   "data/sample_spectra/tocsy";
   "data/sample_spectra/noesy";
   "data/tutorials";
   "notebooks/tutorials";
   "notebooks/examples";
   "notebooks/playground";
   "tests/test_core";
   "tests/test_gui";
   "tests/test_visualization";
   "docs/tutorial";
   "docs/api"].

Fixpoint for_dirs (l : list string) (t : tree) : result * tree :=
  match l with
  | [] => (Done, t)
  | dir_path :: rest =>
      match mkdir (parts dir_path) true true t with
      | (Done, t1) => for_dirs rest t1
      | (Raised e, t1) => (Raised e, t1)
      end
  end.

Definition create_directories (t : tree) : result * tree :=
  for_dirs directories t.

(** [open(p, "w")] followed by [json.dump(content, f)] *)
Definition write_json (p : list string) (content : json) (t : tree)
  : result * tree :=
  match resolve t [] (removelast p) with
  | Some e => (Raised e, t)
  | None =>
      match node_at t p with
      | Some Dir => (Raised IsADirectoryError, t)
      | _ => (Done, <[p := File content]> t)
      end
  end.

Definition user_config (project_root : string) : json :=
  JObject
    [("user_preferences",
      JObject [("default_workspace", JString (project_root +:+ "/data"));
               ("recent_files", JArray []);
               ("theme", JString "light");
               ("language", JString "ja")])].

Definition create_sample_config (project_root : string) (t : tree)
  : result * tree :=
  let config_dir := ["config"] in
  let user_config_file := config_dir ++ ["user_settings.json"] in
  write_json user_config_file (user_config project_root) t.

(** The path is none of those a list of components leads through. *)
Definition off_path (q p : list string) : Prop :=
  forall n, q <> firstn n p.

End setup_environment.

Module check_gui_environment.

(** What the script observes of the machine. *)
Record environment := mk_env {
  (** [os.environ.get('DISPLAY')] *)
  display : option string;
  (** the entries of [/tmp/.X11-unix] named [X*], when it exists *)
  x11_unix : option (list string);
  (** the imports from PyQt6 succeed *)
  pyqt6 : bool;
  (** the return code of [dpkg -l package]; [None] when there is no
      [dpkg] command *)
  dpkg : string -> option Z;
  (** what [app.exec()] returns in the GUI test; [None] when the test
      raises *)
  app_exec : option Z
}.

Definition check_display_variable (env : environment) : bool :=
  match display env with
  | None => false
  | Some d => negb (String.eqb d "")
  end.

Definition check_x11_socket (env : environment) : bool :=
  match x11_unix env with
  | Some socket_files => true
  | None => false
  end.

Definition check_qt_libraries (env : environment) : bool := pyqt6 env.

Definition required_packages : list string :=
  ["libgl1-mesa-glx"; "libxcb-xinerama0"; "fonts-dejavu-core"].

(** The loop over the packages, with the packages found missing so
    far. *)
Fixpoint for_packages (env : environment) (l : list string)
  (missing_packages : list string) : bool :=
  match l with
  | [] =>
      match missing_packages with
      | [] => true
      | _ :: _ => false
      end
  | package :: rest =>
      match dpkg env package with
      | None => true
      | Some returncode =>
          for_packages env rest
            (if negb (returncode =? 0)%Z
             then missing_packages ++ [package]
             else missing_packages)
      end
  end.

Definition check_system_packages (env : environment) : bool :=
  for_packages env required_packages [].

Definition run_simple_gui_test (env : environment) : bool :=
  match app_exec env with
  | Some result => (result =? 0)%Z
  | None => false
  end.

(** [sum(results)] on a list of booleans *)
Definition sum (results : list bool) : nat :=
  fold_left (fun acc (b : bool) => acc + (if b then 1 else 0)) results 0.

Definition main (env : environment) : bool :=
  let results := [] in
  let results := results ++ [check_display_variable env] in
  let results := results ++ [check_x11_socket env] in
  let qt_ok := check_qt_libraries env in
  let results := results ++ [qt_ok] in
  let results := results ++ [check_system_packages env] in
  let results :=
    if qt_ok then results ++ [run_simple_gui_test env] else results in
  let passed := sum results in
  let total := length results in
  (passed =? total)%nat.

(** The status the script exits with. *)
Definition exit_status (env : environment) : Z :=
  if main env then 0 else 1.

End check_gui_environment.

(** * The loader: what its properties speak of *)

(** The first of the three names [_load_hdf5] looks up, in the order of
    its lookups, that the container does not hold. *)
Definition first_absent (h : h5file) : option string :=
  List.find (fun name => match h5_datasets h !! name with
                         | None => true
                         | Some _ => false
                         end)
            ["spectrum"; "frequencies_f1"; "frequencies_f2"].

(** An attribute that h5py stores: a name that is not empty and holds
    no NUL, and a value with an HDF5 type, a string not being empty and
    a sequence being neither empty nor of more than a thousand
    elements (an attribute holds less than 64 KiB). *)
Definition h5_attr_ok (k : string) (v : py_value) : bool :=
  negb (String.eqb k "") && negb (has_nul k) && h5_storable v
  && match v with
     | PySeq _ l => negb (length l =? 0)%nat && (length l <=? 1000)%nat
     | PyStr s => negb (String.eqb s "")
     | _ => true
     end.

(** The 2 x 3 record with an integer of more than 64 bits in its
    metadata. *)
Definition record_big_int : record :=
  mk_record (spectrum record_2x3) (frequencies_f1 record_2x3)
            (frequencies_f2 record_2x3)
            (<["big" := PyInt (2 ^ 70)]> ∅).

(** A text that [read_csv] keeps as it is: a word of lowercase letters
    that is neither a NaN marker, nor a spelling of infinity, nor a
    truth value. *)
Definition lower_letter (c : ascii) : bool :=
  (97 <=? nat_of_ascii c)%nat && (nat_of_ascii c <=? 122)%nat.

Definition csv_word (s : string) : bool :=
  negb (String.eqb s "")
  && forallb lower_letter (list_ascii_of_string s)
  && negb (existsb (String.eqb s)
             ["nan"; "null"; "inf"; "infinity"; "true"; "false"]).

(** *** What the reductions are to return *)

(** [m] is the minimum of the numbers [l] as numpy understands it: a
    NaN when one of them is a NaN; otherwise a number equal to one of
    them and not above any of them.  Equality of floats leaves the sign
    of a zero open. *)
Definition least (m : float64) (l : list float64) : Prop :=
  if existsb PrimFloat.is_nan l then PrimFloat.is_nan m = true
  else (exists x, x ∈ l /\ (m =? x)%float = true)
       /\ forall x, x ∈ l -> (m <=? x)%float = true.

Definition greatest (m : float64) (l : list float64) : Prop :=
  if existsb PrimFloat.is_nan l then PrimFloat.is_nan m = true
  else (exists x, x ∈ l /\ (m =? x)%float = true)
       /\ forall x, x ∈ l -> (x <=? m)%float = true.

(** [a] is a floating-point sum of the numbers [l]: the value of
    float64 additions that take each of them once, in some order and
    bracketing, a partial sum possibly starting from a zero. *)
Inductive sums_to : list float64 -> float64 -> Prop :=
| sums_nil : sums_to [] 0%float
| sums_nil_neg : sums_to [] neg_zero
| sums_one (x : float64) : sums_to [x] x
| sums_app (l1 l2 : list float64) (a b : float64) :
    sums_to l1 a -> sums_to l2 b -> sums_to (l1 ++ l2) (a + b)%float
| sums_perm (l l' : list float64) (a : float64) :
    l ≡ₚ l' -> sums_to l a -> sums_to l' a.

(** Not greater. *)
Definition le_cmp (c : comparison) : bool :=
  match c with Gt => false | _ => true end.

(** A file whose text is no JSON text: a binary container, the
    beginning of a JSON object, or a table of numerals that holds two
    of them or more. *)
Definition is_numeral (c : cell) : bool :=
  match c with
  | CNum _ => true
  | _ => false
  end.

Definition not_json (f : file) : bool :=
  match f with
  | H5File _ | JsonPrefix => true
  | TextFile rows | CsvFile rows =>
      forallb (forallb is_numeral) rows && (2 <=? length (concat rows))%nat
  | JsonFile _ => false
  end.

(** A field of a plain table: a numeral, nothing, or a word. *)
Definition plain_cell (c : cell) : bool :=
  match c with
  | CNum _ | CEmpty => true
  | CText s => csv_word s
  | CMangled _ _ => false
  end.

(** * Properties *)

(** ** Stepping through a computation *)

Lemma bind_ok_inv {A B} (m : M A) (k : A -> M B) (w w' : world) (b : B) :
  bind m k w = (Ok b, w') ->
  exists a w1, m w = (Ok a, w1) /\ k a w1 = (Ok b, w').
Proof.
  unfold bind. destruct (m w) as [[a | e] w1]; [eauto | discriminate].
Qed.

Lemma lift_ok_inv {A} (o : outcome A) (w w' : world) (a : A) :
  lift o w = (Ok a, w') -> o = Ok a /\ w' = w.
Proof. unfold lift. intros [= -> ->]. auto. Qed.

Lemma try_except_raise_inv {A} (m : M A) (f : exn -> exn) (w w' : world)
  (a : A) :
  try_except m (fun e => raise (f e)) w = (Ok a, w') -> m w = (Ok a, w').
Proof.
  unfold try_except, raise. destruct (m w) as [[x | e] w1]; [auto | discriminate].
Qed.

Lemma try_except_not_implemented {A} (m : M A) (f : exn -> string)
  (w : world) (msg : string) :
  fst (try_except m (fun e => raise (ValueError (f e))) w)
  <> Raise (NotImplementedError msg).
Proof.
  unfold try_except, raise. by destruct (m w) as [[a | e] w1].
Qed.

Lemma ok_pair_inj {A} (a b : A) (w1 w2 : world) :
  (Ok a, w1) = (Ok b, w2) -> a = b /\ w1 = w2.
Proof. intros H. by injection H. Qed.

Ltac step H :=
  let a := fresh "a" in
  let w1 := fresh "w" in
  let Hm := fresh "Hm" in
  apply bind_ok_inv in H as (a & w1 & Hm & H).

(** ** Lists, chunks and floats *)

Lemma lookup_map {A B} (f : A -> B) (l : list A) (i : nat) :
  map f l !! i = f <$> l !! i.
Proof.
  revert i. induction l as [| a t IH]; intros [| i]; cbn; done.
Qed.

Lemma filter_all {A} (f : A -> bool) (l : list A) :
  Forall (fun x => f x = true) l -> List.filter f l = l.
Proof.
  induction 1 as [| x t Hx _ IH]; cbn; [done |]. by rewrite Hx, IH.
Qed.

Lemma forallb_firstn {A} (f : A -> bool) (n : nat) (l : list A) :
  forallb f l = true -> forallb f (firstn n l) = true.
Proof.
  rewrite !forallb_forall, <- !List.Forall_forall. apply Forall_take.
Qed.

Lemma forallb_skipn {A} (f : A -> bool) (n : nat) (l : list A) :
  forallb f l = true -> forallb f (skipn n l) = true.
Proof.
  rewrite !forallb_forall, <- !List.Forall_forall. apply Forall_drop.
Qed.

Lemma chunks_length {A} (n width : nat) (l : list A) :
  length (chunks n width l) = n.
Proof.
  revert l. induction n as [| n IH]; intros l; cbn; [done |]. by rewrite IH.
Qed.

Lemma chunks_concat {A} (n width : nat) (l : list A) :
  length l = n * width -> concat (chunks n width l) = l.
Proof.
  revert l. induction n as [| n IH]; intros l Hlen; cbn.
  - by destruct l.
  - rewrite IH; [apply firstn_skipn |]. rewrite length_skipn. lia.
Qed.

Lemma chunks_widths {A} (n width : nat) (l : list A) :
  length l = n * width ->
  Forall (fun c => length c = width) (chunks n width l).
Proof.
  revert l. induction n as [| n IH]; intros l Hlen; cbn; [constructor |].
  constructor.
  - rewrite length_firstn. lia.
  - apply IH. rewrite length_skipn. lia.
Qed.

Lemma chunks_width_le {A} (n width : nat) (l : list A) :
  Forall (fun c => length c <= width) (chunks n width l).
Proof.
  revert l. induction n as [| n IH]; intros l; cbn; constructor; [| apply IH].
  rewrite length_firstn. lia.
Qed.

Lemma chunks_floats (n width : nat) (l : list npval) :
  forallb is_float l = true ->
  Forall (fun c => forallb is_float c = true) (chunks n width l).
Proof.
  revert l. induction n as [| n IH]; intros l Hl; cbn; constructor.
  - by apply forallb_firstn.
  - apply IH. by apply forallb_skipn.
Qed.

Lemma floats_of_NFloat (l : list npval) :
  forallb is_float l = true -> map NFloat (floats_of l) = l.
Proof.
  induction l as [| [x | c] t IH]; cbn; [done | | done].
  intros Ht. unfold floats_of in IH. by rewrite (IH Ht).
Qed.

Lemma floats_of_length (l : list npval) :
  forallb is_float l = true -> length (floats_of l) = length l.
Proof.
  intros H. rewrite <- (floats_of_NFloat l H) at 2. by rewrite length_map.
Qed.

Lemma floats_of_concat (ls : list (list npval)) :
  concat (map floats_of ls) = floats_of (concat ls).
Proof.
  induction ls as [| c t IH]; cbn [map concat]; [done |].
  rewrite IH. unfold floats_of. by rewrite flat_map_app.
Qed.

Lemma mapM_fmt_e (r : list npval) :
  forallb is_float r = true -> mapM fmt_e r = Some (cells_of r).
Proof.
  induction r as [| [x | c] t IH]; cbn; [done | | done].
  intros Ht. unfold cells_of in IH. by rewrite (IH Ht).
Qed.

Lemma mapM_python_float (xs : list float64) :
  mapM python_float (map CNum xs) = Some xs.
Proof. induction xs as [| x t IH]; cbn; [done |]. by rewrite IH. Qed.

Lemma mapM_rows (rows : list (list npval)) :
  mapM (mapM python_float) (map cells_of rows) = Some (map floats_of rows).
Proof.
  apply mapM_Some_2.
  induction rows as [| r t IH]; cbn [map]; constructor; [| done].
  apply mapM_python_float.
Qed.

Lemma write_rows_floats (n width : nat) (l : list npval) :
  forallb is_float l = true ->
  write_rows (chunks n width l) = (map cells_of (chunks n width l), true).
Proof.
  revert l. induction n as [| n IH]; intros l Hl; [reflexivity |].
  cbn [chunks write_rows map].
  rewrite mapM_fmt_e by by apply forallb_firstn.
  by rewrite IH by by apply forallb_skipn.
Qed.

(** ** pathlib and numpy at sample inputs *)

Example suffix_examples :
  suffix "data/run1.tar.gz" = ".gz" /\ suffix ".bashrc" = ""
  /\ suffix "run1." = "" /\ suffix "a.b/run1" = "" /\ suffix "run1.H5" = ".H5".
Proof. repeat split. Qed.

Example with_suffix_examples :
  with_suffix "data/run1.txt" ".json" = Ok "data/run1.json"
  /\ with_suffix "data/run1" ".json" = Ok "data/run1.json".
Proof. split; reflexivity. Qed.

Example linspace_examples :
  np_linspace 0 12 3 = nd_of_floats [3] [0; 6; 12]%float
  /\ np_linspace 0 12 1 = nd_of_floats [1] [0%float]
  /\ np_linspace 0 12 0 = nd_of_floats [0] [].
Proof. repeat split. Qed.

Lemma np_linspace_shape (a b : float64) (n : nat) :
  nd_shape (np_linspace a b n) = [n].
Proof. reflexivity. Qed.

(** ** The binary-container format *)

Lemma _load_hdf5_present (p : string) (w : world) (h : h5file)
  (s f1 f2 : ndarray) :
  w_fs w !! p = Some (H5File h) ->
  h5_datasets h !! "spectrum" = Some s ->
  h5_datasets h !! "frequencies_f1" = Some f1 ->
  h5_datasets h !! "frequencies_f2" = Some f2 ->
  _load_hdf5 p w = (Ok (mk_record s f1 f2 (h5_attrs h)), w).
Proof.
  intros Hf Hs H1 H2.
  unfold _load_hdf5, h5_open_r, bind, get_file, lift, h5_getitem, ret.
  rewrite Hf. cbn. rewrite Hs, H1, H2. reflexivity.
Qed.

Lemma _load_hdf5_absent (p : string) (w : world) (h : h5file)
  (name : string) :
  w_fs w !! p = Some (H5File h) ->
  first_absent h = Some name ->
  h5_datasets h !! name = None
  /\ _load_hdf5 p w = (Raise (KeyError (absent_msg name)), w).
Proof.
  intros Hf.
  unfold _load_hdf5, h5_open_r, bind, get_file, lift, h5_getitem, ret.
  rewrite Hf. unfold first_absent. cbn.
  destruct (h5_datasets h !! "spectrum") as [s|] eqn:Hs;
    [| by intros [= <-]].
  destruct (h5_datasets h !! "frequencies_f1") as [f1|] eqn:H1;
    [| by intros [= <-]].
  destruct (h5_datasets h !! "frequencies_f2") as [f2|] eqn:H2;
    [done | by intros [= <-]].
Qed.

Lemma first_absent_some (h : h5file) :
  h5_datasets h !! "spectrum" = None
  \/ h5_datasets h !! "frequencies_f1" = None
  \/ h5_datasets h !! "frequencies_f2" = None ->
  exists name, first_absent h = Some name.
Proof.
  unfold first_absent. cbn.
  destruct (h5_datasets h !! "spectrum"); [| eauto].
  destruct (h5_datasets h !! "frequencies_f1"); [| eauto].
  destruct (h5_datasets h !! "frequencies_f2"); [| eauto].
  intros [? | [? | ?]]; discriminate.
Qed.

Lemma _load_hdf5_inv (p : string) (w w' : world) (r : record) :
  _load_hdf5 p w = (Ok r, w') ->
  w' = w
  /\ exists h,
       w_fs w !! p = Some (H5File h)
       /\ h5_datasets h !! "spectrum" = Some (spectrum r)
       /\ h5_datasets h !! "frequencies_f1" = Some (frequencies_f1 r)
       /\ h5_datasets h !! "frequencies_f2" = Some (frequencies_f2 r)
       /\ metadata r = h5_attrs h.
Proof.
  unfold _load_hdf5, h5_open_r, bind, get_file, lift, h5_getitem, ret, raise.
  destruct (w_fs w !! p) as [[h | | | |]|] eqn:Hf; try discriminate.
  cbn.
  destruct (h5_datasets h !! "spectrum") as [s|] eqn:Hs; [| discriminate].
  destruct (h5_datasets h !! "frequencies_f1") as [f1|] eqn:H1; [| discriminate].
  destruct (h5_datasets h !! "frequencies_f2") as [f2|] eqn:H2; [| discriminate].
  intros [= <- <-]. split; [reflexivity |]. exists h. cbn. auto.
Qed.

Lemma _load_hdf5_not_implemented (p : string) (w : world) (msg : string) :
  fst (_load_hdf5 p w) <> Raise (NotImplementedError msg).
Proof.
  unfold _load_hdf5, h5_open_r, bind, get_file, lift, h5_getitem, ret, raise.
  destruct (w_fs w !! p) as [[h | | | |]|]; cbn; try done.
  destruct (h5_datasets h !! "spectrum"); [| done].
  destruct (h5_datasets h !! "frequencies_f1"); [| done].
  by destruct (h5_datasets h !! "frequencies_f2").
Qed.

(** C4 (as the code has it): when one of the three datasets is absent
    from the container the decoder fails with the [KeyError] of the
    first absent name, in the order spectrum, f1 axis, f2 axis, and
    returns no record; the ranks of the datasets are not examined: when
    the three are present they are returned as stored, together with
    the attributes. *)
Theorem _load_hdf5_required_datasets (p : string) (w : world) (h : h5file) :
  w_fs w !! p = Some (H5File h) ->
  (h5_datasets h !! "spectrum" = None
   \/ h5_datasets h !! "frequencies_f1" = None
   \/ h5_datasets h !! "frequencies_f2" = None ->
   exists name,
     first_absent h = Some name
     /\ h5_datasets h !! name = None
     /\ _load_hdf5 p w = (Raise (KeyError (absent_msg name)), w))
  /\ (forall s f1 f2,
        h5_datasets h !! "spectrum" = Some s ->
        h5_datasets h !! "frequencies_f1" = Some f1 ->
        h5_datasets h !! "frequencies_f2" = Some f2 ->
        _load_hdf5 p w = (Ok (mk_record s f1 f2 (h5_attrs h)), w)).
Proof.
  intros Hf. split.
  - intros Hmiss. destruct (first_absent_some h Hmiss) as [name Hname].
    exists name. split; [exact Hname |]. by apply _load_hdf5_absent.
  - intros s f1 f2. by apply _load_hdf5_present.
Qed.

Lemma _load_hdf5_required_datasets_witness :
  exists name,
    first_absent h5_no_f2 = Some name
    /\ h5_datasets h5_no_f2 !! name = None
    /\ _load_hdf5 "scan.h5" (world_with "scan.h5" (H5File h5_no_f2))
       = (Raise (KeyError (absent_msg name)),
          world_with "scan.h5" (H5File h5_no_f2)).
Proof.
  apply (_load_hdf5_required_datasets "scan.h5"
           (world_with "scan.h5" (H5File h5_no_f2)) h5_no_f2).
  - reflexivity.
  - right. right. reflexivity.
Defined.

(** C4 at a concrete container: a spectrum dataset of rank 1 is
    accepted. *)
Lemma hdf5_rank_unchecked :
  exists r,
    _load_hdf5 "scan.h5" (world_with "scan.h5" (H5File h5_rank1))
    = (Ok r, world_with "scan.h5" (H5File h5_rank1))
    /\ nd_ndim (spectrum r) = 1.
Proof. eexists. split; reflexivity. Qed.

(** *** The round trip *)

Lemma h5_update_eq (p : string) (g : h5file -> h5file) (h : h5file)
  (fs : gmap string file) (rng : nat -> float64) :
  h5_update p g (mk_world (<[p := H5File h]> fs) rng)
  = (Ok tt, mk_world (<[p := H5File (g h)]> fs) rng).
Proof.
  unfold h5_update, bind, get_file, put_file. cbn.
  rewrite lookup_insert_eq. cbn. by rewrite insert_insert_eq.
Qed.

Lemma h5_attr_ok_inv (k : string) (v : py_value) :
  h5_attr_ok k v = true ->
  String.eqb k "" = false /\ h5_attr_store v = Ok (h5_stored v).
Proof.
  unfold h5_attr_ok, h5_attr_store. rewrite !andb_true_iff, !negb_true_iff.
  intros [[[Hk _] Hv] _]. by rewrite Hv.
Qed.

Lemma for_each_setitem (p : string) (l : list (string * py_value))
  (ds : gmap string ndarray) (attrs : gmap string py_value)
  (fs : gmap string file) (rng : nat -> float64) :
  Forall (fun kv => h5_attr_ok kv.1 kv.2 = true) l ->
  for_each l (fun '(key, value) => h5_attrs_setitem p key value)
    (mk_world (<[p := H5File (mk_h5 ds attrs)]> fs) rng)
  = (Ok tt,
     mk_world (<[p := H5File (mk_h5 ds (fold_left set_attr l attrs))]> fs) rng).
Proof.
  intros Hl. revert attrs.
  induction Hl as [| [k v] t Hkv _ IH]; intros attrs; [reflexivity |].
  apply h5_attr_ok_inv in Hkv as [Hk Hv]. cbn [fst snd] in *.
  cbn [for_each fold_left]. unfold bind at 1.
  unfold h5_attrs_setitem. rewrite Hk, Hv. unfold bind at 1, lift.
  rewrite h5_update_eq. cbn [h5_datasets h5_attrs].
  apply IH.
Qed.

Lemma _save_hdf5_eq (r : record) (p : string) (w : world) :
  forallb is_float (nd_data (spectrum r)) = true ->
  forallb is_float (nd_data (frequencies_f1 r)) = true ->
  forallb is_float (nd_data (frequencies_f2 r)) = true ->
  map_Forall (fun k v => h5_attr_ok k v = true) (metadata r) ->
  _save_hdf5 r p w = (Ok tt, write_file p (H5File (h5_of_record r)) w).
Proof.
  intros Hs H1 H2 Hmd. unfold _save_hdf5, h5_create_dataset.
  rewrite Hs, H1, H2. unfold h5_open_w, put_file, bind at 1.
  unfold bind at 1. rewrite h5_update_eq.
  unfold bind at 1. rewrite h5_update_eq.
  unfold bind at 1. rewrite h5_update_eq.
  cbn [h5_datasets h5_attrs]. apply for_each_setitem.
  apply map_Forall_to_list in Hmd.
  eapply Forall_impl; [exact Hmd |]. by intros [k v].
Qed.

Lemma fold_set_attr (l : list (string * py_value))
  (a : gmap string py_value) :
  NoDup l.*1 ->
  fold_left set_attr l a = (h5_stored <$> list_to_map l) ∪ a.
Proof.
  revert a. induction l as [| [k v] t IH]; intros a Hnd.
  - cbn. by rewrite fmap_empty, (left_id_L ∅ (∪)).
  - rewrite fmap_cons in Hnd. apply NoDup_cons in Hnd as [Hk Hnd].
    change (fold_left set_attr ((k, v) :: t) a)
      with (fold_left set_attr t (set_attr a (k, v))).
    rewrite IH by done. rewrite list_to_map_cons, fmap_insert.
    unfold set_attr. cbn [fst snd].
    rewrite <- insert_union_l. symmetry. apply insert_union_r.
    rewrite lookup_fmap. by rewrite (not_elem_of_list_to_map_1 _ _ Hk).
Qed.

Lemma h5_attrs_stored (md : gmap string py_value) :
  fold_left set_attr (map_to_list md) ∅ = h5_stored <$> md.
Proof.
  rewrite fold_set_attr by apply NoDup_fst_map_to_list.
  by rewrite list_to_map_to_list, (right_id_L ∅ (∪)).
Qed.

Lemma _load_hdf5_after_save (r : record) (p : string) (w : world) :
  _load_hdf5 p (write_file p (H5File (h5_of_record r)) w)
  = (Ok (mk_record (spectrum r) (frequencies_f1 r) (frequencies_f2 r)
                   (h5_stored <$> metadata r)),
     write_file p (H5File (h5_of_record r)) w).
Proof.
  rewrite <- h5_attrs_stored.
  apply (_load_hdf5_present p _ (h5_of_record r)).
  - apply lookup_insert_eq.
  - cbn. by rewrite !lookup_insert_ne, lookup_insert_eq by done.
  - cbn. by rewrite lookup_insert_ne, lookup_insert_eq by done.
  - cbn. by rewrite lookup_insert_eq.
Qed.

Lemma canonical_floats (r : record) :
  canonical r = true ->
  forallb is_float (nd_data (spectrum r)) = true
  /\ forallb is_float (nd_data (frequencies_f1 r)) = true
  /\ forallb is_float (nd_data (frequencies_f2 r)) = true.
Proof.
  unfold canonical, well_formed, nd_float_ok. rewrite !andb_true_iff. tauto.
Qed.




(** ** The instrument-native format *)

Lemma _load_nmr_format_eq (p : string) (w : world) :
  _load_nmr_format p w
  = (Ok (mk_record
           (nd_of_floats [512; 1024]
              (map (w_rng w) (seq 0 (fold_right Nat.mul 1 [512; 1024]))))
           (np_linspace 0 12 512) (np_linspace 0 12 1024) (nmr_metadata p)),
     mk_world (w_fs w) (fun i => w_rng w (i + fold_right Nat.mul 1 [512; 1024]))).
Proof. reflexivity. Qed.

(** C3 (as the code has it): the instrument-native decoder never fails
    and never reads the file.  For every path it returns a 512 x 1024
    matrix drawn from the random generator, two axes evenly spaced over
    0 to 12, and a metadata dictionary of exactly three entries
    (['file_format'], ['original_file'], ['note']), none of which is a
    ["synthetic"] marker. *)
Theorem _load_nmr_format_placeholder (p : string) (w : world) :
  exists r w',
    _load_nmr_format p w = (Ok r, w')
    /\ spectrum r
       = nd_of_floats [512; 1024]
           (map (w_rng w) (seq 0 (fold_right Nat.mul 1 [512; 1024])))
    /\ frequencies_f1 r = np_linspace 0 12 512
    /\ frequencies_f2 r = np_linspace 0 12 1024
    /\ metadata r = nmr_metadata p
    /\ dom (metadata r)
       = ({["file_format"; "original_file"; "note"]} : gset string)
    /\ has_synthetic_marker r = false
    /\ w_fs w' = w_fs w.
Proof.
  eexists _, _. split; [apply _load_nmr_format_eq |].
  cbn [spectrum frequencies_f1 frequencies_f2 metadata w_fs].
  do 4 (split; [reflexivity |]).
  split; [| split; [| reflexivity]].
  - unfold nmr_metadata. rewrite !dom_insert_L, dom_empty_L. set_solver.
  - unfold has_synthetic_marker, nmr_metadata. cbn [metadata].
    apply bool_decide_eq_false_2. rewrite !lookup_insert_ne by done.
    rewrite lookup_empty. by intros [? ?].
Qed.

(** C3 at a concrete path: the decoder succeeds on ["sample.nmr"] and the
    record it returns, holding generated numbers, carries no marker. *)
Lemma nmr_fabricated_without_marker :
  exists r w',
    _load_nmr_format "sample.nmr" (world_with "sample.nmr" (TextFile [])) = (Ok r, w')
    /\ has_synthetic_marker r = false.
Proof.
  eexists _, _. split; [apply _load_nmr_format_eq |]. reflexivity.
Qed.

(** ** The delimited-text format *)

Lemma np_savetxt_matrix (p : string) (a : ndarray) (w : world) (n1 n2 : nat) :
  nd_shape a = [n1; n2] ->
  forallb is_float (nd_data a) = true ->
  np_savetxt p a w = (Ok tt, write_file p (TextFile (text_of a)) w).
Proof.
  intros Hsh Hfl. unfold np_savetxt, text_of. rewrite Hsh.
  unfold bind, put_file, lift. cbn [w_fs w_rng].
  rewrite write_rows_floats by done. cbn [w_fs w_rng].
  unfold write_file, ret. by rewrite insert_insert_eq.
Qed.

Lemma json_dump_eq (q : string) (md : gmap string py_value) (w : world) :
  map_Forall (fun _ v => json_serializable v = true) md ->
  json_dump q md w = (Ok tt, write_file q (JsonFile (json_value <$> md)) w).
Proof.
  intros Hmd. unfold json_dump, bind, put_file. cbn [w_fs w_rng].
  rewrite bool_decide_eq_true_2 by done. cbn [w_fs w_rng].
  unfold write_file. by rewrite insert_insert_eq.
Qed.

Lemma _save_text_eq (r : record) (p q : string) (w : world) (n1 n2 : nat) :
  nd_shape (spectrum r) = [n1; n2] ->
  forallb is_float (nd_data (spectrum r)) = true ->
  with_suffix p ".json" = Ok q ->
  map_Forall (fun _ v => json_serializable v = true) (metadata r) ->
  _save_text r p w
  = (Ok tt,
     write_file q (JsonFile (json_value <$> metadata r))
       (write_file p (TextFile (text_of (spectrum r))) w)).
Proof.
  intros Hsh Hfl Hq Hmd. unfold _save_text.
  unfold bind at 1. rewrite (np_savetxt_matrix _ _ _ n1 n2) by done.
  unfold bind, lift. rewrite Hq. by apply json_dump_eq.
Qed.

(** C9 (as the code has it): the delimited-text encoder writes the
    sidecar whether or not the metadata is empty.  For a float matrix
    and metadata that JSON can spell, [_save_text] succeeds and leaves
    at the path's [.json] sibling the metadata as a JSON object, the
    empty object when the metadata is empty, next to the matrix file. *)
Theorem _save_text_always_writes_sidecar (r : record) (p q : string)
  (w : world) (n1 n2 : nat) :
  nd_shape (spectrum r) = [n1; n2] ->
  forallb is_float (nd_data (spectrum r)) = true ->
  with_suffix p ".json" = Ok q ->
  map_Forall (fun _ v => json_serializable v = true) (metadata r) ->
  exists w',
    _save_text r p w = (Ok tt, w')
    /\ w_fs w' !! q = Some (JsonFile (json_value <$> metadata r))
    /\ (metadata r = ∅ -> w_fs w' !! q = Some (JsonFile ∅))
    /\ (q <> p -> w_fs w' !! p = Some (TextFile (text_of (spectrum r)))).
Proof.
  intros Hsh Hfl Hq Hmd. eexists. split; [by eapply _save_text_eq |].
  cbn [write_file w_fs]. rewrite lookup_insert_eq. split; [done |]. split.
  - intros ->. by rewrite fmap_empty.
  - intros Hne. rewrite lookup_insert_ne by done. apply lookup_insert_eq.
Qed.

Lemma _save_text_always_writes_sidecar_witness :
  exists w',
    _save_text record_2x3 "m.txt" empty_world = (Ok tt, w')
    /\ w_fs w' !! "m.json"
       = Some (JsonFile (json_value <$> metadata record_2x3))
    /\ (metadata record_2x3 = ∅ -> w_fs w' !! "m.json" = Some (JsonFile ∅))
    /\ ("m.json" <> "m.txt" ->
        w_fs w' !! "m.txt" = Some (TextFile (text_of (spectrum record_2x3)))).
Proof.
  apply (_save_text_always_writes_sidecar record_2x3 "m.txt" "m.json"
           empty_world 2 3); try reflexivity.
  apply (bool_decide_unpack _). vm_compute. exact I.
Defined.

(** C9 at a concrete record: with empty metadata the sidecar is written
    all the same, next to the matrix file. *)
Lemma sidecar_written_for_empty_metadata :
  metadata record_2x3_bare = ∅
  /\ exists w',
       _save_text record_2x3_bare "m.txt" empty_world = (Ok tt, w')
       /\ w_fs w' !! "m.txt" = Some (TextFile (text_of (spectrum record_2x3_bare)))
       /\ w_fs w' !! "m.json" = Some (JsonFile ∅).
Proof.
  split; [reflexivity |]. eexists. split; [reflexivity |].
  split; reflexivity.
Qed.

(** *** The round trip *)

(** Reading back what [np.savetxt] wrote for an [n1 x n2] float matrix
    gives its elements under the squeezed shape. *)
Lemma np_loadtxt_text_of (p : string) (a : ndarray) (w : world) (n1 n2 : nat) :
  nd_shape a = [n1; n2] ->
  1 <= n1 -> 1 <= n2 ->
  nd_float_ok a = true ->
  w_fs w !! p = Some (TextFile (text_of a)) ->
  np_loadtxt p w = (Ok (mk_ndarray (squeeze [n1; n2]) (nd_data a)), w).
Proof.
  intros Hsh Hn1 Hn2 Hok Hf.
  unfold nd_float_ok in Hok. apply andb_true_iff in Hok as [Hfl Hlen].
  apply Nat.eqb_eq in Hlen. unfold nd_size in Hlen. rewrite Hsh in Hlen.
  cbn in Hlen. rewrite Nat.mul_1_r in Hlen.
  pose proof (chunks_widths n1 n2 (nd_data a) Hlen) as Hwid.
  pose proof (chunks_floats n1 n2 (nd_data a) Hfl) as Hcfl.
  unfold np_loadtxt, bind, get_file. rewrite Hf. cbn [fst snd].
  unfold text_of. rewrite Hsh.
  rewrite filter_all; cycle 1.
  { apply Forall_map. eapply Forall_impl.
    - apply Forall_and. exact (conj Hwid Hcfl).
    - intros c [Hw Hc]. cbn. unfold blank, cells_of.
      rewrite length_map, floats_of_length, Hw by done.
      destruct n2; [lia | reflexivity]. }
  rewrite mapM_rows.
  assert (Hrows : Forall (fun r => (length r =? n2)%nat = true)
                    (map floats_of (chunks n1 n2 (nd_data a)))).
  { apply Forall_map. eapply Forall_impl.
    - apply Forall_and. exact (conj Hwid Hcfl).
    - intros c [Hw Hc]. cbn. rewrite floats_of_length by done.
      by apply Nat.eqb_eq. }
  assert (Hncols : match map floats_of (chunks n1 n2 (nd_data a)) with
                   | [] => 1
                   | r :: _ => length r
                   end = n2).
  { destruct n1; [lia |]. cbn. inversion Hrows; subst.
    by apply Nat.eqb_eq. }
  rewrite Hncols.
  rewrite (proj2 (forallb_forall _ _)); cycle 1.
  { apply List.Forall_forall. exact Hrows. }
  unfold ret, nd_of_floats.
  rewrite length_map, chunks_length, floats_of_concat, chunks_concat by done.
  by rewrite floats_of_NFloat.
Qed.

(** Decoding what [_save_text] wrote: the matrix comes back under its
    squeezed shape, and the decoder goes on only if two dimensions are
    left. *)
Lemma _load_text_format_after_save (r : record) (p q : string) (w : world)
  (n1 n2 : nat) :
  nd_shape (spectrum r) = [n1; n2] ->
  1 <= n1 -> 1 <= n2 ->
  nd_float_ok (spectrum r) = true ->
  with_suffix p ".json" = Ok q ->
  q <> p ->
  map_Forall (fun _ v => json_serializable v = true) (metadata r) ->
  exists w',
    _save_text r p w = (Ok tt, w')
    /\ _load_text_format p w'
       = (match unpack2 (squeeze [n1; n2]) with
          | Ok (m1, m2) =>
              Ok (mk_record (mk_ndarray (squeeze [n1; n2]) (nd_data (spectrum r)))
                            (np_linspace 0 12 m1) (np_linspace 0 12 m2)
                            (json_value <$> metadata r))
          | Raise e => Raise (text_error e)
          end, w').
Proof.
  intros Hsh Hn1 Hn2 Hok Hq Hne Hmd.
  eexists. split.
  { eapply _save_text_eq; try done.
    unfold nd_float_ok in Hok. by apply andb_true_iff in Hok as [? _]. }
  set (w' := write_file q _ _).
  assert (Hp : w_fs w' !! p = Some (TextFile (text_of (spectrum r)))).
  { subst w'. cbn. rewrite lookup_insert_ne by done. apply lookup_insert_eq. }
  assert (Hj : w_fs w' !! q = Some (JsonFile (json_value <$> metadata r))).
  { subst w'. cbn. apply lookup_insert_eq. }
  unfold _load_text_format, try_except, bind at 1.
  rewrite (np_loadtxt_text_of p (spectrum r) w' n1 n2) by done.
  unfold bind at 1, lift at 1. rewrite Hq.
  unfold bind at 1, path_exists. rewrite bool_decide_eq_true_2 by (by rewrite Hj).
  unfold bind at 1, json_load, bind at 1, get_file. rewrite Hj. cbn [ret].
  unfold bind, lift. cbn [nd_shape].
  destruct (unpack2 (squeeze [n1; n2])) as [[m1 m2] | e]; reflexivity.
Qed.

(** C6 (the failing case): when the matrix of a Canonical Record has a
    single row or a single column, encoding it to delimited text
    succeeds, but decoding the file raises: [np.loadtxt] squeezes the
    matrix to fewer than two dimensions and the shape no longer unpacks
    into [f1_points, f2_points]. *)
Theorem text_round_trip_single_row_or_column (r : record) (p q : string)
  (w : world) (n1 n2 : nat) :
  canonical r = true ->
  nd_shape (spectrum r) = [n1; n2] ->
  n1 = 1 \/ n2 = 1 ->
  with_suffix p ".json" = Ok q ->
  q <> p ->
  map_Forall (fun _ v => json_serializable v = true) (metadata r) ->
  exists w' got,
    got < 2
    /\ _save_text r p w = (Ok tt, w')
    /\ _load_text_format p w'
       = (Raise (ValueError ("テキストファイルの読み込みに失敗: "
                             +:+ not_enough got)),
          w').
Proof.
  intros Hc Hsh Hone Hq Hne Hmd.
  unfold canonical, well_formed in Hc. rewrite !andb_true_iff in Hc.
  destruct Hc as ((((_ & Hok) & _) & _) & Hpos).
  apply Nat.ltb_lt in Hpos. unfold nd_size in Hpos. rewrite Hsh in Hpos.
  cbn in Hpos.
  destruct (_load_text_format_after_save r p q w n1 n2) as (w' & Hs & Hl);
    try done; try nia.
  exists w', (length (squeeze [n1; n2])).
  assert (Hsq : length (squeeze [n1; n2]) < 2).
  { unfold squeeze. cbn [List.filter].
    destruct Hone as [-> | ->]; cbn [Nat.eqb negb].
    - destruct (negb (n2 =? 1)%nat); cbn; lia.
    - destruct (negb (n1 =? 1)%nat); cbn; lia. }
  split; [exact Hsq |]. split; [done |]. rewrite Hl. f_equal.
  destruct (squeeze [n1; n2]) as [| d1 [| d2 t]]; cbn in Hsq |- *;
    [reflexivity | reflexivity | lia].
Qed.

Lemma text_round_trip_single_row_or_column_witness :
  exists w' got,
    got < 2
    /\ _save_text record_1x3 "m.txt" empty_world = (Ok tt, w')
    /\ _load_text_format "m.txt" w'
       = (Raise (ValueError ("テキストファイルの読み込みに失敗: "
                             +:+ not_enough got)),
          w').
Proof.
  apply (text_round_trip_single_row_or_column record_1x3 "m.txt" "m.json"
           empty_world 1 3); try reflexivity.
  - left. reflexivity.
  - discriminate.
  - apply (bool_decide_unpack _). vm_compute. exact I.
Defined.

(** The delimited-text round trip where it works: for a Canonical Record
    of at least two rows and two columns the spectrum comes back element
    for element, the axes come back as [np.linspace(0, 12, n)] whatever
    they were, and the metadata as JSON spells it. *)
Lemma text_round_trip_two_or_more (r : record) (p q : string) (w : world)
  (n1 n2 : nat) :
  canonical r = true ->
  nd_shape (spectrum r) = [n1; n2] ->
  2 <= n1 -> 2 <= n2 ->
  with_suffix p ".json" = Ok q ->
  q <> p ->
  map_Forall (fun _ v => json_serializable v = true) (metadata r) ->
  exists w',
    _save_text r p w = (Ok tt, w')
    /\ _load_text_format p w'
       = (Ok (mk_record (spectrum r) (np_linspace 0 12 n1)
                        (np_linspace 0 12 n2) (json_value <$> metadata r)),
          w').
Proof.
  intros Hc Hsh H1 H2 Hq Hne Hmd.
  unfold canonical, well_formed in Hc. rewrite !andb_true_iff in Hc.
  destruct Hc as ((((_ & Hok) & _) & _) & _).
  destruct (_load_text_format_after_save r p q w n1 n2) as (w' & Hs & Hl);
    try done; try lia.
  exists w'. split; [done |]. rewrite Hl.
  assert (Hsq : squeeze [n1; n2] = [n1; n2]).
  { unfold squeeze. cbn [List.filter].
    destruct n1 as [| [| n1]]; try lia. destruct n2 as [| [| n2]]; try lia.
    reflexivity. }
  rewrite Hsq. cbn [unpack2]. rewrite <- Hsh. by destruct (spectrum r).
Qed.

Example text_round_trip_2x3 :
  exists w',
    _save_text record_2x3 "m.txt" empty_world = (Ok tt, w')
    /\ _load_text_format "m.txt" w'
       = (Ok (mk_record (spectrum record_2x3)
                        (nd_of_floats [2] [0; 12]%float)
                        (nd_of_floats [3] [0; 6; 12]%float)
                        (metadata record_2x3)),
          w').
Proof. eexists. split; reflexivity. Qed.

(** ** The CSV format *)

Section Csv.

Variable csv_strtod : float64 -> float64.

Lemma _save_csv_eq (r : record) (p : string) (w : world) :
  dims_ok r = true ->
  _save_csv r p w
  = (Ok tt, write_file p (CsvFile (csv_header r :: csv_lines r)) w).
Proof.
  unfold dims_ok, _save_csv, pd_DataFrame, pd_Index, bind, lift.
  destruct (nd_shape (spectrum r)) as [| n1 [| n2 [| ? ?]]] eqn:Hs;
    try discriminate.
  destruct (nd_shape (frequencies_f1 r)) as [| l1 [| ? ?]]; try discriminate.
  destruct (nd_shape (frequencies_f2 r)) as [| l2 [| ? ?]]; try discriminate.
  intros H. rewrite H. unfold pd_to_csv, put_file, write_file, csv_header, csv_lines.
  cbn [df_values df_index df_columns]. by rewrite Hs.
Qed.

Lemma pd_read_csv_columns (p : string) (w : world) (header : list cell)
  (lines : list (list cell)) :
  w_fs w !! p = Some (CsvFile (header :: lines)) ->
  csv_blank header = false ->
  Forall (fun r => length r <= length header) lines ->
  exists df,
    pd_read_csv csv_strtod p w = (Ok df, w)
    /\ df_columns df = map NObj (tl (mangle_dupe_cols [] (unnamed header))).
Proof.
  intros Hf Hb Hlen. unfold pd_read_csv, bind, get_file. rewrite Hf.
  cbn [List.filter]. rewrite Hb. cbn [negb].
  destruct (existsb _ _) eqn:E.
  - apply existsb_exists in E as (x & Hin & Hlt).
    apply filter_In in Hin as [Hin _].
    rewrite List.Forall_forall in Hlen. apply Hlen in Hin.
    apply Nat.ltb_lt in Hlt. lia.
  - eexists. split; reflexivity.
Qed.

Lemma count_cell_seen (c d : cell) (seen : list cell) :
  d ∈ seen -> cell_eqb c d = true -> exists k, count_cell c seen = S k.
Proof.
  intros Hin Heq. unfold count_cell.
  induction Hin as [d t | d e t _ IH]; cbn.
  - rewrite Heq. cbn. eauto.
  - destruct (cell_eqb c e); cbn; eauto.
Qed.

Lemma mangle_seen (names seen : list cell) (j : nat) (c d : cell) :
  names !! j = Some c ->
  d ∈ seen -> cell_eqb c d = true ->
  exists k, mangle_dupe_cols seen names !! j = Some (CMangled c (S k)).
Proof.
  revert seen j. induction names as [| a t IH]; intros seen j Hj Hin Heq;
    [done |].
  destruct j as [| j]; cbn in Hj |- *.
  - injection Hj as ->.
    destruct (count_cell_seen c d seen Hin Heq) as [k ->]. eauto.
  - apply IH; [done | | done]. by apply list_elem_of_further.
Qed.

Lemma mangle_repeated (names seen : list cell) (i j : nat) (c : cell) :
  i < j ->
  names !! i = Some c -> names !! j = Some c ->
  cell_eqb c c = true ->
  exists k, mangle_dupe_cols seen names !! j = Some (CMangled c (S k)).
Proof.
  revert seen i j. induction names as [| a t IH]; intros seen i j Hij Hi Hj Heq;
    [done |].
  destruct j as [| j]; [lia |]. destruct i as [| i]; cbn in Hi, Hj |- *.
  - injection Hi as ->. eapply mangle_seen; [done | | done].
    apply list_elem_of_here.
  - apply (IH (a :: seen) i j); [lia | done | done | done].
Qed.

Lemma mangle_dupe_cols_length (names seen : list cell) :
  length (mangle_dupe_cols seen names) = length names.
Proof.
  revert seen. induction names as [| c t IH]; intros seen; cbn; [done |].
  by rewrite IH.
Qed.

Lemma unnamed_number (header : list cell) (j : nat) (x : float64) :
  header !! j = Some (CNum x) -> unnamed header !! j = Some (CNum x).
Proof.
  intros H. unfold unnamed. rewrite list_lookup_imap, H. reflexivity.
Qed.

Lemma astype_float_shape (labels : list npval) (a : ndarray) :
  astype_float labels = Ok a -> nd_shape a = [length labels].
Proof.
  unfold astype_float.
  destruct (mapM _ labels) as [xs |] eqn:Hxs; [| discriminate].
  intros [= <-]. cbn. f_equal. symmetry. by eapply length_mapM.
Qed.

Lemma astype_float_mangled (labels : list npval) (j k : nat) (c : cell) :
  labels !! j = Some (NObj (CMangled c k)) ->
  astype_float labels = Raise (ValueError "could not convert string to float").
Proof.
  intros H. unfold astype_float. rewrite (proj2 (mapM_None _ _)); [done |].
  apply Exists_exists. exists (NObj (CMangled c k)).
  split; [by eapply list_elem_of_lookup_2 | reflexivity].
Qed.

Lemma astype_float_error (labels : list npval) (e : exn) :
  astype_float labels = Raise e ->
  e = ValueError "could not convert string to float".
Proof.
  unfold astype_float. destruct (mapM _ _); [discriminate |]. by intros [= <-].
Qed.

Lemma pd_read_csv_shape (p : string) (w w' : world) (df : DataFrame) :
  pd_read_csv csv_strtod p w = (Ok df, w') ->
  nd_shape (df_values df) = [length (df_index df); length (df_columns df)].
Proof.
  unfold pd_read_csv, bind, get_file, raise, ret.
  destruct (w_fs w !! p) as [[h | rows | rows | obj |]|]; try discriminate.
  destruct (List.filter _ rows) as [| header body]; [discriminate |].
  destruct (existsb _ body); [discriminate |].
  intros [= <- <-]. cbn.
  rewrite !length_map, length_tl, mangle_dupe_cols_length.
  unfold unnamed. by rewrite length_imap.
Qed.

Lemma _load_csv_metadata (p : string) (w w' : world) (r : record) :
  _load_csv csv_strtod p w = (Ok r, w') ->
  metadata r = csv_metadata p (spectrum r)
  /\ dom (metadata r)
     = ({["file_format"; "original_file"; "data_shape"]} : gset string).
Proof.
  intros H. unfold _load_csv in H. apply try_except_raise_inv in H.
  do 3 step H. injection H as <- <-. cbn [metadata spectrum].
  split; [reflexivity |].
  unfold csv_metadata. rewrite !dom_insert_L, dom_empty_L. set_solver.
Qed.

(** C7 (the failing case): when the f2 axis of a Canonical Record holds
    the same number twice, encoding the record to CSV succeeds, but
    decoding the file raises: [read_csv] renames the second of two equal
    column labels, and the renamed label is not a number. *)
Theorem csv_round_trip_repeated_label (r : record) (p : string) (w : world)
  (i j : nat) (x : float64) :
  canonical r = true ->
  i < j ->
  nd_data (frequencies_f2 r) !! i = Some (NFloat x) ->
  nd_data (frequencies_f2 r) !! j = Some (NFloat x) ->
  PrimFloat.is_nan x = false ->
  exists w' msg,
    _save_csv r p w = (Ok tt, w')
    /\ _load_csv csv_strtod p w'
       = (Raise (ValueError ("CSVファイルの読み込みに失敗: " +:+ msg)), w').
Proof.
  intros Hc Hij Hi Hj Hnan.
  unfold canonical, well_formed in Hc. rewrite !andb_true_iff in Hc.
  destruct Hc as ((((Hd & _) & _) & Hf2) & _).
  eexists _, "could not convert string to float".
  split; [by apply _save_csv_eq |].
  set (w' := write_file p _ w).
  assert (Hlen2 : forall n1 n2, nd_shape (spectrum r) = [n1; n2] ->
                                length (nd_data (frequencies_f2 r)) = n2).
  { intros n1 n2 Hs. unfold dims_ok in Hd. rewrite Hs in Hd.
    unfold nd_float_ok, nd_size in Hf2.
    destruct (nd_shape (frequencies_f1 r)) as [| l1 [| ? ?]]; try discriminate.
    destruct (nd_shape (frequencies_f2 r)) as [| l2 [| ? ?]]; try discriminate.
    apply andb_true_iff in Hd as [_ Hd]. apply Nat.eqb_eq in Hd.
    apply andb_true_iff in Hf2 as [_ Hf2]. apply Nat.eqb_eq in Hf2.
    cbn in Hf2. lia. }
  destruct (pd_read_csv_columns p w' (csv_header r) (csv_lines r))
    as (df & Hread & Hcols).
  { subst w'. cbn. apply lookup_insert_eq. }
  { unfold csv_header.
    destruct (nd_data (frequencies_f2 r)) as [| a t]; [done | reflexivity]. }
  { unfold csv_lines, csv_header. cbn [length]. rewrite length_map.
    apply Forall_map. apply List.Forall_forall. intros [a row] Hin.
    apply in_combine_r in Hin. cbn [length]. rewrite length_map.
    pose proof (chunks_width_le (length (nd_data (frequencies_f1 r)))
                  (match nd_shape (spectrum r) with
                   | [_; n2] => n2
                   | _ => 0
                   end) (nd_data (spectrum r))) as Hw.
    rewrite List.Forall_forall in Hw. apply Hw in Hin.
    unfold dims_ok in Hd.
    destruct (nd_shape (spectrum r)) as [| n1 [| n2 [| ? ?]]] eqn:Hs;
      try discriminate.
    rewrite (Hlen2 n1 n2 eq_refl). lia. }
  destruct (mangle_repeated (unnamed (csv_header r)) [] (S i) (S j) (CNum x))
    as [k Hk]; [lia | | | |].
  { apply unnamed_number.
    change (map csv_text (nd_data (frequencies_f2 r)) !! i = Some (CNum x)).
    rewrite lookup_map, Hi. cbn. by rewrite Hnan. }
  { apply unnamed_number.
    change (map csv_text (nd_data (frequencies_f2 r)) !! j = Some (CNum x)).
    rewrite lookup_map, Hj. cbn. by rewrite Hnan. }
  { cbn. by apply Leibniz.eqb_spec. }
  assert (Hbad : astype_float (df_columns df)
                 = Raise (ValueError "could not convert string to float")).
  { apply (astype_float_mangled _ j (S k) (CNum x)). rewrite Hcols.
    rewrite lookup_map, lookup_tail, Hk. reflexivity. }
  unfold _load_csv, try_except, bind at 1. rewrite Hread.
  unfold bind, lift.
  destruct (astype_float (df_index df)) as [f1 | e] eqn:Hidx.
  - rewrite Hbad. reflexivity.
  - apply astype_float_error in Hidx as ->. reflexivity.
Qed.

End Csv.

Lemma csv_round_trip_repeated_label_witness :
  exists w' msg,
    _save_csv record_dup_f2 "m.csv" empty_world = (Ok tt, w')
    /\ _load_csv (fun x => x) "m.csv" w'
       = (Raise (ValueError ("CSVファイルの読み込みに失敗: " +:+ msg)), w').
Proof.
  apply (csv_round_trip_repeated_label (fun x => x) record_dup_f2 "m.csv"
           empty_world 0 1 5%float); try reflexivity.
  lia.
Defined.

(** The scenario of the specification: the matrix [[1,2,3],[4,5,6]] with
    the axes [0,1] and [0,1,2] written to CSV and read back. *)
Example csv_round_trip_2x3 (csv_strtod : float64 -> float64) :
  exists w',
    _save_csv record_2x3 "m.csv" empty_world = (Ok tt, w')
    /\ _load_csv csv_strtod "m.csv" w'
       = (Ok (mk_record
                (nd_of_floats [2; 3] (map csv_strtod [1; 2; 3; 4; 5; 6]%float))
                (nd_of_floats [2] (map csv_strtod [0; 1]%float))
                (nd_of_floats [3] [0; 1; 2]%float)
                (csv_metadata "m.csv" (spectrum record_2x3))),
          w').
Proof. eexists. split; reflexivity. Qed.

(** ** The dispatcher *)

Section Dispatch.

Variable csv_strtod : float64 -> float64.

Lemma py_in_cases (s : string) (l : list string) :
  py_in s l = true -> s ∈ l.
Proof.
  unfold py_in. rewrite existsb_exists. intros (x & Hin & Heq).
  apply String.eqb_eq in Heq. subst x. by apply list_elem_of_In.
Qed.

Lemma load_data_missing (self : DataLoader) (p : string) (w : world) :
  w_fs w !! p = None ->
  load_data csv_strtod self p w
  = (Raise (FileNotFoundError ("ファイルが見つかりません: " +:+ p)), w).
Proof.
  intros Hnone. unfold load_data, bind, path_exists.
  rewrite bool_decide_eq_false_2; [reflexivity |].
  rewrite Hnone. by intros [? ?].
Qed.

Lemma load_data_found (self : DataLoader) (p : string) (w : world) :
  is_Some (w_fs w !! p) ->
  load_data csv_strtod self p w
  = (if negb (py_in (suffix p) (supported_formats self))
     then raise (ValueError ("サポートされていないファイル形式: " +:+ suffix p))
     else if String.eqb (suffix p) ".h5" then _load_hdf5 p
     else if py_in (suffix p) [".txt"; ".dat"] then _load_text_format p
     else if String.eqb (suffix p) ".csv" then _load_csv csv_strtod p
     else if py_in (suffix p) [".nmr"; ".fid"] then _load_nmr_format p
     else raise (NotImplementedError ("ローダーが未実装: " +:+ suffix p))) w.
Proof.
  intros Hsome. unfold load_data, bind, path_exists.
  rewrite bool_decide_eq_true_2 by done. reflexivity.
Qed.

Lemma selected_loader_not_implemented (s p : string) (w : world)
  (msg : string) :
  fst (selected_loader csv_strtod s p w) <> Raise (NotImplementedError msg).
Proof.
  unfold selected_loader.
  destruct (String.eqb s ".h5"); [apply _load_hdf5_not_implemented |].
  destruct (py_in s _); [apply try_except_not_implemented |].
  destruct (String.eqb s ".csv"); apply try_except_not_implemented.
Qed.

(** C5: the dispatcher tests existence first.  A path that names no file
    fails with [FileNotFoundError] whatever its extension and whatever
    set of formats is registered, the world untouched; a path that names
    a file whose extension is not one of the six registered ones fails
    with the unsupported-format [ValueError], and no record is built. *)
Theorem load_data_rejects (self : DataLoader) (p : string) (w : world) :
  (w_fs w !! p = None ->
   load_data csv_strtod self p w
   = (Raise (FileNotFoundError ("ファイルが見つかりません: " +:+ p)), w))
  /\ (is_Some (w_fs w !! p) ->
      py_in (suffix p) [".nmr"; ".fid"; ".dat"; ".txt"; ".csv"; ".h5"] = false ->
      load_data csv_strtod __init__ p w
      = (Raise (ValueError ("サポートされていないファイル形式: " +:+ suffix p)), w)).
Proof.
  split.
  - apply load_data_missing.
  - intros Hsome Hext. rewrite load_data_found by done.
    change (supported_formats __init__)
      with [".nmr"; ".fid"; ".dat"; ".txt"; ".csv"; ".h5"].
    rewrite Hext. reflexivity.
Qed.

(** C10: for a path that exists and whose extension is registered,
    exactly one of the four tests of the dispatch chain passes and
    [load_data] is the loader of that test: the final alternative, which
    raises [NotImplementedError], is never taken. *)
Theorem load_data_dispatch_total (p : string) (w : world) :
  is_Some (w_fs w !! p) ->
  py_in (suffix p) (supported_formats __init__) = true ->
  length (List.filter id (branch_tests (suffix p))) = 1
  /\ load_data csv_strtod __init__ p w
     = selected_loader csv_strtod (suffix p) p w
  /\ (forall msg,
        fst (load_data csv_strtod __init__ p w)
        <> Raise (NotImplementedError msg)).
Proof.
  intros Hsome Hext.
  assert (Hsel : load_data csv_strtod __init__ p w
                 = selected_loader csv_strtod (suffix p) p w).
  { rewrite load_data_found by done. rewrite Hext.
    apply py_in_cases in Hext. unfold selected_loader.
    change (supported_formats __init__)
      with [".nmr"; ".fid"; ".dat"; ".txt"; ".csv"; ".h5"] in Hext.
    repeat (apply elem_of_cons in Hext as [-> | Hext]); try reflexivity.
    by apply elem_of_nil in Hext. }
  split; [| split; [exact Hsel |]].
  - apply py_in_cases in Hext.
    change (supported_formats __init__)
      with [".nmr"; ".fid"; ".dat"; ".txt"; ".csv"; ".h5"] in Hext.
    repeat (apply elem_of_cons in Hext as [-> | Hext]); try reflexivity.
    by apply elem_of_nil in Hext.
  - intros msg. rewrite Hsel. apply selected_loader_not_implemented.
Qed.

(** *** The dimensions of a decoded record *)

Lemma _load_text_format_dims (p : string) (w w' : world) (r : record) :
  _load_text_format p w = (Ok r, w') -> dims_ok r = true.
Proof.
  intros H. unfold _load_text_format in H.
  apply try_except_raise_inv in H.
  do 5 step H.
  apply lift_ok_inv in Hm3 as [Hshape _].
  destruct a3 as [n1 n2]. injection H as <- <-.
  unfold unpack2 in Hshape.
  destruct (nd_shape a) as [| d1 [| d2 [| d3 t]]] eqn:Hsh; try discriminate.
  injection Hshape as <- <-.
  unfold dims_ok. cbn. rewrite Hsh. by rewrite !Nat.eqb_refl.
Qed.

Lemma _load_csv_dims (p : string) (w w' : world) (r : record) :
  _load_csv csv_strtod p w = (Ok r, w') -> dims_ok r = true.
Proof.
  intros H. unfold _load_csv in H.
  apply try_except_raise_inv in H.
  do 3 step H.
  apply pd_read_csv_shape in Hm.
  apply lift_ok_inv in Hm0 as [H1 _]. apply astype_float_shape in H1.
  apply lift_ok_inv in Hm1 as [H2 _]. apply astype_float_shape in H2.
  injection H as <- <-.
  unfold dims_ok. cbn. rewrite Hm, H1, H2. by rewrite !Nat.eqb_refl.
Qed.

Lemma _load_nmr_format_dims (p : string) (w w' : world) (r : record) :
  _load_nmr_format p w = (Ok r, w') -> dims_ok r = true.
Proof.
  rewrite _load_nmr_format_eq. intros H. apply ok_pair_inj in H as [<- _].
  reflexivity.
Qed.

(** C1 (as the code has it): every record that [load_data] returns for a
    delimited-text, CSV or instrument-native path, whatever formats the
    loader has registered, has a rank-2 spectrum of dimensions
    [(n1, n2)] and 1-D axes of [n1] and [n2] points; a loader of these
    formats that cannot give the matrix two dimensions raises.  The
    binary-container loader examines nothing: the record it returns
    holds the three datasets and the attributes exactly as the container
    stores them. *)
Theorem load_data_dims (self : DataLoader) (p : string) (w w' : world)
  (r : record) :
  load_data csv_strtod self p w = (Ok r, w') ->
  if String.eqb (suffix p) ".h5"
  then exists h,
         w_fs w !! p = Some (H5File h)
         /\ h5_datasets h !! "spectrum" = Some (spectrum r)
         /\ h5_datasets h !! "frequencies_f1" = Some (frequencies_f1 r)
         /\ h5_datasets h !! "frequencies_f2" = Some (frequencies_f2 r)
         /\ metadata r = h5_attrs h
  else dims_ok r = true.
Proof.
  intros H.
  destruct (w_fs w !! p) as [f |] eqn:Hf;
    [| by rewrite load_data_missing in H].
  rewrite load_data_found in H by (by rewrite Hf).
  destruct (negb _); [discriminate |].
  destruct (String.eqb (suffix p) ".h5").
  { apply _load_hdf5_inv in H as [_ (h & Hh & ?)].
    exists h. rewrite <- Hf. auto. }
  destruct (py_in _ _); [by eapply _load_text_format_dims |].
  destruct (String.eqb _ _); [by eapply _load_csv_dims |].
  destruct (py_in _ _); [by eapply _load_nmr_format_dims | discriminate].
Qed.

End Dispatch.

Lemma load_data_rejects_witness :
  load_data (fun x => x) __init__ "missing.xyz" empty_world
  = (Raise (FileNotFoundError ("ファイルが見つかりません: " +:+ "missing.xyz")),
     empty_world)
  /\ load_data (fun x => x) __init__ "m.xyz" (world_with "m.xyz" text_2x2)
     = (Raise (ValueError ("サポートされていないファイル形式: " +:+ ".xyz")),
        world_with "m.xyz" text_2x2).
Proof.
  split.
  - apply (load_data_rejects (fun x => x) __init__ "missing.xyz" empty_world).
    reflexivity.
  - apply (load_data_rejects (fun x => x) __init__ "m.xyz"
             (world_with "m.xyz" text_2x2)).
    + eexists. reflexivity.
    + reflexivity.
Defined.

Lemma load_data_dispatch_total_witness :
  length (List.filter id (branch_tests ".txt")) = 1
  /\ load_data (fun x => x) __init__ "m.txt" (world_with "m.txt" text_2x2)
     = _load_text_format "m.txt" (world_with "m.txt" text_2x2)
  /\ (forall msg,
        fst (load_data (fun x => x) __init__ "m.txt"
               (world_with "m.txt" text_2x2))
        <> Raise (NotImplementedError msg)).
Proof.
  apply (load_data_dispatch_total (fun x => x) "m.txt"
           (world_with "m.txt" text_2x2)).
  - eexists. reflexivity.
  - reflexivity.
Defined.

Lemma load_data_dims_witness :
  dims_ok (mk_record (nd_of_floats [2; 2] [1; 2; 3; 4]%float)
                     (np_linspace 0 12 2) (np_linspace 0 12 2) ∅) = true.
Proof.
  exact (load_data_dims (fun x => x) __init__ "m.txt"
           (world_with "m.txt" text_2x2) (world_with "m.txt" text_2x2) _
           eq_refl).
Defined.

(** C1 at a concrete container: a 2 x 3 matrix stored with an f1 axis of
    five points is returned as it is. *)
Lemma hdf5_axes_unchecked :
  exists r,
    load_data (fun x => x) __init__ "scan.h5"
      (world_with "scan.h5" (H5File h5_mismatched))
    = (Ok r, world_with "scan.h5" (H5File h5_mismatched))
    /\ dims_ok r = false.
Proof. eexists. split; reflexivity. Qed.

(** ** Introspection *)

(** *** The order of the floats *)

Lemma SFcompare_refl (a : spec_float) :
  a <> S754_nan -> SFcompare a a = Some Eq.
Proof.
  destruct a as [s | s | | s m e]; cbn; try done.
  - by destruct s.
  - intros _. rewrite Z.compare_refl, Pos.compare_cont_refl. by destruct s.
Qed.

Lemma SFcompare_none (a b : spec_float) :
  SFcompare a b = None <-> a = S754_nan \/ b = S754_nan.
Proof.
  destruct a as [s | s | | s m e], b as [s' | s' | | s' m' e']; cbn;
    split; try done; try tauto; try (intros [? | ?]; done).
Qed.

Lemma SFcompare_opp (a b : spec_float) (c : comparison) :
  SFcompare a b = Some c -> SFcompare b a = Some (CompOpp c).
Proof.
  destruct a as [s | s | | s m e], b as [s' | s' | | s' m' e']; cbn;
    try done.
  all: intros H; injection H as H; subst c; f_equal.
  all: try (by destruct s); try (by destruct s'); try (by destruct s, s').
  rewrite (Z.compare_antisym e e').
  change (PosDef.Pos.compare_cont Eq m' m) with (Pos.compare m' m).
  change (PosDef.Pos.compare_cont Eq m m') with (Pos.compare m m').
  rewrite (Pos.compare_antisym m m').
  destruct s, s'; cbn; try done;
    destruct (e ?= e')%Z; cbn; try done;
    by destruct (m ?= m')%positive.
Qed.

Lemma cont_spec (m m' : positive) :
  match Pos.compare_cont Eq m m' with
  | Eq => m = m' | Lt => (m < m')%positive | Gt => (m' < m)%positive
  end.
Proof.
  change (Pos.compare_cont Eq m m') with (m ?= m')%positive.
  destruct (Pos.compare_spec m m'); done.
Qed.

Lemma SFcompare_trans (a b c : spec_float) (x y : comparison) :
  SFcompare a b = Some x -> SFcompare b c = Some y ->
  le_cmp x = true -> le_cmp y = true ->
  exists z, SFcompare a c = Some z /\ le_cmp z = true.
Proof.
  destruct a as [s | s | | s m e], b as [s' | s' | | s' m' e'],
    c as [s'' | s'' | | s'' m'' e'']; cbn; try done;
    intros H1 H2; injection H1 as H1; injection H2 as H2; subst x y;
    try (destruct s); try (destruct s');
    try (destruct s''); cbn; try done; eauto.
  all: try (intros Hx Hy; eexists; split; [reflexivity |]).
  all: pose proof (cont_spec m m') as C1; pose proof (cont_spec m' m'') as C2;
    pose proof (cont_spec m m'') as C3.
  all: destruct (Z.compare_spec e e'), (Z.compare_spec e' e''),
         (Z.compare_spec e e''); cbn in *; try done; try lia.
  all: subst;
    destruct (Pos.compare_cont Eq m m'), (Pos.compare_cont Eq m' m''),
      (Pos.compare_cont Eq m m''); cbn in *; try done; try lia.
Qed.

Lemma float_is_nan_spec (x : float64) :
  PrimFloat.is_nan x = true <-> Prim2SF x = S754_nan.
Proof.
  unfold PrimFloat.is_nan. rewrite FloatAxioms.eqb_spec. unfold SFeqb.
  destruct (Prim2SF x) as [s | s | | s m e] eqn:E.
  all: try (rewrite SFcompare_refl by done; cbn; split; done).
  cbn. split; done.
Qed.

Lemma float_is_nan_false (x : float64) :
  PrimFloat.is_nan x = false <-> Prim2SF x <> S754_nan.
Proof.
  rewrite <- float_is_nan_spec. by destruct (PrimFloat.is_nan x).
Qed.

Lemma float_compare_some (x y : float64) :
  PrimFloat.is_nan x = false -> PrimFloat.is_nan y = false ->
  exists c, SFcompare (Prim2SF x) (Prim2SF y) = Some c.
Proof.
  intros Hx Hy. apply float_is_nan_false in Hx. apply float_is_nan_false in Hy.
  destruct (SFcompare (Prim2SF x) (Prim2SF y)) as [c |] eqn:E; [eauto |].
  apply SFcompare_none in E. tauto.
Qed.

Lemma float_ltb_false_leb (x y : float64) :
  PrimFloat.is_nan x = false -> PrimFloat.is_nan y = false ->
  (x <? y)%float = false -> (y <=? x)%float = true.
Proof.
  intros Hx Hy. rewrite FloatAxioms.ltb_spec, FloatAxioms.leb_spec. unfold SFltb, SFleb.
  destruct (float_compare_some x y Hx Hy) as [c E].
  rewrite E, (SFcompare_opp _ _ _ E). by destruct c.
Qed.

Lemma float_ltb_leb (x y : float64) :
  (x <? y)%float = true -> (x <=? y)%float = true.
Proof.
  rewrite FloatAxioms.ltb_spec, FloatAxioms.leb_spec. unfold SFltb, SFleb.
  by destruct (SFcompare (Prim2SF x) (Prim2SF y)) as [[| |] |].
Qed.

Lemma float_ltb_nan_r (x y : float64) :
  PrimFloat.is_nan y = true -> (x <? y)%float = false.
Proof.
  intros Hy. apply float_is_nan_spec in Hy. rewrite FloatAxioms.ltb_spec. unfold SFltb.
  rewrite (proj2 (SFcompare_none _ _)); [done | by right].
Qed.

Lemma float_leb_refl (x : float64) :
  PrimFloat.is_nan x = false -> (x <=? x)%float = true.
Proof.
  intros Hx. apply float_is_nan_false in Hx. rewrite FloatAxioms.leb_spec. unfold SFleb.
  by rewrite SFcompare_refl.
Qed.

Lemma float_eqb_refl (x : float64) :
  PrimFloat.is_nan x = false -> (x =? x)%float = true.
Proof.
  intros Hx. apply float_is_nan_false in Hx. rewrite FloatAxioms.eqb_spec. unfold SFeqb.
  by rewrite SFcompare_refl.
Qed.

Lemma float_leb_trans (x y z : float64) :
  (x <=? y)%float = true -> (y <=? z)%float = true -> (x <=? z)%float = true.
Proof.
  rewrite !FloatAxioms.leb_spec. unfold SFleb.
  destruct (SFcompare (Prim2SF x) (Prim2SF y)) as [c1 |] eqn:E1; [| done].
  destruct (SFcompare (Prim2SF y) (Prim2SF z)) as [c2 |] eqn:E2; [| done].
  intros H1 H2.
  destruct (SFcompare_trans _ _ _ _ _ E1 E2) as (c & -> & Hc).
  - by destruct c1.
  - by destruct c2.
  - by destruct c.
Qed.

Lemma float_leb_not_nan (x y : float64) :
  (x <=? y)%float = true ->
  PrimFloat.is_nan x = false /\ PrimFloat.is_nan y = false.
Proof.
  rewrite FloatAxioms.leb_spec. unfold SFleb.
  destruct (SFcompare (Prim2SF x) (Prim2SF y)) as [c |] eqn:E; [| done].
  intros _. rewrite !float_is_nan_false. split; intros H;
    (assert (SFcompare (Prim2SF x) (Prim2SF y) = None)
       by (apply SFcompare_none; tauto)); congruence.
Qed.

Lemma fold_min_nan (l : list float64) (acc : float64) :
  PrimFloat.is_nan acc = true ->
  PrimFloat.is_nan (fold_left np_minimum l acc) = true.
Proof.
  revert acc. induction l as [| x t IH]; intros acc Hacc; [done |].
  cbn [fold_left]. apply IH. unfold np_minimum. rewrite Hacc.
  by rewrite orb_true_r.
Qed.

Lemma fold_min_nan_in (l : list float64) (acc : float64) :
  existsb PrimFloat.is_nan l = true ->
  PrimFloat.is_nan (fold_left np_minimum l acc) = true.
Proof.
  revert acc. induction l as [| x t IH]; intros acc; [done |].
  cbn [existsb fold_left]. intros H. apply orb_true_iff in H as [Hx | Ht];
    [| by apply IH].
  apply fold_min_nan. unfold np_minimum.
  destruct (PrimFloat.is_nan acc) eqn:Ha; [by rewrite orb_true_r |].
  by rewrite (float_ltb_nan_r acc x Hx).
Qed.

Lemma fold_min_least (l : list float64) (acc : float64) :
  PrimFloat.is_nan acc = false ->
  existsb PrimFloat.is_nan l = false ->
  (fold_left np_minimum l acc = acc \/ fold_left np_minimum l acc ∈ l)
  /\ (fold_left np_minimum l acc <=? acc)%float = true
  /\ forall x, x ∈ l -> (fold_left np_minimum l acc <=? x)%float = true.
Proof.
  revert acc. induction l as [| x t IH]; intros acc Hacc Hl.
  - cbn. split; [by left |]. split; [by apply float_leb_refl |].
    intros x Hx. by apply elem_of_nil in Hx.
  - cbn [existsb] in Hl. apply orb_false_iff in Hl as [Hx Ht].
    cbn [fold_left].
    assert (Hm : PrimFloat.is_nan (np_minimum acc x) = false
                 /\ (np_minimum acc x = acc \/ np_minimum acc x = x)
                 /\ (np_minimum acc x <=? acc)%float = true
                 /\ (np_minimum acc x <=? x)%float = true).
    { unfold np_minimum. rewrite Hacc, orb_false_r.
      destruct (acc <? x)%float eqn:E.
      - repeat split; [done | by left | by apply float_leb_refl | by apply float_ltb_leb].
      - repeat split; [done | by right | by apply float_ltb_false_leb
                      | by apply float_leb_refl]. }
    destruct Hm as (Hn & Hor & Hle1 & Hle2).
    destruct (IH (np_minimum acc x) Hn Ht) as (Hin & Hle & Hall).
    split; [| split].
    + destruct Hin as [-> | Hin]; [| right; by apply list_elem_of_further].
      destruct Hor as [-> | ->]; [by left | right; apply list_elem_of_here].
    + by eapply float_leb_trans.
    + intros y Hy. apply elem_of_cons in Hy as [-> | Hy]; [| by apply Hall].
      by eapply float_leb_trans.
Qed.

Lemma reduce_least (l : list float64) :
  l <> [] -> least (reduce np_minimum l) l.
Proof.
  destruct l as [| x t]; [done |]. intros _. unfold least, reduce.
  destruct (existsb PrimFloat.is_nan (x :: t)) eqn:E.
  - cbn [existsb] in E. apply orb_true_iff in E as [Hx | Ht];
      [by apply fold_min_nan | by apply fold_min_nan_in].
  - cbn [existsb] in E. apply orb_false_iff in E as [Hx Ht].
    destruct (fold_min_least t x Hx Ht) as (Hin & Hle & Hall).
    split.
    + exists (fold_left np_minimum t x). split.
      * destruct Hin as [-> | Hin];
          [apply list_elem_of_here | by apply list_elem_of_further].
      * apply float_eqb_refl. by apply float_leb_not_nan in Hle as [? _].
    + intros y Hy. apply elem_of_cons in Hy as [-> | Hy]; [done | by apply Hall].
Qed.

Lemma float_ltb_nan_l (x y : float64) :
  PrimFloat.is_nan x = true -> (x <? y)%float = false.
Proof.
  intros Hx. apply float_is_nan_spec in Hx. rewrite FloatAxioms.ltb_spec.
  unfold SFltb. rewrite (proj2 (SFcompare_none _ _)); [done | by left].
Qed.

Lemma fold_max_nan (l : list float64) (acc : float64) :
  PrimFloat.is_nan acc = true ->
  PrimFloat.is_nan (fold_left np_maximum l acc) = true.
Proof.
  revert acc. induction l as [| x t IH]; intros acc Hacc; [done |].
  cbn [fold_left]. apply IH. unfold np_maximum. rewrite Hacc.
  by rewrite orb_true_r.
Qed.

Lemma fold_max_nan_in (l : list float64) (acc : float64) :
  existsb PrimFloat.is_nan l = true ->
  PrimFloat.is_nan (fold_left np_maximum l acc) = true.
Proof.
  revert acc. induction l as [| x t IH]; intros acc; [done |].
  cbn [existsb fold_left]. intros H. apply orb_true_iff in H as [Hx | Ht];
    [| by apply IH].
  apply fold_max_nan. unfold np_maximum.
  destruct (PrimFloat.is_nan acc) eqn:Ha; [by rewrite orb_true_r |].
  by rewrite (float_ltb_nan_l x acc Hx).
Qed.

Lemma fold_max_greatest (l : list float64) (acc : float64) :
  PrimFloat.is_nan acc = false ->
  existsb PrimFloat.is_nan l = false ->
  (fold_left np_maximum l acc = acc \/ fold_left np_maximum l acc ∈ l)
  /\ (acc <=? fold_left np_maximum l acc)%float = true
  /\ forall x, x ∈ l -> (x <=? fold_left np_maximum l acc)%float = true.
Proof.
  revert acc. induction l as [| x t IH]; intros acc Hacc Hl.
  - cbn. split; [by left |]. split; [by apply float_leb_refl |].
    intros x Hx. by apply elem_of_nil in Hx.
  - cbn [existsb] in Hl. apply orb_false_iff in Hl as [Hx Ht].
    cbn [fold_left].
    assert (Hm : PrimFloat.is_nan (np_maximum acc x) = false
                 /\ (np_maximum acc x = acc \/ np_maximum acc x = x)
                 /\ (acc <=? np_maximum acc x)%float = true
                 /\ (x <=? np_maximum acc x)%float = true).
    { unfold np_maximum. rewrite Hacc, orb_false_r.
      destruct (x <? acc)%float eqn:E.
      - repeat split; [done | by left | by apply float_leb_refl
                      | by apply float_ltb_leb].
      - repeat split; [done | by right | by apply float_ltb_false_leb
                      | by apply float_leb_refl]. }
    destruct Hm as (Hn & Hor & Hle1 & Hle2).
    destruct (IH (np_maximum acc x) Hn Ht) as (Hin & Hle & Hall).
    split; [| split].
    + destruct Hin as [-> | Hin]; [| right; by apply list_elem_of_further].
      destruct Hor as [-> | ->]; [by left | right; apply list_elem_of_here].
    + by eapply float_leb_trans.
    + intros y Hy. apply elem_of_cons in Hy as [-> | Hy]; [| by apply Hall].
      by eapply float_leb_trans.
Qed.

Lemma reduce_greatest (l : list float64) :
  l <> [] -> greatest (reduce np_maximum l) l.
Proof.
  destruct l as [| x t]; [done |]. intros _. unfold greatest, reduce.
  destruct (existsb PrimFloat.is_nan (x :: t)) eqn:E.
  - cbn [existsb] in E. apply orb_true_iff in E as [Hx | Ht];
      [by apply fold_max_nan | by apply fold_max_nan_in].
  - cbn [existsb] in E. apply orb_false_iff in E as [Hx Ht].
    destruct (fold_max_greatest t x Hx Ht) as (Hin & Hle & Hall).
    split.
    + exists (fold_left np_maximum t x). split.
      * destruct Hin as [-> | Hin];
          [apply list_elem_of_here | by apply list_elem_of_further].
      * apply float_eqb_refl. by apply float_leb_not_nan in Hle as [_ ?].
    + intros y Hy. apply elem_of_cons in Hy as [-> | Hy]; [done | by apply Hall].
Qed.

Lemma fold_add_sums (l l0 : list float64) (acc : float64) :
  sums_to l0 acc -> sums_to (l0 ++ l) (fold_left PrimFloat.add l acc).
Proof.
  revert l0 acc. induction l as [| x t IH]; intros l0 acc H.
  - by rewrite app_nil_r.
  - cbn [fold_left]. rewrite (cons_middle x l0 t), app_assoc.
    apply IH. apply sums_app; [done | apply sums_one].
Qed.

Lemma naive_sum_adds (l : list float64) : sums_to l (naive_sum l).
Proof. apply (fold_add_sums l [] 0%float). apply sums_nil. Qed.

Section Introspection.

Variable umr_sum : list float64 -> float64.

(** numpy's [add.reduce] adds up the numbers it is given. *)
Hypothesis umr_sum_adds : forall l, sums_to l (umr_sum l).

Lemma np_reduce_empty (op : string) (f : float64 -> float64 -> float64)
  (a : ndarray) :
  nd_size a = 0 -> np_reduce op f a = Raise (ValueError (zero_size_msg op)).
Proof. intros H. unfold np_reduce. by rewrite H. Qed.

Lemma np_reduce_floats (op : string) (f : float64 -> float64 -> float64)
  (a : ndarray) :
  0 < nd_size a ->
  forallb is_float (nd_data a) = true ->
  np_reduce op f a = Ok (reduce f (floats_of (nd_data a))).
Proof.
  intros Hpos Hfl. unfold np_reduce. rewrite Hfl.
  destruct (nd_size a); [lia | reflexivity].
Qed.

Lemma floats_of_nonempty (a : ndarray) :
  nd_float_ok a = true -> 0 < nd_size a -> floats_of (nd_data a) <> [].
Proof.
  unfold nd_float_ok. rewrite andb_true_iff, Nat.eqb_eq.
  intros [Hfl Hlen] Hpos Hnil.
  apply (f_equal (@length float64)) in Hnil.
  rewrite floats_of_length in Hnil by done. cbn in Hnil. lia.
Qed.


End Introspection.


(** * Further properties of the loader *)

(** ** pathlib: stems and suffixes *)

Lemma take_until_split (c : ascii) (l : list ascii) :
  l = take_until c l \/ exists rest, l = take_until c l ++ c :: rest.
Proof.
  induction l as [| a t IH]; cbn; [by left |].
  destruct (Ascii.eqb a c) eqn:E.
  - apply Ascii.eqb_eq in E as ->. right. by exists t.
  - destruct IH as [IH | [rest IH]].
    + left. by f_equal.
    + right. exists rest. cbn. by f_equal.
Qed.

Lemma string_of_list_ascii_app (l1 l2 : list ascii) :
  string_of_list_ascii (l1 ++ l2)
  = string_of_list_ascii l1 +:+ string_of_list_ascii l2.
Proof. induction l1 as [| a t IH]; cbn; [done |]. by rewrite IH. Qed.

Lemma string_length_of_list (l : list ascii) :
  String.length (string_of_list_ascii l) = length l.
Proof. induction l as [| a t IH]; cbn; [done |]. by rewrite IH. Qed.

Lemma append_inj_r (a b c : string) : a +:+ b = a +:+ c -> b = c.
Proof. induction a as [| x a IH]; cbn; [done |]. intros [= H]. auto. Qed.

(** A path with a suffix is a stem followed by the suffix, and
    [with_suffix] replaces the suffix after that stem. *)
Lemma with_suffix_stem (p : string) :
  suffix p <> "" ->
  exists stem,
    p = stem +:+ suffix p
    /\ forall s, with_suffix p s = Ok (stem +:+ s).
Proof.
  intros Hsuf. unfold with_suffix. unfold suffix in *.
  set (cs := list_ascii_of_string p) in *.
  set (name := path_name p) in *.
  set (ext := rev (take_until "."%char (rev name))) in *.
  destruct ((length ext <? length name)%nat
            && (0 <? length name - length ext - 1)%nat
            && (0 <? length ext)%nat) eqn:Hc; [| done].
  rewrite !andb_true_iff, !Nat.ltb_lt in Hc. destruct Hc as [[Hlt Hpos] Hext].
  assert (Hname : exists front, name = front ++ "."%char :: ext).
  { destruct (take_until_split "."%char (rev name)) as [H | [rest H]].
    - assert (length ext = length name); [| lia].
      subst ext. rewrite length_rev, <- H. apply length_rev.
    - exists (rev rest). apply (f_equal (@rev ascii)) in H.
      rewrite rev_involutive, rev_app_distr in H. cbn in H.
      rewrite <- app_assoc in H. exact H. }
  destruct Hname as [front Hname].
  assert (Hcs : exists dir, cs = dir ++ name).
  { subst name. unfold path_name. fold cs.
    destruct (take_until_split "/"%char (rev cs)) as [H | [rest H]].
    - exists []. cbn. rewrite <- H. by rewrite rev_involutive.
    - exists (rev rest ++ ["/"%char]). apply (f_equal (@rev ascii)) in H.
      rewrite rev_involutive, rev_app_distr in H. cbn in H. exact H. }
  destruct Hcs as [dir Hcs].
  exists (string_of_list_ascii (dir ++ front)).
  assert (Hp : cs = (dir ++ front) ++ "."%char :: ext).
  { rewrite Hcs, Hname. by rewrite app_assoc. }
  split.
  - rewrite <- string_of_list_ascii_app, <- Hp. subst cs.
    by rewrite string_of_list_ascii_of_string.
  - intros s. replace (length name =? 0)%nat with false
      by (symmetry; apply Nat.eqb_neq; lia).
    rewrite string_length_of_list. do 2 f_equal.
    rewrite Hp, length_app. cbn [length].
    replace (length (dir ++ front) + S (length ext) - S (length ext))
      with (length (dir ++ front) + 0) by lia.
    by rewrite firstn_app_2, firstn_O, app_nil_r.
Qed.

Lemma with_suffix_same (p : string) :
  suffix p <> "" -> with_suffix p (suffix p) = Ok p.
Proof.
  intros H. destruct (with_suffix_stem p H) as (stem & Hp & Hw).
  rewrite Hw. by rewrite <- Hp.
Qed.

Lemma with_suffix_other (p s : string) :
  suffix p <> "" -> s <> suffix p ->
  exists q, with_suffix p s = Ok q /\ q <> p.
Proof.
  intros H Hs. destruct (with_suffix_stem p H) as (stem & Hp & Hw).
  exists (stem +:+ s). split; [apply Hw |].
  intros Heq. apply Hs. apply (append_inj_r stem). by rewrite <- Hp.
Qed.

(** ** What decoding leaves untouched *)

Lemma read_only_ret {A} (a : A) : read_only (ret a).
Proof. by intros w. Qed.

Lemma read_only_raise {A} (e : exn) : read_only (@raise A e).
Proof. by intros w. Qed.

Lemma read_only_lift {A} (o : outcome A) : read_only (lift o).
Proof. by intros w. Qed.

Lemma read_only_get_file (p : string) : read_only (get_file p).
Proof. by intros w. Qed.

Lemma read_only_path_exists (p : string) : read_only (path_exists p).
Proof. by intros w. Qed.

Lemma read_only_bind {A B} (m : M A) (k : A -> M B) :
  read_only m -> (forall a, read_only (k a)) -> read_only (bind m k).
Proof.
  intros Hm Hk w. unfold bind. specialize (Hm w).
  destruct (m w) as [[a | e] w1]; cbn in Hm; subst w1; [apply Hk | done].
Qed.

Lemma read_only_try_except {A} (m : M A) (h : exn -> M A) :
  read_only m -> (forall e, read_only (h e)) -> read_only (try_except m h).
Proof.
  intros Hm Hh w. unfold try_except. specialize (Hm w).
  destruct (m w) as [[a | e] w1]; cbn in Hm; subst w1; [done | apply Hh].
Qed.

Ltac read_only_step :=
  first
    [ apply read_only_ret | apply read_only_raise | apply read_only_lift
    | apply read_only_get_file | apply read_only_path_exists
    | apply read_only_try_except; [| intros ?]
    | apply read_only_bind; [| intros ?]
    | match goal with
      | |- read_only (match ?x with _ => _ end) => destruct x
      end ].

Lemma read_only_np_loadtxt (p : string) : read_only (np_loadtxt p).
Proof. unfold np_loadtxt. repeat read_only_step. Qed.

Lemma read_only_json_load (p : string) : read_only (json_load p).
Proof. unfold json_load. repeat read_only_step. Qed.

Lemma read_only__load_hdf5 (p : string) : read_only (_load_hdf5 p).
Proof. unfold _load_hdf5, h5_open_r. repeat read_only_step. Qed.

Lemma read_only__load_text_format (p : string) :
  read_only (_load_text_format p).
Proof.
  unfold _load_text_format.
  repeat first [ apply read_only_np_loadtxt | apply read_only_json_load
               | read_only_step ].
Qed.

Section ReadOnly.

Variable csv_strtod : float64 -> float64.

Lemma read_only_pd_read_csv (p : string) :
  read_only (pd_read_csv csv_strtod p).
Proof. unfold pd_read_csv. repeat read_only_step. Qed.

Lemma read_only__load_csv (p : string) : read_only (_load_csv csv_strtod p).
Proof.
  unfold _load_csv. repeat first [ apply read_only_pd_read_csv | read_only_step ].
Qed.

(** X1: [load_data] never writes.  Whatever the loader object, the path
    and the outcome, the files after the call are the files before it;
    and unless the path has an instrument-native extension the random
    generator is not advanced either, so the whole world is unchanged. *)
Theorem load_data_read_only (self : DataLoader) (p : string) (w : world) :
  w_fs (snd (load_data csv_strtod self p w)) = w_fs w
  /\ (py_in (suffix p) [".nmr"; ".fid"] = false ->
      snd (load_data csv_strtod self p w) = w).
Proof.
  destruct (w_fs w !! p) as [f |] eqn:Hf;
    [| by rewrite load_data_missing].
  rewrite load_data_found by (by rewrite Hf). unfold raise.
  destruct (negb _); [by split |].
  destruct (String.eqb _ _);
    [split; [| intros _]; by rewrite read_only__load_hdf5 |].
  destruct (py_in (suffix p) [".txt"; ".dat"]);
    [split; [| intros _]; by rewrite read_only__load_text_format |].
  destruct (String.eqb _ _);
    [split; [| intros _]; by rewrite read_only__load_csv |].
  destruct (py_in (suffix p) [".nmr"; ".fid"]); [| by split].
  split; [| done]. by rewrite _load_nmr_format_eq.
Qed.

End ReadOnly.

(** ** The exceptions of the dispatcher *)

Lemma try_except_raise_kind {A} (m : M A) (f : exn -> exn) (w : world)
  (e : exn) :
  fst (try_except m (fun e => raise (f e)) w) = Raise e ->
  exists e0, e = f e0.
Proof.
  unfold try_except, raise. destruct (m w) as [[a | e0] w1]; cbn; [done |].
  intros [= <-]. eauto.
Qed.

Lemma _load_hdf5_raise_kind (p : string) (w : world) (e : exn) :
  is_Some (w_fs w !! p) ->
  fst (_load_hdf5 p w) = Raise e ->
  (exists m, e = OSError m)
  \/ (exists name, e = KeyError (absent_msg name)).
Proof.
  intros [f Hf].
  unfold _load_hdf5, h5_open_r, bind, get_file, lift, h5_getitem, ret, raise.
  rewrite Hf. cbn.
  destruct f as [h | | | |]; cbn; try (intros [= <-]; left; eauto).
  destruct (h5_datasets h !! "spectrum"); [| intros [= <-]; right; eauto].
  destruct (h5_datasets h !! "frequencies_f1"); [| intros [= <-]; right; eauto].
  destruct (h5_datasets h !! "frequencies_f2"); [done |].
  intros [= <-]; right; eauto.
Qed.

Section Failures.

Variable csv_strtod : float64 -> float64.

(** X2: how [load_data] fails on a path that exists.  An unregistered
    extension gives the unsupported-format [ValueError]; a failure of
    the text loader or of the CSV loader is always a [ValueError] with
    that loader's prefix, whatever the library raised; a failure of the
    binary-container loader is passed on as it is, an [OSError] (not a
    container) or a [KeyError] (a dataset is absent); the
    instrument-native loader does not fail. *)
Theorem load_data_failures (p : string) (w : world) (e : exn) :
  is_Some (w_fs w !! p) ->
  fst (load_data csv_strtod __init__ p w) = Raise e ->
  (py_in (suffix p) (supported_formats __init__) = false
   /\ e = ValueError ("サポートされていないファイル形式: " +:+ suffix p))
  \/ (suffix p = ".h5"
      /\ ((exists m, e = OSError m)
          \/ (exists name, e = KeyError (absent_msg name))))
  \/ (py_in (suffix p) [".txt"; ".dat"] = true
      /\ exists e0, e = text_error e0)
  \/ (suffix p = ".csv" /\ exists e0, e = csv_error e0).
Proof.
  intros Hsome. rewrite load_data_found by done.
  destruct (py_in (suffix p) (supported_formats __init__)) eqn:Hsup; cbn [negb];
    [| intros [= <-]; by left].
  destruct (String.eqb (suffix p) ".h5") eqn:Hh5.
  { intros H. right. left. apply String.eqb_eq in Hh5.
    split; [done |]. by eapply _load_hdf5_raise_kind. }
  destruct (py_in (suffix p) [".txt"; ".dat"]) eqn:Htxt.
  { intros H. right. right. left. split; [done |].
    unfold _load_text_format in H.
    by apply (try_except_raise_kind _ text_error) in H. }
  destruct (String.eqb (suffix p) ".csv") eqn:Hcsv.
  { intros H. right. right. right. apply String.eqb_eq in Hcsv.
    split; [done |]. unfold _load_csv in H.
    by apply (try_except_raise_kind _ csv_error) in H. }
  destruct (py_in (suffix p) [".nmr"; ".fid"]) eqn:Hnmr.
  - by rewrite _load_nmr_format_eq.
  - apply py_in_cases in Hsup.
    change (supported_formats __init__)
      with [".nmr"; ".fid"; ".dat"; ".txt"; ".csv"; ".h5"] in Hsup.
    repeat (apply elem_of_cons in Hsup as [Hs | Hsup];
            [rewrite Hs in *; discriminate |]).
    by apply elem_of_nil in Hsup.
Qed.

End Failures.

Lemma load_data_failures_witness :
  (py_in (suffix "scan.h5") (supported_formats __init__) = false
   /\ KeyError (absent_msg "frequencies_f2")
      = ValueError ("サポートされていないファイル形式: " +:+ suffix "scan.h5"))
  \/ (suffix "scan.h5" = ".h5"
      /\ ((exists m, KeyError (absent_msg "frequencies_f2") = OSError m)
          \/ (exists name,
                KeyError (absent_msg "frequencies_f2")
                = KeyError (absent_msg name))))
  \/ (py_in (suffix "scan.h5") [".txt"; ".dat"] = true
      /\ exists e0, KeyError (absent_msg "frequencies_f2") = text_error e0)
  \/ (suffix "scan.h5" = ".csv"
      /\ exists e0, KeyError (absent_msg "frequencies_f2") = csv_error e0).
Proof.
  apply (load_data_failures (fun x => x) "scan.h5"
           (world_with "scan.h5" (H5File h5_no_f2))).
  - eexists. reflexivity.
  - reflexivity.
Defined.

(** ** Records decoded from text and from native files *)

Lemma forallb_is_float_map (l : list float64) :
  forallb is_float (map NFloat l) = true.
Proof. by induction l. Qed.

Lemma nd_of_floats_ok (sh : list nat) (l : list float64) :
  length l = fold_right Nat.mul 1 sh -> nd_float_ok (nd_of_floats sh l) = true.
Proof.
  intros H. unfold nd_float_ok, nd_size, nd_of_floats. cbn [nd_data nd_shape].
  rewrite forallb_is_float_map, length_map, H. apply Nat.eqb_refl.
Qed.

Lemma np_linspace_ok (a b : float64) (n : nat) :
  nd_float_ok (np_linspace a b n) = true.
Proof.
  unfold np_linspace. apply nd_of_floats_ok. cbn [fold_right].
  rewrite Nat.mul_1_r.
  set (y := map (fun v => (v + a)%float) _).
  assert (Hy : length y = n).
  { subst y. rewrite length_map.
    destruct (0 <? n - 1); [destruct (PrimFloat.eqb _ _) |];
      by rewrite !length_map, length_seq. }
  destruct (1 <? n) eqn:E; [| done].
  apply Nat.ltb_lt in E. rewrite length_app, length_firstn, Hy. cbn. lia.
Qed.

Lemma squeeze_size (sh : list nat) :
  fold_right Nat.mul 1 (squeeze sh) = fold_right Nat.mul 1 sh.
Proof.
  unfold squeeze. induction sh as [| d t IH]; [done |].
  cbn [List.filter fold_right].
  destruct (d =? 1)%nat eqn:E; cbn [negb fold_right]; rewrite IH; [| done].
  apply Nat.eqb_eq in E as ->. lia.
Qed.

Lemma concat_length_rows {A} (rows : list (list A)) (width : nat) :
  Forall (fun r => length r = width) rows ->
  length (concat rows) = length rows * width.
Proof.
  induction 1 as [| r t Hr _ IH]; cbn; [done |].
  rewrite length_app, IH, Hr. lia.
Qed.

(** What [np.loadtxt] returns is a float array whose size is that of its
    shape; when the shape has two dimensions both are at least two. *)
Lemma np_loadtxt_ok (p : string) (w w' : world) (a : ndarray) :
  np_loadtxt p w = (Ok a, w') ->
  nd_float_ok a = true
  /\ forall n1 n2, nd_shape a = [n1; n2] -> 2 <= n1 /\ 2 <= n2.
Proof.
  unfold np_loadtxt, bind, get_file, raise, ret.
  destruct (w_fs w !! p) as [[h | rows | rows | obj |]|]; try discriminate.
  set (lines := List.filter _ rows).
  destruct (mapM (mapM python_float) lines) as [vals |] eqn:Hm;
    [| discriminate].
  set (ncols := match vals with [] => 1 | r :: _ => length r end).
  destruct (forallb _ vals) eqn:Hall; [| discriminate].
  intros [= <- <-].
  assert (Hrows : Forall (fun r => length r = ncols) vals).
  { apply List.Forall_forall. intros r Hr.
    rewrite forallb_forall in Hall. apply Nat.eqb_eq. by apply Hall. }
  split.
  - apply nd_of_floats_ok.
    change (length (concat vals)
            = fold_right Nat.mul 1 (squeeze [length vals; ncols])).
    rewrite squeeze_size. cbn [fold_right].
    rewrite Nat.mul_1_r. by apply concat_length_rows.
  - intros n1 n2. cbn [nd_shape nd_of_floats].
    assert (Hblank : vals <> [] -> 1 <= ncols).
    { intros Hne. destruct vals as [| r t]; [done |]. subst ncols.
      apply mapM_Some_1 in Hm. destruct lines as [| l0 lt] eqn:Hl;
        [inversion Hm |].
      inversion Hm as [| ? ? ? ? Hr0 _]; subst.
      apply length_mapM in Hr0. rewrite <- Hr0.
      assert (Hin : In l0 lines) by (rewrite Hl; by left).
      subst lines. apply filter_In in Hin as [_ Hnb].
      unfold blank in Hnb. destruct l0; [done | cbn; lia]. }
    destruct (length vals =? 1)%nat eqn:E1; destruct (ncols =? 1)%nat eqn:E2;
      cbn [negb]; try discriminate.
    intros [= <- <-]. apply Nat.eqb_neq in E1, E2.
    destruct vals as [| r t]; [subst ncols; done |].
    specialize (Hblank ltac:(done)). cbn [length] in *. lia.
Qed.

Lemma dims_ok_shapes (r : record) :
  dims_ok r = true ->
  exists n1 n2,
    nd_shape (spectrum r) = [n1; n2]
    /\ nd_shape (frequencies_f1 r) = [n1]
    /\ nd_shape (frequencies_f2 r) = [n2].
Proof.
  unfold dims_ok.
  destruct (nd_shape (spectrum r)) as [| n1 [| n2 [| ? ?]]]; try done.
  destruct (nd_shape (frequencies_f1 r)) as [| l1 [| ? ?]]; try done.
  destruct (nd_shape (frequencies_f2 r)) as [| l2 [| ? ?]]; try done.
  rewrite andb_true_iff, !Nat.eqb_eq. intros [-> ->]. eauto.
Qed.

Section CanonicalInfo.

Variable umr_sum : list float64 -> float64.

(** Introspection succeeds on every Canonical Record. *)
Lemma get_data_info_canonical (self : DataLoader) (r : record) (w : world) :
  canonical r = true ->
  get_data_info umr_sum self r w = (Ok (info_of umr_sum r), w).
Proof.
  unfold canonical, well_formed. rewrite !andb_true_iff, Nat.ltb_lt.
  intros ((((Hd & Hs) & H1) & H2) & Hpos).
  destruct (dims_ok_shapes r Hd) as (n1 & n2 & Hsh & Hsh1 & Hsh2).
  unfold nd_float_ok in Hs, H1, H2. rewrite andb_true_iff in Hs, H1, H2.
  destruct Hs as [Hs _], H1 as [H1 _], H2 as [H2 _].
  assert (Hn : 0 < n1 /\ 0 < n2).
  { unfold nd_size in Hpos. rewrite Hsh in Hpos. cbn in Hpos. nia. }
  unfold get_data_info, bind, lift, ret, np_min, np_max.
  rewrite !(np_reduce_floats _ _ (spectrum r)) by done.
  rewrite !(np_reduce_floats _ _ (frequencies_f1 r))
    by (try done; unfold nd_size; rewrite Hsh1; cbn; lia).
  rewrite !(np_reduce_floats _ _ (frequencies_f2 r))
    by (try done; unfold nd_size; rewrite Hsh2; cbn; lia).
  unfold info_of, dtype_str. by rewrite Hs.
Qed.

End CanonicalInfo.

Lemma _load_text_format_canonical (p : string) (w w' : world) (r : record) :
  _load_text_format p w = (Ok r, w') ->
  canonical r = true
  /\ exists n1 n2,
       nd_shape (spectrum r) = [n1; n2] /\ 2 <= n1 /\ 2 <= n2.
Proof.
  intros H. pose proof (_load_text_format_dims p w w' r H) as Hd.
  unfold _load_text_format in H. apply try_except_raise_inv in H.
  do 5 step H. apply np_loadtxt_ok in Hm as [Hok Hge].
  apply lift_ok_inv in Hm3 as [Hshape _].
  destruct a3 as [n1 n2]. injection H as <- <-.
  unfold unpack2 in Hshape.
  destruct (nd_shape a) as [| d1 [| d2 [| d3 t]]] eqn:Hsh; try discriminate.
  injection Hshape as <- <-. destruct (Hge d1 d2 eq_refl) as [H1 H2].
  split; [| exists d1, d2; by cbn].
  unfold canonical, well_formed. rewrite Hd. cbn [spectrum frequencies_f1
    frequencies_f2 andb]. rewrite Hok, !np_linspace_ok. cbn [andb].
  apply Nat.ltb_lt. unfold nd_size. rewrite Hsh. cbn. nia.
Qed.

Lemma _load_nmr_format_canonical (p : string) (w w' : world) (r : record) :
  _load_nmr_format p w = (Ok r, w') -> canonical r = true.
Proof.
  intros H. pose proof (_load_nmr_format_dims p w w' r H) as Hd.
  rewrite _load_nmr_format_eq in H. apply ok_pair_inj in H as [<- _].
  unfold canonical, well_formed. rewrite Hd.
  cbn [spectrum frequencies_f1 frequencies_f2 andb].
  rewrite !np_linspace_ok, nd_of_floats_ok
    by (by rewrite length_map, length_seq).
  cbn [andb]. apply Nat.ltb_lt.
  unfold nd_size, nd_of_floats. cbn [nd_shape fold_right]. lia.
Qed.

Section DecodedRecords.

Variable csv_strtod : float64 -> float64.
Variable umr_sum : list float64 -> float64.

(** X4: every record that [load_data] returns for a path that is
    neither a binary container nor a CSV file (so a delimited-text or an
    instrument-native one) is a Canonical Record, and [get_data_info]
    succeeds on it. *)
Theorem load_data_then_get_data_info (self : DataLoader) (p : string)
  (w w' : world) (r : record) :
  load_data csv_strtod self p w = (Ok r, w') ->
  String.eqb (suffix p) ".h5" = false ->
  String.eqb (suffix p) ".csv" = false ->
  canonical r = true
  /\ get_data_info umr_sum self r w' = (Ok (info_of umr_sum r), w').
Proof.
  intros H Hh5 Hcsv.
  assert (Hc : canonical r = true).
  { destruct (w_fs w !! p) as [f |] eqn:Hf;
      [| by rewrite load_data_missing in H].
    rewrite load_data_found in H by (by rewrite Hf).
    rewrite Hh5, Hcsv in H.
    destruct (negb _); [discriminate |].
    destruct (py_in _ _); [by eapply _load_text_format_canonical |].
    destruct (py_in _ _); [by eapply _load_nmr_format_canonical | discriminate]. }
  split; [exact Hc | by apply get_data_info_canonical].
Qed.

End DecodedRecords.

Lemma load_data_then_get_data_info_witness :
  canonical (mk_record (nd_of_floats [2; 2] [1; 2; 3; 4]%float)
                       (np_linspace 0 12 2) (np_linspace 0 12 2) ∅) = true
  /\ get_data_info naive_sum __init__
       (mk_record (nd_of_floats [2; 2] [1; 2; 3; 4]%float)
                  (np_linspace 0 12 2) (np_linspace 0 12 2) ∅)
       (world_with "m.txt" text_2x2)
     = (Ok (info_of naive_sum
              (mk_record (nd_of_floats [2; 2] [1; 2; 3; 4]%float)
                         (np_linspace 0 12 2) (np_linspace 0 12 2) ∅)),
        world_with "m.txt" text_2x2).
Proof.
  exact (load_data_then_get_data_info (fun x => x) naive_sum __init__ "m.txt"
           (world_with "m.txt" text_2x2) (world_with "m.txt" text_2x2) _
           eq_refl eq_refl eq_refl).
Defined.

(** ** The sidecar of a text file *)

Lemma _load_text_format_eq (p q : string) (w : world) (a : ndarray) :
  np_loadtxt p w = (Ok a, w) ->
  with_suffix p ".json" = Ok q ->
  _load_text_format p w
  = try_except
      (metadata <- (if bool_decide (is_Some (w_fs w !! q))
                    then json_load q else ret ∅);;
       points <- lift (unpack2 (nd_shape a));;
       let '(f1_points, f2_points) := points in
       ret (mk_record a (np_linspace 0 12 f1_points)
                      (np_linspace 0 12 f2_points) metadata))
      (fun e => raise (text_error e)) w.
Proof.
  intros Hload Hq.
  unfold _load_text_format, try_except, bind at 1. rewrite Hload.
  unfold bind at 1, lift at 1. rewrite Hq.
  unfold bind at 1, path_exists. reflexivity.
Qed.

(** X3: once the matrix file has been read as a 2-D array, the metadata
    of the decoded record is decided by the [.json] sibling alone: none,
    and the metadata is empty; a JSON object, and the metadata is that
    object; a file that holds no JSON text (a binary container, a JSON
    text broken off, a table of two numerals or more), and the loader
    fails with its [ValueError]. *)
Theorem _load_text_format_sidecar (p q : string) (w : world) (a : ndarray)
  (n1 n2 : nat) :
  np_loadtxt p w = (Ok a, w) ->
  nd_shape a = [n1; n2] ->
  with_suffix p ".json" = Ok q ->
  (w_fs w !! q = None ->
   _load_text_format p w
   = (Ok (mk_record a (np_linspace 0 12 n1) (np_linspace 0 12 n2) ∅), w))
  /\ (forall obj,
        w_fs w !! q = Some (JsonFile obj) ->
        _load_text_format p w
        = (Ok (mk_record a (np_linspace 0 12 n1) (np_linspace 0 12 n2) obj), w))
  /\ (forall f,
        w_fs w !! q = Some f ->
        not_json f = true ->
        exists msg,
          _load_text_format p w
          = (Raise (ValueError ("テキストファイルの読み込みに失敗: " +:+ msg)), w)).
Proof.
  intros Hload Hsh Hq.
  rewrite (_load_text_format_eq p q w a Hload Hq). unfold try_except.
  split; [| split].
  - intros Hnone.
    rewrite bool_decide_eq_false_2 by (rewrite Hnone; by intros [? ?]).
    unfold bind, ret, lift. rewrite Hsh. reflexivity.
  - intros obj Hobj. rewrite bool_decide_eq_true_2 by (by rewrite Hobj).
    unfold json_load, get_file, bind, ret, lift. rewrite Hobj, Hsh.
    reflexivity.
  - intros f Hf Hnj. rewrite bool_decide_eq_true_2 by (by rewrite Hf).
    unfold json_load, get_file, bind, ret, lift, raise. rewrite Hf.
    destruct f as [h | rows | rows | obj |]; try (eexists; reflexivity).
    discriminate Hnj.
Qed.

Lemma _load_text_format_sidecar_witness :
  (w_fs world_text_sidecar !! "m.json" = None ->
   _load_text_format "m.txt" world_text_sidecar
   = (Ok (mk_record (nd_of_floats [2; 2] [1; 2; 3; 4]%float)
                    (np_linspace 0 12 2) (np_linspace 0 12 2) ∅),
      world_text_sidecar))
  /\ (forall obj,
        w_fs world_text_sidecar !! "m.json" = Some (JsonFile obj) ->
        _load_text_format "m.txt" world_text_sidecar
        = (Ok (mk_record (nd_of_floats [2; 2] [1; 2; 3; 4]%float)
                         (np_linspace 0 12 2) (np_linspace 0 12 2) obj),
           world_text_sidecar))
  /\ (forall f,
        w_fs world_text_sidecar !! "m.json" = Some f ->
        not_json f = true ->
        exists msg,
          _load_text_format "m.txt" world_text_sidecar
          = (Raise (ValueError ("テキストファイルの読み込みに失敗: " +:+ msg)),
             world_text_sidecar)).
Proof.
  exact (_load_text_format_sidecar "m.txt" "m.json" world_text_sidecar
           (nd_of_floats [2; 2] [1; 2; 3; 4]%float) 2 2
           eq_refl eq_refl eq_refl).
Defined.

(** ** Round trips through the two dispatchers *)

Lemma suffix_text_cases (p : string) :
  py_in (suffix p) [".txt"; ".dat"] = true ->
  suffix p = ".txt" \/ suffix p = ".dat".
Proof.
  intros H. apply py_in_cases in H.
  apply elem_of_cons in H as [H | H]; [by left |].
  apply elem_of_cons in H as [H | H]; [by right |].
  by apply elem_of_nil in H.
Qed.

Section RoundTrips.

Variable csv_strtod : float64 -> float64.

(** X5: a Canonical Record whose metadata the container can store,
    written by [save_data] in the format ['h5'] to a path with the
    extension [.h5], is read back by [load_data] with the same arrays
    and with each metadata value as the container returns it (a number
    or a truth value as a numpy scalar, a sequence as an array),
    whatever the path held before; when every value is a string the
    record read back is the very same record. *)
Theorem save_data_load_data_h5 (self : DataLoader) (r : record) (p : string)
  (w : world) :
  canonical r = true ->
  map_Forall (fun k v => h5_attr_ok k v = true) (metadata r) ->
  suffix p = ".h5" ->
  exists w1,
    save_data self r p "h5" w = (Ok tt, w1)
    /\ load_data csv_strtod __init__ p w1
       = (Ok (mk_record (spectrum r) (frequencies_f1 r) (frequencies_f2 r)
                        (h5_stored <$> metadata r)), w1)
    /\ (map_Forall (fun _ v => exists s, v = PyStr s) (metadata r) ->
        load_data csv_strtod __init__ p w1 = (Ok r, w1)).
Proof.
  intros Hc Hmd Hsuf. apply canonical_floats in Hc as (Hs & H1 & H2).
  exists (write_file p (H5File (h5_of_record r)) w).
  assert (Hload :
    load_data csv_strtod __init__ p (write_file p (H5File (h5_of_record r)) w)
    = (Ok (mk_record (spectrum r) (frequencies_f1 r) (frequencies_f2 r)
                     (h5_stored <$> metadata r)),
       write_file p (H5File (h5_of_record r)) w)).
  { rewrite load_data_found by (cbn; rewrite lookup_insert_eq; eauto).
    rewrite Hsuf. cbn [supported_formats __init__ py_in existsb String.eqb
      Ascii.eqb Bool.eqb orb negb].
    apply _load_hdf5_after_save. }
  split; [| split; [exact Hload |]].
  - unfold save_data. cbn [String.eqb Ascii.eqb Bool.eqb].
    by apply _save_hdf5_eq.
  - intros Hstr. rewrite Hload. do 2 f_equal.
    replace (h5_stored <$> metadata r) with (metadata r); [by destruct r |].
    apply map_eq. intros k. rewrite lookup_fmap.
    destruct (metadata r !! k) as [v |] eqn:Hk; [| done].
    by destruct (Hstr _ _ Hk) as [s ->].
Qed.

(** X6: a Canonical Record of at least two rows and two columns, written
    by [save_data] in the format ['txt'] to a path with the extension
    [.txt] or [.dat], is read back by [load_data] with the same
    spectrum, with both axes replaced by [np.linspace(0, 12, n)], and
    with the metadata as JSON spells it. *)
Theorem save_data_load_data_txt (self : DataLoader) (r : record) (p : string)
  (w : world) (n1 n2 : nat) :
  canonical r = true ->
  nd_shape (spectrum r) = [n1; n2] ->
  2 <= n1 -> 2 <= n2 ->
  py_in (suffix p) [".txt"; ".dat"] = true ->
  map_Forall (fun _ v => json_serializable v = true) (metadata r) ->
  exists w1,
    save_data self r p "txt" w = (Ok tt, w1)
    /\ load_data csv_strtod __init__ p w1
       = (Ok (mk_record (spectrum r) (np_linspace 0 12 n1)
                        (np_linspace 0 12 n2) (json_value <$> metadata r)),
          w1).
Proof.
  intros Hc Hsh Hn1 Hn2 Hsuf Hmd.
  destruct (with_suffix_other p ".json") as (q & Hq & Hne).
  { destruct (suffix_text_cases p Hsuf) as [-> | ->]; done. }
  { destruct (suffix_text_cases p Hsuf) as [-> | ->]; done. }
  destruct (text_round_trip_two_or_more r p q w n1 n2) as (w1 & Hsave & Hload);
    try done.
  exists w1. split.
  - unfold save_data. cbn [String.eqb Ascii.eqb Bool.eqb]. exact Hsave.
  - assert (Hex : is_Some (w_fs w1 !! p)).
    { destruct (w_fs w1 !! p) eqn:Hf; [eauto |].
      unfold _load_text_format, try_except, bind at 1, np_loadtxt, bind at 1,
        get_file in Hload. rewrite Hf in Hload. discriminate. }
    rewrite load_data_found by done. rewrite Hsuf.
    destruct (suffix_text_cases p Hsuf) as [Hs | Hs]; rewrite Hs;
      exact Hload.
Qed.

End RoundTrips.

Lemma save_data_load_data_h5_witness :
  exists w1,
    save_data __init__ record_2x3 "out.h5" "h5" empty_world = (Ok tt, w1)
    /\ load_data (fun x => x) __init__ "out.h5" w1
       = (Ok (mk_record (spectrum record_2x3) (frequencies_f1 record_2x3)
                        (frequencies_f2 record_2x3)
                        (h5_stored <$> metadata record_2x3)), w1)
    /\ (map_Forall (fun _ v => exists s, v = PyStr s) (metadata record_2x3) ->
        load_data (fun x => x) __init__ "out.h5" w1 = (Ok record_2x3, w1)).
Proof.
  apply (save_data_load_data_h5 (fun x => x) __init__ record_2x3 "out.h5"
           empty_world); try reflexivity.
  apply (bool_decide_unpack _). vm_compute. exact I.
Defined.

Lemma save_data_load_data_txt_witness :
  exists w1,
    save_data __init__ record_2x3 "m.dat" "txt" empty_world = (Ok tt, w1)
    /\ load_data (fun x => x) __init__ "m.dat" w1
       = (Ok (mk_record (spectrum record_2x3) (np_linspace 0 12 2)
                        (np_linspace 0 12 3)
                        (json_value <$> metadata record_2x3)),
          w1).
Proof.
  apply (save_data_load_data_txt (fun x => x) __init__ record_2x3 "m.dat"
           empty_world 2 3); try reflexivity; try lia.
  apply (bool_decide_unpack _). vm_compute. exact I.
Defined.

(** ** The CSV round trip where it works *)

Lemma chunks_map {A B} (f : A -> B) (n width : nat) (l : list A) :
  chunks n width (map f l) = map (map f) (chunks n width l).
Proof.
  revert l. induction n as [| n IH]; intros l; cbn [chunks map]; [done |].
  by rewrite firstn_map, skipn_map, IH.
Qed.

Lemma combine_map_map {A B C D} (f : A -> C) (g : B -> D) (a : list A)
  (b : list B) :
  combine (map f a) (map g b)
  = map (fun '(x, y) => (f x, g y)) (combine a b).
Proof.
  revert b. induction a as [| x a IH]; intros [| y b]; cbn; try done.
  by rewrite IH.
Qed.

Lemma map_csv_text_floats (l : list float64) :
  Forall (fun x => PrimFloat.is_nan x = false) l ->
  map csv_text (map NFloat l) = map CNum l.
Proof.
  induction 1 as [| x t Hx _ IH]; cbn; [done |]. by rewrite Hx, IH.
Qed.

Lemma chunks_Forall {A} (P : A -> Prop) (n width : nat) (l : list A) :
  Forall P l -> Forall (Forall P) (chunks n width l).
Proof.
  revert l. induction n as [| n IH]; intros l Hl; cbn; constructor.
  - by apply Forall_take.
  - apply IH. by apply Forall_drop.
Qed.

(** The line [to_csv] writes for an index label and a row of floats. *)
Lemma csv_lines_floats (md : gmap string py_value) (n1 n2 : nat)
  (F F1 F2 : list float64) :
  length F1 = n1 ->
  Forall (fun x => PrimFloat.is_nan x = false) F ->
  Forall (fun x => PrimFloat.is_nan x = false) F1 ->
  csv_lines (mk_record (nd_of_floats [n1; n2] F) (nd_of_floats [n1] F1)
                       (nd_of_floats [n2] F2) md)
  = map csv_line (combine F1 (chunks n1 n2 F)).
Proof.
  intros Hlen HF HF1. unfold csv_lines, nd_of_floats.
  cbn [spectrum frequencies_f1 nd_shape nd_data].
  rewrite length_map, Hlen, chunks_map, combine_map_map, map_map.
  pose proof (chunks_Forall _ n1 n2 F HF) as Hch.
  revert Hch HF1. generalize (chunks n1 n2 F). clear.
  intros rows Hrows HF1. revert rows Hrows.
  induction HF1 as [| x t Hx _ IH]; intros [| row rows] Hrows; cbn;
    try done.
  inversion Hrows as [| ? ? Hrow Hrest]; subst.
  unfold csv_line at 1. cbn [fst snd].
  rewrite Hx, (map_csv_text_floats _ Hrow). f_equal. by apply IH.
Qed.

Lemma imap_numbers (f : nat -> cell -> cell) (cols : list float64) :
  (forall j x, f j (CNum x) = CNum x) ->
  imap f (map CNum cols) = map CNum cols.
Proof.
  revert f. induction cols as [| x t IH]; intros f Hf; [done |].
  cbn [map]. rewrite imap_cons, Hf. f_equal. apply IH. intros j y. apply Hf.
Qed.

Lemma mangle_nodup (cols : list float64) (seen : list cell) :
  NoDup cols ->
  (forall x, x ∈ cols -> count_cell (CNum x) seen = 0) ->
  mangle_dupe_cols seen (map CNum cols) = map CNum cols.
Proof.
  revert seen. induction cols as [| x t IH]; intros seen Hnd Hseen; [done |].
  apply NoDup_cons in Hnd as [Hx Hnd]. cbn [map mangle_dupe_cols].
  rewrite Hseen by apply list_elem_of_here. cbn [Nat.eqb]. f_equal.
  apply IH; [done |]. intros y Hy. unfold count_cell. cbn [List.filter cell_eqb].
  destruct (PrimFloat.Leibniz.eqb y x) eqn:E.
  - apply Leibniz.eqb_spec in E as ->. done.
  - apply Hseen. by apply list_elem_of_further.
Qed.

Lemma nth_numeric (j : nat) (r : list cell) :
  Forall (fun c => cell_numeric c = true) r ->
  cell_numeric (nth j r CEmpty) = true.
Proof.
  intros H. destruct (nth_in_or_default j r CEmpty) as [Hin | ->]; [| done].
  rewrite List.Forall_forall in H. by apply H.
Qed.

Lemma numeric_columns (body : list (list cell)) (width : nat) :
  Forall (Forall (fun c => cell_numeric c = true)) body ->
  map (fun j => forallb (fun r => cell_numeric (nth j r CEmpty)) body)
      (seq 0 width)
  = repeat true width.
Proof.
  intros H. generalize 0. induction width as [| n IH]; intros k; [done |].
  cbn [seq map repeat]. rewrite IH. f_equal.
  apply forallb_forall. intros r Hr. apply nth_numeric.
  rewrite List.Forall_forall in H. by apply H.
Qed.

Lemma combine_repeat {A B} (b : B) (n : nat) (r : list A) :
  length r <= n -> combine (repeat b n) r = map (pair b) r.
Proof.
  revert n. induction r as [| a t IH]; intros [| n] Hn; cbn in *; try done;
    try lia.
  rewrite IH by lia. done.
Qed.

Lemma map_fst_combine {A B} (a : list A) (b : list B) :
  length a = length b -> map fst (combine a b) = a.
Proof.
  revert b. induction a as [| x a IH]; intros [| y b] H; cbn in *; try done.
  by rewrite IH by lia.
Qed.

Lemma map_snd_combine {A B} (a : list A) (b : list B) :
  length a = length b -> map snd (combine a b) = b.
Proof.
  revert b. induction a as [| x a IH]; intros [| y b] H; cbn in *; try done.
  by rewrite IH by lia.
Qed.

Section CsvReading.

Variable csv_strtod : float64 -> float64.

Lemma typed_rows (L : list (float64 * list float64)) (width : nat) :
  Forall (fun ir => S (length (snd ir)) = width) L ->
  map (fun r => map (fun '(n, c) => convert csv_strtod n c)
                    (combine (repeat true width) r))
      (map (pad width) (map csv_line L))
  = map (fun ir => NFloat (csv_strtod (fst ir))
                   :: map NFloat (map csv_strtod (snd ir))) L.
Proof.
  intros H. rewrite !map_map. apply map_ext_in. intros [i row] Hin.
  rewrite List.Forall_forall in H. specialize (H _ Hin). cbn [fst snd] in *.
  unfold pad, csv_line. cbn [fst snd length]. rewrite length_map, H, Nat.sub_diag.
  cbn [repeat]. rewrite app_nil_r, combine_repeat
    by (cbn [length]; rewrite length_map; lia).
  rewrite map_map. cbn [map convert]. f_equal. rewrite !map_map.
  by apply map_ext.
Qed.

Lemma typed_values (L : list (float64 * list float64)) :
  concat (map (@tl npval)
            (map (fun ir => NFloat (csv_strtod (fst ir))
                            :: map NFloat (map csv_strtod (snd ir))) L))
  = map NFloat (map csv_strtod (concat (map snd L))).
Proof.
  induction L as [| [i row] t IH]; [done |].
  cbn [map concat tl fst snd]. by rewrite IH, !map_app.
Qed.

Lemma typed_index (L : list (float64 * list float64)) :
  map (fun r => hd (NFloat nan) r)
      (map (fun ir => NFloat (csv_strtod (fst ir))
                      :: map NFloat (map csv_strtod (snd ir))) L)
  = map NFloat (map csv_strtod (map fst L)).
Proof. induction L as [| [i row] t IH]; cbn; [done |]. by rewrite <- IH. Qed.

(** [read_csv] on a table of numerals under a header of distinct
    numerals. *)
Lemma pd_read_csv_numeric (p : string) (w : world) (cols idx : list float64)
  (rows : list (list float64)) :
  w_fs w !! p
  = Some (CsvFile ((CEmpty :: map CNum cols)
                     :: map csv_line (combine idx rows))) ->
  cols <> [] ->
  NoDup cols ->
  Forall (fun row => length row = length cols) rows ->
  length idx = length rows ->
  pd_read_csv csv_strtod p w
  = (Ok (mk_df (mk_ndarray [length rows; length cols]
                  (map NFloat (map csv_strtod (concat rows))))
               (map NFloat (map csv_strtod idx))
               (map NObj (map CNum cols))),
     w).
Proof.
  intros Hf Hne Hnd Hrows Hlen.
  set (L := combine idx rows) in *.
  assert (HL : Forall (fun ir => S (length (snd ir)) = S (length cols)) L).
  { apply List.Forall_forall. intros [i row] Hin. cbn.
    apply in_combine_r in Hin. rewrite List.Forall_forall in Hrows.
    by rewrite (Hrows _ Hin). }
  unfold pd_read_csv, bind, get_file. rewrite Hf. cbn [List.filter].
  assert (Hhead : csv_blank (CEmpty :: map CNum cols) = false)
    by (by destruct cols).
  rewrite Hhead. cbn [negb].
  rewrite (filter_all _ (map csv_line L))
    by (apply Forall_map, List.Forall_forall; by intros [i [| x row]] _).
  cbn [length]. rewrite length_map.
  destruct (existsb _ _) eqn:E.
  { apply existsb_exists in E as (x & Hin & Hlt).
    apply in_map_iff in Hin as ([i row] & <- & Hin).
    rewrite List.Forall_forall in HL. specialize (HL _ Hin).
    apply Nat.ltb_lt in Hlt. unfold csv_line in Hlt. cbn in Hlt, HL.
    rewrite length_map in Hlt. lia. }
  rewrite numeric_columns; cycle 1.
  { apply Forall_map, Forall_map, List.Forall_forall. intros [i row] _.
    unfold pad, csv_line. cbn [fst snd]. apply Forall_app. split.
    - constructor; [done |]. apply Forall_map, List.Forall_forall. by intros.
    - apply List.Forall_forall. intros c Hc. by apply repeat_spec in Hc as ->. }
  rewrite (typed_rows L (S (length cols)) HL).
  rewrite typed_values, typed_index. unfold ret.
  replace (S (length cols) - 1) with (length cols) by lia.
  subst L. rewrite !length_map, length_combine, Hlen, Nat.min_id.
  rewrite map_snd_combine, map_fst_combine by done.
  unfold unnamed. rewrite imap_cons.
  cbn [mangle_dupe_cols count_cell List.filter length Nat.eqb tl].
  rewrite imap_numbers by done.
  rewrite mangle_nodup; [reflexivity | done |].
  intros x _. reflexivity.
Qed.

End CsvReading.

Lemma astype_float_floats (l : list float64) :
  astype_float (map NFloat l) = Ok (nd_of_floats [length l] l).
Proof.
  unfold astype_float.
  rewrite (mapM_Some_2 _ (map NFloat l) l); [done |].
  induction l; cbn; by constructor.
Qed.

Lemma astype_float_numerals (l : list float64) :
  astype_float (map NObj (map CNum l)) = Ok (nd_of_floats [length l] l).
Proof.
  unfold astype_float.
  rewrite (mapM_Some_2 _ (map NObj (map CNum l)) l); [done |].
  induction l; cbn; by constructor.
Qed.

Section CsvRoundTrip.

Variable csv_strtod : float64 -> float64.
Variable umr_sum : list float64 -> float64.

Lemma _load_csv_numeric (p : string) (w : world) (cols idx : list float64)
  (rows : list (list float64)) :
  w_fs w !! p
  = Some (CsvFile ((CEmpty :: map CNum cols)
                     :: map csv_line (combine idx rows))) ->
  cols <> [] ->
  NoDup cols ->
  Forall (fun row => length row = length cols) rows ->
  length idx = length rows ->
  _load_csv csv_strtod p w
  = (Ok (mk_record
           (nd_of_floats [length rows; length cols]
              (map csv_strtod (concat rows)))
           (nd_of_floats [length idx] (map csv_strtod idx))
           (nd_of_floats [length cols] cols)
           (csv_metadata p
              (nd_of_floats [length rows; length cols]
                 (map csv_strtod (concat rows))))),
     w).
Proof.
  intros Hf Hne Hnd Hrows Hlen.
  unfold _load_csv, try_except, bind at 1.
  rewrite (pd_read_csv_numeric csv_strtod p w cols idx rows) by done.
  unfold bind, lift, ret. cbn [df_values df_index df_columns].
  rewrite astype_float_floats, astype_float_numerals, length_map.
  reflexivity.
Qed.

Lemma csv_round_trip_floats (md : gmap string py_value) (p : string)
  (w : world) (n1 n2 : nat) (F F1 F2 : list float64) :
  length F1 = n1 -> length F2 = n2 -> length F = n1 * n2 -> 1 <= n2 ->
  Forall (fun x => PrimFloat.is_nan x = false) F ->
  Forall (fun x => PrimFloat.is_nan x = false) F1 ->
  Forall (fun x => PrimFloat.is_nan x = false) F2 ->
  NoDup F2 ->
  exists w1,
    _save_csv (mk_record (nd_of_floats [n1; n2] F) (nd_of_floats [n1] F1)
                         (nd_of_floats [n2] F2) md) p w
    = (Ok tt, w1)
    /\ _load_csv csv_strtod p w1
       = (Ok (mk_record
                (nd_of_floats [n1; n2] (map csv_strtod F))
                (nd_of_floats [n1] (map csv_strtod F1))
                (nd_of_floats [n2] F2)
                (csv_metadata p (nd_of_floats [n1; n2] (map csv_strtod F)))),
          w1).
Proof.
  intros H1 H2 HF Hn2 HnF HnF1 HnF2 Hnd.
  eexists. split.
  { apply _save_csv_eq. unfold dims_ok. cbn. by rewrite !Nat.eqb_refl. }
  rewrite (_load_csv_numeric p _ F2 F1 (chunks n1 n2 F)).
  - rewrite chunks_length, chunks_concat, H1, H2 by done. reflexivity.
  - cbn [write_file w_fs]. rewrite lookup_insert_eq. do 3 f_equal.
    + unfold csv_header. cbn [frequencies_f2 nd_of_floats nd_data].
      by rewrite map_csv_text_floats.
    + by apply csv_lines_floats.
  - intros ->. cbn in H2. lia.
  - done.
  - rewrite H2. by apply chunks_widths.
  - by rewrite chunks_length.
Qed.

(** X7: a Canonical Record whose values and axis labels are not NaN and
    whose f2 labels are pairwise distinct goes through CSV: encoding
    succeeds and decoding returns the matrix and the f1 axis as pandas
    reads their numerals back ([csv_strtod]), the f2 axis exactly, and
    a metadata dictionary holding only the three derived entries,
    whatever metadata the record had. *)
Theorem csv_round_trip (r : record) (p : string) (w : world) (n1 n2 : nat) :
  canonical r = true ->
  nd_shape (spectrum r) = [n1; n2] ->
  Forall (fun x => PrimFloat.is_nan x = false)
         (floats_of (nd_data (spectrum r))) ->
  Forall (fun x => PrimFloat.is_nan x = false)
         (floats_of (nd_data (frequencies_f1 r))) ->
  Forall (fun x => PrimFloat.is_nan x = false)
         (floats_of (nd_data (frequencies_f2 r))) ->
  NoDup (floats_of (nd_data (frequencies_f2 r))) ->
  exists w1 r',
    _save_csv r p w = (Ok tt, w1)
    /\ _load_csv csv_strtod p w1 = (Ok r', w1)
    /\ spectrum r'
       = nd_of_floats [n1; n2]
           (map csv_strtod (floats_of (nd_data (spectrum r))))
    /\ frequencies_f1 r'
       = nd_of_floats [n1]
           (map csv_strtod (floats_of (nd_data (frequencies_f1 r))))
    /\ frequencies_f2 r' = frequencies_f2 r
    /\ metadata r' = csv_metadata p (spectrum r').
Proof.
  intros Hc Hsh HnF HnF1 HnF2 Hnd.
  unfold canonical, well_formed in Hc. rewrite !andb_true_iff in Hc.
  destruct Hc as ((((Hd & Hs) & H1) & H2) & Hpos).
  destruct (dims_ok_shapes r Hd) as (m1 & m2 & Hsh' & Hsh1 & Hsh2).
  rewrite Hsh in Hsh'. injection Hsh' as <- <-.
  unfold nd_float_ok in Hs, H1, H2. rewrite !andb_true_iff, !Nat.eqb_eq in *.
  destruct Hs as [Hs Hls], H1 as [H1 Hl1], H2 as [H2 Hl2].
  apply Nat.ltb_lt in Hpos.
  unfold nd_size in *. rewrite Hsh in Hls, Hpos. rewrite Hsh1 in Hl1.
  rewrite Hsh2 in Hl2. cbn in Hls, Hl1, Hl2, Hpos.
  assert (Hr : r = mk_record
                     (nd_of_floats [n1; n2] (floats_of (nd_data (spectrum r))))
                     (nd_of_floats [n1] (floats_of (nd_data (frequencies_f1 r))))
                     (nd_of_floats [n2] (floats_of (nd_data (frequencies_f2 r))))
                     (metadata r)).
  { unfold nd_of_floats. rewrite !floats_of_NFloat by done.
    rewrite <- Hsh, <- Hsh1, <- Hsh2.
    destruct r as [[? ?] [? ?] [? ?] ?]. reflexivity. }
  destruct (csv_round_trip_floats (metadata r) p w n1 n2
              (floats_of (nd_data (spectrum r)))
              (floats_of (nd_data (frequencies_f1 r)))
              (floats_of (nd_data (frequencies_f2 r))))
    as (w1 & Hsave & Hload); try done.
  { rewrite floats_of_length by done. lia. }
  { rewrite floats_of_length by done. lia. }
  { rewrite floats_of_length by done. lia. }
  { nia. }
  rewrite <- Hr in Hsave. eexists w1, _. split; [exact Hsave |].
  split; [exact Hload |]. cbn [spectrum frequencies_f1 frequencies_f2 metadata].
  repeat split. rewrite Hr at 2. reflexivity.
Qed.

(** X11: a CSV file that holds nothing but a header of distinct
    numerals is decoded without error, into a record with no rows:
    [_load_csv] returns a matrix of shape (0, n2), which is not a
    Canonical Record and on which [get_data_info] raises. *)
Theorem _load_csv_header_only (self : DataLoader) (p : string) (w : world)
  (cols : list float64) :
  w_fs w !! p = Some (CsvFile [CEmpty :: map CNum cols]) ->
  cols <> [] ->
  NoDup cols ->
  exists r,
    _load_csv csv_strtod p w = (Ok r, w)
    /\ spectrum r = mk_ndarray [0; length cols] []
    /\ frequencies_f1 r = mk_ndarray [0] []
    /\ frequencies_f2 r = nd_of_floats [length cols] cols
    /\ canonical r = false
    /\ get_data_info umr_sum self r w
       = (Raise (ValueError (zero_size_msg "minimum")), w).
Proof.
  intros Hf Hne Hnd. eexists. split.
  { by apply (_load_csv_numeric p w cols [] []). }
  cbn [spectrum frequencies_f1 frequencies_f2 length concat map].
  repeat split.
  unfold canonical. apply andb_false_iff. right. reflexivity.
Qed.

End CsvRoundTrip.

Lemma float_neq (x y : float64) :
  PrimFloat.Leibniz.eqb x y = false -> x <> y.
Proof.
  intros H Heq. apply Leibniz.eqb_spec in Heq. congruence.
Qed.

Lemma csv_round_trip_witness :
  exists w1 r',
    _save_csv record_2x3 "m.csv" empty_world = (Ok tt, w1)
    /\ _load_csv (fun x => x) "m.csv" w1 = (Ok r', w1)
    /\ spectrum r'
       = nd_of_floats [2; 3]
           (map (fun x => x) (floats_of (nd_data (spectrum record_2x3))))
    /\ frequencies_f1 r'
       = nd_of_floats [2]
           (map (fun x => x) (floats_of (nd_data (frequencies_f1 record_2x3))))
    /\ frequencies_f2 r' = frequencies_f2 record_2x3
    /\ metadata r' = csv_metadata "m.csv" (spectrum r').
Proof.
  apply (csv_round_trip (fun x => x) record_2x3 "m.csv" empty_world 2 3);
    try reflexivity.
  - repeat constructor.
  - repeat constructor.
  - repeat constructor.
  - change (NoDup [0; 1; 2]%float).
    repeat (apply NoDup_cons_2;
            [ intros Hin;
              repeat (apply elem_of_cons in Hin as [Hin | Hin];
                      [eapply float_neq; [| exact Hin]; reflexivity |]);
              by apply elem_of_nil in Hin | ]).
    apply NoDup_nil_2.
Defined.

Lemma _load_csv_header_only_witness :
  exists r,
    _load_csv (fun x => x) "h.csv"
      (world_with "h.csv" (CsvFile [CEmpty :: map CNum [0; 1]%float]))
    = (Ok r, world_with "h.csv" (CsvFile [CEmpty :: map CNum [0; 1]%float]))
    /\ spectrum r = mk_ndarray [0; length [0; 1]%float] []
    /\ frequencies_f1 r = mk_ndarray [0] []
    /\ frequencies_f2 r = nd_of_floats [length [0; 1]%float] [0; 1]%float
    /\ canonical r = false
    /\ get_data_info naive_sum __init__ r
         (world_with "h.csv" (CsvFile [CEmpty :: map CNum [0; 1]%float]))
       = (Raise (ValueError (zero_size_msg "minimum")),
          world_with "h.csv" (CsvFile [CEmpty :: map CNum [0; 1]%float])).
Proof.
  apply (_load_csv_header_only (fun x => x) naive_sum __init__ "h.csv"
           (world_with "h.csv" (CsvFile [CEmpty :: map CNum [0; 1]%float]))
           [0; 1]%float).
  - reflexivity.
  - discriminate.
  - repeat (apply NoDup_cons_2;
            [ intros Hin;
              repeat (apply elem_of_cons in Hin as [Hin | Hin];
                      [eapply float_neq; [| exact Hin]; reflexivity |]);
              by apply elem_of_nil in Hin | ]).
    apply NoDup_nil_2.
Defined.

(** ** Edge cases of the encoders and of the text decoder *)

(** X8: [_save_csv] refuses a record whose matrix is 2-D and whose
    axes are 1-D but not of the lengths of its two dimensions: the
    [DataFrame] constructor raises a [ValueError] and no file is
    written. *)
Theorem _save_csv_mismatch (r : record) (p : string) (w : world)
  (n1 n2 l1 l2 : nat) :
  nd_shape (spectrum r) = [n1; n2] ->
  nd_shape (frequencies_f1 r) = [l1] ->
  nd_shape (frequencies_f2 r) = [l2] ->
  l1 <> n1 \/ l2 <> n2 ->
  exists msg, _save_csv r p w = (Raise (ValueError msg), w).
Proof.
  intros Hsh H1 H2 Hne.
  unfold _save_csv, pd_DataFrame, pd_Index, bind, lift.
  rewrite Hsh, H1, H2.
  assert (E : (l1 =? n1)%nat && (l2 =? n2)%nat = false).
  { apply andb_false_iff. rewrite !Nat.eqb_neq. exact Hne. }
  rewrite E. eexists. reflexivity.
Qed.

Lemma _save_csv_mismatch_witness :
  exists msg,
    _save_csv record_mismatched "m.csv" empty_world
    = (Raise (ValueError msg), empty_world).
Proof.
  apply (_save_csv_mismatch record_mismatched "m.csv" empty_world 2 3 5 3);
    try reflexivity.
  left. lia.
Defined.



(** X12: whatever file it reads, a record that [_load_text_format]
    returns has at least two rows and two columns, its axes are
    [np.linspace(0, 12, n1)] and [np.linspace(0, 12, n2)], and the world
    is as before: an empty file, a single line and a single column are
    never decoded. *)
Theorem _load_text_format_two_by_two (p : string) (w w' : world) (r : record) :
  _load_text_format p w = (Ok r, w') ->
  exists n1 n2,
    nd_shape (spectrum r) = [n1; n2]
    /\ 2 <= n1 /\ 2 <= n2
    /\ length (nd_data (spectrum r)) = n1 * n2
    /\ frequencies_f1 r = np_linspace 0 12 n1
    /\ frequencies_f2 r = np_linspace 0 12 n2
    /\ w' = w.
Proof.
  intros H.
  destruct (_load_text_format_canonical p w w' r H)
    as [Hc (n1 & n2 & Hsh & H1 & H2)].
  exists n1, n2. do 3 (split; [done |]).
  pose proof (read_only__load_text_format p w) as Hw. rewrite H in Hw.
  cbn in Hw. subst w'.
  apply canonical_floats in Hc as Hfl.
  split.
  { unfold canonical, well_formed, nd_float_ok in Hc.
    rewrite !andb_true_iff, !Nat.eqb_eq in Hc.
    destruct Hc as ((((_ & _ & Hlen) & _) & _) & _).
    rewrite Hlen. unfold nd_size. rewrite Hsh. cbn. lia. }
  unfold _load_text_format in H. apply try_except_raise_inv in H.
  do 5 step H. apply lift_ok_inv in Hm3 as [Hshape _].
  destruct a3 as [m1 m2]. injection H as <- <-.
  cbn [spectrum] in Hsh. rewrite Hsh in Hshape. cbn in Hshape.
  injection Hshape as <- <-. done.
Qed.

Lemma _load_text_format_two_by_two_witness :
  exists n1 n2,
    nd_shape (nd_of_floats [2; 2] [1; 2; 3; 4]%float) = [n1; n2]
    /\ 2 <= n1 /\ 2 <= n2
    /\ length (nd_data (nd_of_floats [2; 2] [1; 2; 3; 4]%float)) = n1 * n2
    /\ np_linspace 0 12 2 = np_linspace 0 12 n1
    /\ np_linspace 0 12 2 = np_linspace 0 12 n2
    /\ world_with "m.txt" text_2x2 = world_with "m.txt" text_2x2.
Proof.
  exact (_load_text_format_two_by_two "m.txt" (world_with "m.txt" text_2x2)
           (world_with "m.txt" text_2x2)
           (mk_record (nd_of_floats [2; 2] [1; 2; 3; 4]%float)
                      (np_linspace 0 12 2) (np_linspace 0 12 2) ∅)
           eq_refl).
Defined.

(** ** What encoding touches *)

Lemma writes_only_ret {A} (ps : list string) (a : A) : writes_only ps (ret a).
Proof. by intros w. Qed.

Lemma writes_only_raise {A} (ps : list string) (e : exn) :
  writes_only ps (@raise A e).
Proof. by intros w. Qed.

Lemma writes_only_lift {A} (ps : list string) (o : outcome A) :
  writes_only ps (lift o).
Proof. by intros w. Qed.

Lemma writes_only_get_file (ps : list string) (p : string) :
  writes_only ps (get_file p).
Proof. by intros w. Qed.

Lemma writes_only_put_file (ps : list string) (p : string) (f : file) :
  p ∈ ps -> writes_only ps (put_file p f).
Proof.
  intros Hp w. split; [done |]. intros q Hq. cbn.
  apply lookup_insert_ne. intros ->. done.
Qed.

Lemma writes_only_bind {A B} (ps : list string) (m : M A) (k : A -> M B) :
  writes_only ps m -> (forall a, writes_only ps (k a)) ->
  writes_only ps (bind m k).
Proof.
  intros Hm Hk w. unfold bind. specialize (Hm w).
  destruct (m w) as [[a | e] w1]; cbn in *; [| done].
  destruct (Hk a w1) as [Hr Hf]. destruct Hm as [Hr1 Hf1].
  split; [by rewrite Hr | intros q Hq; by rewrite Hf, Hf1].
Qed.

Ltac writes_only_step :=
  first
    [ apply writes_only_ret | apply writes_only_raise | apply writes_only_lift
    | apply writes_only_get_file
    | apply writes_only_put_file; assumption
    | apply writes_only_bind; [| intros ?]
    | match goal with
      | |- writes_only _ (if ?x then _ else _) => destruct x
      | |- writes_only _ (match ?x with _ => _ end) => destruct x
      end ].

Lemma writes_only_h5_update (ps : list string) (p : string)
  (g : h5file -> h5file) :
  p ∈ ps -> writes_only ps (h5_update p g).
Proof. intros Hp. unfold h5_update. repeat writes_only_step. Qed.

Lemma writes_only_for_each {A} (ps : list string) (l : list A)
  (body : A -> M unit) :
  (forall a, writes_only ps (body a)) -> writes_only ps (for_each l body).
Proof.
  intros Hb. induction l as [| a t IH]; cbn [for_each];
    [apply writes_only_ret |].
  apply writes_only_bind; [apply Hb | intros _; apply IH].
Qed.

Lemma writes_only__save_hdf5 (ps : list string) (r : record) (p : string) :
  p ∈ ps -> writes_only ps (_save_hdf5 r p).
Proof.
  intros Hp. unfold _save_hdf5, h5_open_w, h5_create_dataset.
  repeat first
    [ apply writes_only_h5_update; assumption
    | apply writes_only_for_each; intros [key value]; unfold h5_attrs_setitem
    | writes_only_step ].
Qed.

Lemma writes_only__save_csv (ps : list string) (r : record) (p : string) :
  p ∈ ps -> writes_only ps (_save_csv r p).
Proof.
  intros Hp. unfold _save_csv, pd_to_csv. repeat writes_only_step.
Qed.

Lemma writes_only_np_savetxt (ps : list string) (p : string) (a : ndarray) :
  p ∈ ps -> writes_only ps (np_savetxt p a).
Proof.
  intros Hp. unfold np_savetxt.
  apply writes_only_bind; [by apply writes_only_put_file | intros _].
  apply writes_only_bind; [apply writes_only_lift | intros rows].
  destruct (write_rows rows) as [done ok]. repeat writes_only_step.
Qed.

Lemma writes_only_json_dump (ps : list string) (q : string)
  (md : gmap string py_value) :
  q ∈ ps -> writes_only ps (json_dump q md).
Proof. intros Hq. unfold json_dump. repeat writes_only_step. Qed.

Lemma writes_only_bind_lift {A B} (ps : list string) (o : outcome A)
  (k : A -> M B) :
  (forall a, o = Ok a -> writes_only ps (k a)) ->
  writes_only ps (bind (lift o) k).
Proof.
  intros Hk w. unfold bind, lift. destruct o as [a | e]; [| done].
  by apply Hk.
Qed.

(** X10: [save_data] touches nothing but its targets.  Whatever the
    record, the format and the outcome, every path other than the output
    path and, for the text format, the path with the extension replaced
    by [.json], holds after the call what it held before, and the random
    generator is not advanced. *)
Theorem save_data_writes_only (self : DataLoader) (r : record)
  (p fmt : string) :
  writes_only (save_targets p fmt) (save_data self r p fmt).
Proof.
  unfold save_data, save_targets.
  destruct (String.eqb fmt "h5") eqn:Hh5.
  { apply writes_only__save_hdf5, list_elem_of_here. }
  destruct (String.eqb fmt "csv") eqn:Hcsv.
  { apply writes_only__save_csv, list_elem_of_here. }
  destruct (String.eqb fmt "txt") eqn:Htxt; [| apply writes_only_raise].
  unfold _save_text.
  apply writes_only_bind;
    [apply writes_only_np_savetxt, list_elem_of_here | intros _].
  apply writes_only_bind_lift. intros q ->.
  apply writes_only_json_dump, list_elem_of_further, list_elem_of_here.
Qed.

(** ** Formats and extensions *)

Section FormatTag.

Variable csv_strtod : float64 -> float64.

(** X13: [save_data] takes the format from its tag, never from the
    path.  With the tag [h5], a Canonical Record whose metadata the
    container can store and a path whose extension is [.txt], [.dat] or
    [.csv], a binary container is written under that name, and
    [load_data], which goes by the extension, then fails on it with a
    [ValueError]. *)
Theorem save_data_tag_not_extension (self : DataLoader) (r : record)
  (p : string) (w : world) :
  canonical r = true ->
  map_Forall (fun k v => h5_attr_ok k v = true) (metadata r) ->
  py_in (suffix p) [".txt"; ".dat"; ".csv"] = true ->
  exists msg,
    save_data self r p "h5" w
    = (Ok tt, write_file p (H5File (h5_of_record r)) w)
    /\ load_data csv_strtod __init__ p
         (write_file p (H5File (h5_of_record r)) w)
       = (Raise (ValueError msg), write_file p (H5File (h5_of_record r)) w).
Proof.
  intros Hc Hmd Hsuf. apply canonical_floats in Hc as (Hs & H1 & H2).
  set (w1 := write_file p (H5File (h5_of_record r)) w).
  assert (Hp : w_fs w1 !! p = Some (H5File (h5_of_record r)))
    by apply lookup_insert_eq.
  assert (Hsave : save_data self r p "h5" w = (Ok tt, w1))
    by (by apply _save_hdf5_eq).
  apply py_in_cases in Hsuf.
  rewrite !elem_of_cons in Hsuf.
  destruct Hsuf as [Hx | [Hx | [Hx | Hx]]]; [| | | by apply elem_of_nil in Hx];
    eexists; (split; [exact Hsave |]);
    rewrite load_data_found by (by rewrite Hp); rewrite Hx; cbn.
  - unfold _load_text_format, try_except, bind at 1, np_loadtxt, bind at 1,
      get_file. rewrite Hp. reflexivity.
  - unfold _load_text_format, try_except, bind at 1, np_loadtxt, bind at 1,
      get_file. rewrite Hp. reflexivity.
  - unfold _load_csv, try_except, bind at 1, pd_read_csv, bind at 1,
      get_file. rewrite Hp. reflexivity.
Qed.

End FormatTag.

Lemma save_data_tag_not_extension_witness :
  exists msg,
    save_data __init__ record_2x3 "m.csv" "h5" empty_world
    = (Ok tt, write_file "m.csv" (H5File (h5_of_record record_2x3)) empty_world)
    /\ load_data (fun x => x) __init__ "m.csv"
         (write_file "m.csv" (H5File (h5_of_record record_2x3)) empty_world)
       = (Raise (ValueError msg),
          write_file "m.csv" (H5File (h5_of_record record_2x3)) empty_world).
Proof.
  apply (save_data_tag_not_extension (fun x => x) __init__ record_2x3 "m.csv"
           empty_world); try reflexivity.
  apply (bool_decide_unpack _). vm_compute. exact I.
Defined.

(** X14: a failed text export is not undone.  When the matrix of the
    record is neither 1-D nor 2-D, as the binary-container loader may
    return it, [save_data] with the tag [txt] raises a [ValueError], but
    the output path has already been opened for writing: it is left as
    an empty file, whatever it held, and no sidecar is written. *)
Theorem save_data_txt_bad_rank (self : DataLoader) (r : record) (p : string)
  (w : world) :
  length (nd_shape (spectrum r)) <> 1 ->
  length (nd_shape (spectrum r)) <> 2 ->
  exists msg,
    save_data self r p "txt" w
    = (Raise (ValueError msg), write_file p (TextFile []) w).
Proof.
  intros H1 H2. eexists.
  change (save_data self r p "txt") with (_save_text r p).
  unfold _save_text, bind at 1, np_savetxt, bind at 1, put_file.
  unfold bind at 1, lift.
  destruct (nd_shape (spectrum r)) as [| n1 [| n2 [| n3 t]]];
    cbn in H1, H2; try done; reflexivity.
Qed.

Lemma save_data_txt_bad_rank_witness :
  exists msg,
    save_data __init__ record_rank3 "m.txt" "txt" (world_with "m.txt" text_2x2)
    = (Raise (ValueError msg),
       write_file "m.txt" (TextFile []) (world_with "m.txt" text_2x2)).
Proof.
  apply (save_data_txt_bad_rank __init__ record_rank3 "m.txt"
           (world_with "m.txt" text_2x2)); cbn; lia.
Defined.

(** ** Metadata through the binary container *)

(** X15: the binary-container round trip for any metadata the container
    can store.  Writing a Canonical Record and reading the container
    back gives the same three arrays, and the metadata with every value
    as the attribute store returns it: a string unchanged, a number or
    a truth value as a numpy scalar, a tuple or a list as an array; of
    the values read back, only the strings and the floats are values
    that [json.dump] accepts. *)
Theorem hdf5_round_trip_attrs (r : record) (p : string) (w : world) :
  canonical r = true ->
  map_Forall (fun k v => h5_attr_ok k v = true) (metadata r) ->
  exists w1 r',
    _save_hdf5 r p w = (Ok tt, w1)
    /\ _load_hdf5 p w1 = (Ok r', w1)
    /\ spectrum r' = spectrum r
    /\ frequencies_f1 r' = frequencies_f1 r
    /\ frequencies_f2 r' = frequencies_f2 r
    /\ metadata r' = h5_stored <$> metadata r
    /\ (forall k l kind,
          metadata r !! k = Some (PySeq kind l) ->
          metadata r' !! k = Some (PySeq NdArray l))
    /\ (forall k v,
          metadata r' !! k = Some v ->
          json_serializable v = true ->
          (exists s, v = PyStr s) \/ (exists x, v = NpFloat x)).
Proof.
  intros Hc Hmd. apply canonical_floats in Hc as (Hs & H1 & H2).
  eexists _, _. split; [by apply _save_hdf5_eq |].
  split; [apply _load_hdf5_after_save |].
  do 4 (split; [reflexivity |]).
  cbn [metadata]. split.
  - intros k l kind Hk. by rewrite lookup_fmap, Hk.
  - intros k v. rewrite lookup_fmap.
    destruct (metadata r !! k) as [v0 |]; [| done].
    intros [= <-]. destruct v0; cbn; try done; eauto.
Qed.

Lemma hdf5_round_trip_attrs_witness :
  exists w1 r',
    _save_hdf5 record_from_csv "m.h5" empty_world = (Ok tt, w1)
    /\ _load_hdf5 "m.h5" w1 = (Ok r', w1)
    /\ spectrum r' = spectrum record_from_csv
    /\ frequencies_f1 r' = frequencies_f1 record_from_csv
    /\ frequencies_f2 r' = frequencies_f2 record_from_csv
    /\ metadata r' = h5_stored <$> metadata record_from_csv
    /\ (forall k l kind,
          metadata record_from_csv !! k = Some (PySeq kind l) ->
          metadata r' !! k = Some (PySeq NdArray l))
    /\ (forall k v,
          metadata r' !! k = Some v ->
          json_serializable v = true ->
          (exists s, v = PyStr s) \/ (exists x, v = NpFloat x)).
Proof.
  apply (hdf5_round_trip_attrs record_from_csv "m.h5" empty_world).
  - reflexivity.
  - apply (bool_decide_unpack _). vm_compute. exact I.
Defined.

Section CsvThroughContainer.

Variable csv_strtod : float64 -> float64.


End CsvThroughContainer.


(** ** Text in the body of a CSV table *)

Lemma in_combine_some {A B} (l : list A) (l' : list B) (y : B) :
  length l = length l' -> In y l' -> exists x, In (x, y) (combine l l').
Proof.
  revert l. induction l' as [| b t IH]; intros [| a l] Hlen Hin;
    cbn in *; try done.
  destruct Hin as [-> | Hin]; [eauto |].
  destruct (IH l) as [x Hx]; [lia | done | eauto].
Qed.

Lemma map_pad_exact (width : nat) (body : list (list cell)) :
  Forall (fun r => length r = width) body -> map (pad width) body = body.
Proof.
  induction 1 as [| r t Hr _ IH]; cbn [map]; [done |].
  rewrite IH. unfold pad. by rewrite Hr, Nat.sub_diag, app_nil_r.
Qed.

Lemma forallb_false_in {A} (f : A -> bool) (l : list A) (x : A) :
  In x l -> f x = false -> forallb f l = false.
Proof.
  intros Hin Hx. destruct (forallb f l) eqn:E; [| done].
  rewrite forallb_forall in E. by rewrite (E _ Hin) in Hx.
Qed.

Lemma csv_word_not_na (s : string) : csv_word s = true -> is_na s = false.
Proof.
  intros Hw. destruct (is_na s) eqn:E; [| done].
  unfold is_na in E. apply existsb_exists in E as (m & Hin & Heq).
  apply String.eqb_eq in Heq. subst m. unfold pd_na_values in Hin.
  repeat (destruct Hin as [<- | Hin]; [vm_compute in Hw; discriminate |]).
  destruct Hin.
Qed.

Section CsvText.

Variable csv_strtod : float64 -> float64.

(** X17: the CSV loader does not look at the fields of the body.  For a
    table with a header of distinct numerals, an index column of
    numerals and lines of the header's length whose other fields are
    numerals, empty or words of lowercase letters, [_load_csv] returns
    a record with both axes read as floats; a field that holds a word
    other than a NaN marker, a spelling of infinity or a truth value is
    returned in the matrix as it is, so the matrix has dtype [object]
    and the record is not a Canonical Record. *)
Theorem _load_csv_text_cell (p : string) (w : world) (cols idx : list float64)
  (rows : list (list cell)) (cells : list cell) (s : string) :
  csv_word s = true ->
  w_fs w !! p
  = Some (CsvFile ((CEmpty :: map CNum cols)
                     :: map csv_cells_line (combine idx rows))) ->
  cols <> [] ->
  NoDup cols ->
  Forall (fun x => PrimFloat.is_nan x = false) cols ->
  Forall (fun x => PrimFloat.is_nan x = false) idx ->
  Forall (Forall (fun c => plain_cell c = true)) rows ->
  Forall (fun row => length row = length cols) rows ->
  length idx = length rows ->
  cells ∈ rows ->
  CText s ∈ cells ->
  exists r,
    _load_csv csv_strtod p w = (Ok r, w)
    /\ nd_shape (spectrum r) = [length rows; length cols]
    /\ frequencies_f1 r = nd_of_floats [length idx] (map csv_strtod idx)
    /\ frequencies_f2 r = nd_of_floats [length cols] cols
    /\ NObj (CText s) ∈ nd_data (spectrum r)
    /\ dtype_str (spectrum r) = "object"
    /\ canonical r = false.
Proof.
  intros Hword Hf Hne Hnd _ _ _ Hrows Hlen Hcells Hs.
  apply csv_word_not_na in Hword.
  set (L := combine idx rows) in *.
  set (n := length cols) in *.
  assert (HL : Forall (fun r => length r = S n) (map csv_cells_line L)).
  { apply Forall_map, List.Forall_forall. intros [i row] Hin. cbn.
    apply in_combine_r in Hin. rewrite List.Forall_forall in Hrows.
    by rewrite (Hrows _ Hin). }
  set (nrest :=
         map (fun j => forallb (fun r => cell_numeric (nth j r CEmpty))
                               (map csv_cells_line L)) (seq 1 n)).
  set (conv := fun nc : bool * cell => let '(b, c) := nc in
                                       convert csv_strtod b c).
  set (data := concat (map (fun ic => map conv (combine nrest (snd ic))) L)).
  assert (Hread :
    pd_read_csv csv_strtod p w
    = (Ok (mk_df (mk_ndarray [length rows; n] data)
                 (map NFloat (map csv_strtod idx))
                 (map NObj (map CNum cols))), w)).
  { unfold pd_read_csv, bind, get_file. rewrite Hf. cbn [List.filter].
    assert (Hhead : csv_blank (CEmpty :: map CNum cols) = false)
      by (by destruct cols).
    rewrite Hhead. cbn [negb].
    rewrite (filter_all _ (map csv_cells_line L))
      by (apply Forall_map, List.Forall_forall; by intros [i [| x row]] _).
    cbn [length]. rewrite length_map. fold n.
    destruct (existsb _ _) eqn:E.
    { apply existsb_exists in E as (x & Hin & Hlt).
      rewrite List.Forall_forall in HL. specialize (HL _ Hin).
      apply Nat.ltb_lt in Hlt. lia. }
    rewrite (map_pad_exact (S n)) by done.
    cbn [seq map]. fold nrest.
    assert (H0 : forallb (fun r => cell_numeric (nth 0 r CEmpty))
                         (map csv_cells_line L) = true).
    { apply forallb_forall. intros r Hr.
      by apply in_map_iff in Hr as ([i row] & <- & _). }
    rewrite H0. unfold ret. do 3 f_equal.
    - f_equal.
      + rewrite !length_map. subst L.
        rewrite length_combine, Hlen, Nat.min_id. f_equal. f_equal. lia.
      + subst data. f_equal. rewrite !map_map. apply map_ext.
        by intros [i row].
    - rewrite !map_map. subst L.
      rewrite <- (map_fst_combine idx rows Hlen) at 2.
      rewrite !map_map. apply map_ext. by intros [i row].
    - unfold unnamed. rewrite imap_cons.
      cbn [mangle_dupe_cols count_cell List.filter length Nat.eqb tl].
      rewrite imap_numbers by done.
      rewrite mangle_nodup; [reflexivity | done |].
      intros x _. reflexivity. }
  assert (Hin : In (NObj (CText s)) data).
  { apply list_elem_of_In in Hcells. apply list_elem_of_In in Hs.
    destruct (in_combine_some idx rows cells Hlen Hcells) as [i Hi].
    subst data. apply in_concat.
    exists (map conv (combine nrest cells)). split.
    - apply in_map_iff. exists (i, cells). by split.
    - assert (Hn : length nrest = length cells).
      { subst nrest. rewrite length_map, length_seq.
        rewrite List.Forall_forall in Hrows. by rewrite (Hrows _ Hcells). }
      destruct (in_combine_some nrest cells (CText s) Hn Hs) as [b Hb].
      apply in_map_iff. exists (b, CText s). split; [| done].
      change (convert csv_strtod b (CText s) = NObj (CText s)).
      cbn [convert]. by rewrite Hword. }
  assert (Hobj : forallb is_float data = false)
    by (by apply (forallb_false_in _ _ _ Hin)).
  eexists. split.
  { unfold _load_csv, try_except, bind at 1. rewrite Hread.
    unfold bind, lift, ret. cbn [df_values df_index df_columns].
    rewrite astype_float_floats, astype_float_numerals, length_map.
    reflexivity. }
  cbn [spectrum frequencies_f1 frequencies_f2 nd_shape nd_data].
  do 3 (split; [reflexivity |]).
  split; [by apply list_elem_of_In |].
  split.
  - unfold dtype_str. cbn [nd_data]. by rewrite Hobj.
  - unfold canonical, well_formed, nd_float_ok. cbn [spectrum nd_data].
    rewrite Hobj. by destruct (dims_ok _).
Qed.

End CsvText.

Lemma _load_csv_text_cell_witness :
  exists r,
    _load_csv (fun x => x) "t.csv" world_csv_text_cell
    = (Ok r, world_csv_text_cell)
    /\ nd_shape (spectrum r)
       = [length [[CNum 1; CNum 2]%float; [CNum 3%float; CText "abc"]];
          length [0; 1]%float]
    /\ frequencies_f1 r
       = nd_of_floats [length [0; 1]%float] (map (fun x => x) [0; 1]%float)
    /\ frequencies_f2 r = nd_of_floats [length [0; 1]%float] [0; 1]%float
    /\ NObj (CText "abc") ∈ nd_data (spectrum r)
    /\ dtype_str (spectrum r) = "object"
    /\ canonical r = false.
Proof.
  apply (_load_csv_text_cell (fun x => x) "t.csv" world_csv_text_cell
           [0; 1]%float [0; 1]%float
           [[CNum 1; CNum 2]%float; [CNum 3%float; CText "abc"]]
           [CNum 3%float; CText "abc"] "abc").
  - reflexivity.
  - reflexivity.
  - discriminate.
  - repeat (apply NoDup_cons_2;
            [ intros Hin;
              repeat (apply elem_of_cons in Hin as [Hin | Hin];
                      [eapply float_neq; [| exact Hin]; reflexivity |]);
              by apply elem_of_nil in Hin | ]).
    apply NoDup_nil_2.
  - repeat constructor.
  - repeat constructor.
  - repeat constructor.
  - repeat constructor.
  - reflexivity.
  - apply list_elem_of_further, list_elem_of_here.
  - apply list_elem_of_further, list_elem_of_here.
Defined.

(** * The scripts *)

(** ** [setup_environment.py] *)

(** X18: [check_python_version] never raises, and it accepts exactly the
    versions from 3.12 on: the comparison of [sys.version_info] with
    [(3, 12)] is settled by the major and the minor number, and a
    version 3.12 of any micro number and release level, being the longer
    tuple, is not smaller. *)
Theorem check_python_version_accepts (v : setup_environment.version_info) :
  exists b,
    setup_environment.check_python_version v = Some b
    /\ (b = true
        <-> (3 < setup_environment.major v
             \/ (setup_environment.major v = 3
                 /\ 12 <= setup_environment.minor v))%Z).
Proof.
  unfold setup_environment.check_python_version, setup_environment.as_tuple.
  cbn [setup_environment.tuple_lt setup_environment.elt_eqb
       setup_environment.elt_ltb].
  destruct (setup_environment.major v =? 3)%Z eqn:Emaj.
  - apply Z.eqb_eq in Emaj.
    destruct (setup_environment.minor v =? 12)%Z eqn:Emin.
    + apply Z.eqb_eq in Emin. exists true. split; [done |]. lia.
    + apply Z.eqb_neq in Emin.
      destruct (setup_environment.minor v <? 12)%Z eqn:Elt.
      * apply Z.ltb_lt in Elt. exists false. split; [done |].
        split; [done | lia].
      * apply Z.ltb_ge in Elt. exists true. split; [done |]. lia.
  - apply Z.eqb_neq in Emaj.
    destruct (setup_environment.major v <? 3)%Z eqn:Elt.
    + apply Z.ltb_lt in Elt. exists false. split; [done |].
      split; [done | lia].
    + apply Z.ltb_ge in Elt. exists true. split; [done |]. lia.
Qed.

Ltac case_if :=
  match goal with
  | |- context [if ?b then _ else _] => destruct b
  end.

Lemma os_mkdir_frame (p q : list string) (t : setup_environment.tree) :
  q <> p ->
  snd (setup_environment.os_mkdir p t) !! q = t !! q.
Proof.
  intros Hq. unfold setup_environment.os_mkdir.
  destruct (setup_environment.resolve t [] (removelast p)); [done |].
  destruct (setup_environment.node_at t p); [done |].
  cbn [snd]. apply lookup_insert_ne. congruence.
Qed.

Lemma mkdir_plain_frame (p q : list string) (ok : bool)
  (t : setup_environment.tree) :
  q <> p ->
  snd (setup_environment.mkdir_plain p ok t) !! q = t !! q.
Proof.
  intros Hq. unfold setup_environment.mkdir_plain.
  pose proof (os_mkdir_frame p q t Hq) as H.
  destruct (setup_environment.os_mkdir p t) as [[| e] t']; cbn in *; [done |].
  destruct e; try done; by case_if.
Qed.

Lemma off_path_whole (q p : list string) :
  setup_environment.off_path q p -> q <> p.
Proof. intros H Heq. apply (H (length p)). by rewrite firstn_all. Qed.

Lemma off_path_parent (q rp : list string) (a : string) :
  setup_environment.off_path q (rev (a :: rp)) ->
  setup_environment.off_path q (rev rp).
Proof.
  intros H n Heq. cbn [rev] in H.
  destruct (Nat.le_gt_cases n (length (rev rp))) as [Hn | Hn].
  - apply (H n). by rewrite take_app_le.
  - apply (H (length (rev rp))).
    rewrite take_app_le by done. rewrite firstn_all.
    rewrite Heq. apply firstn_all2. lia.
Qed.

Lemma mkdir_parents_frame (rp q : list string) (ok : bool)
  (t : setup_environment.tree) :
  setup_environment.off_path q (rev rp) ->
  snd (setup_environment.mkdir_parents rp ok t) !! q = t !! q.
Proof.
  revert ok t. induction rp as [| a rp IH]; intros ok t Hoff.
  - cbn [setup_environment.mkdir_parents].
    pose proof (os_mkdir_frame (rev []) q t (off_path_whole _ _ Hoff)) as H.
    destruct (setup_environment.os_mkdir (rev []) t) as [[| e] t'];
      cbn in *; [done |].
    destruct e; try done; by case_if.
  - cbn [setup_environment.mkdir_parents].
    pose proof (os_mkdir_frame (rev (a :: rp)) q t (off_path_whole _ _ Hoff))
      as H.
    destruct (setup_environment.os_mkdir (rev (a :: rp)) t) as [[| e] t'];
      cbn [snd] in *; [done |].
    destruct e; try (by case_if).
    pose proof (IH true t' (off_path_parent _ _ _ Hoff)) as H1.
    destruct (setup_environment.mkdir_parents rp true t') as [[| e] t1];
      cbn [snd] in *; [| by rewrite H1].
    rewrite mkdir_plain_frame by (by apply off_path_whole). by rewrite H1.
Qed.

Lemma for_dirs_frame (l : list string) (q : list string)
  (t : setup_environment.tree) :
  Forall (fun d => setup_environment.off_path q (setup_environment.parts d)) l ->
  snd (setup_environment.for_dirs l t) !! q = t !! q.
Proof.
  intros H. revert t. induction H as [| d l Hd _ IH]; intros t; [done |].
  cbn [setup_environment.for_dirs]. unfold setup_environment.mkdir.
  pose proof (mkdir_parents_frame (rev (setup_environment.parts d)) q true t)
    as H1.
  rewrite rev_involutive in H1. specialize (H1 Hd).
  destruct (setup_environment.mkdir_parents _ true t) as [[| e] t1];
    cbn [snd] in *; [| done].
  by rewrite IH.
Qed.

Lemma off_path_other_root (c : string) (p : list string) :
  (forall rest, p <> c :: rest) -> setup_environment.off_path [c] p.
Proof.
  intros H [| n] Heq; [done |].
  destruct p as [| x p]; [done |]. cbn in Heq. injection Heq as <- _.
  by apply (H p).
Qed.

(** X19: the setup cannot finish in a tree without a [config]
    directory.  [create_directories], whatever it finds and whether or
    not it succeeds, makes no [config] directory; and
    [create_sample_config], which opens [config/user_settings.json] for
    writing without making the directory, then raises
    [FileNotFoundError] and writes nothing. *)
Theorem create_sample_config_without_config (project_root : string)
  (t : setup_environment.tree) :
  t !! ["config"] = None ->
  snd (setup_environment.create_directories t) !! ["config"] = None
  /\ setup_environment.create_sample_config project_root
       (snd (setup_environment.create_directories t))
     = (setup_environment.Raised setup_environment.FileNotFoundError,
        snd (setup_environment.create_directories t)).
Proof.
  intros Hnone.
  assert (H : snd (setup_environment.create_directories t) !! ["config"] = None).
  { unfold setup_environment.create_directories.
    rewrite for_dirs_frame; [done |].
    unfold setup_environment.directories.
    repeat (constructor;
            [apply off_path_other_root; intros rest; vm_compute; discriminate |]).
    constructor. }
  split; [done |].
  unfold setup_environment.create_sample_config, setup_environment.write_json.
  cbn [app removelast setup_environment.resolve setup_environment.node_at].
  by rewrite H.
Qed.

Lemma create_sample_config_without_config_witness :
  snd (setup_environment.create_directories ∅) !! ["config"] = None
  /\ setup_environment.create_sample_config "/workspace"
       (snd (setup_environment.create_directories ∅))
     = (setup_environment.Raised setup_environment.FileNotFoundError,
        snd (setup_environment.create_directories ∅)).
Proof.
  apply (create_sample_config_without_config "/workspace" ∅). reflexivity.
Defined.

(** A tree that keeps every node of another. *)
Lemma resolve_mono (t t' : setup_environment.tree) (here todo : list string) :
  (forall q x, setup_environment.node_at t q = Some x ->
               setup_environment.node_at t' q = Some x) ->
  setup_environment.resolve t here todo = None ->
  setup_environment.resolve t' here todo = None.
Proof.
  intros Hkeep. revert here. induction todo as [| c rest IH]; intros here;
    [done |].
  cbn [setup_environment.resolve].
  destruct (setup_environment.node_at t (here ++ [c])) as [[| content] |] eqn:E;
    try done.
  rewrite (Hkeep _ _ E). apply IH.
Qed.

Lemma is_dir_mono (t t' : setup_environment.tree) (p : list string) :
  (forall q x, setup_environment.node_at t q = Some x ->
               setup_environment.node_at t' q = Some x) ->
  setup_environment.is_dir p t = true -> setup_environment.is_dir p t' = true.
Proof.
  intros Hkeep. unfold setup_environment.is_dir.
  destruct (setup_environment.resolve t [] (removelast p)) eqn:Hr; [done |].
  destruct (setup_environment.node_at t p) as [[| content] |] eqn:Hn; try done.
  intros _. by rewrite (resolve_mono t t' _ _ Hkeep Hr), (Hkeep _ _ Hn).
Qed.

Lemma os_mkdir_keeps (p : list string) (t : setup_environment.tree)
  (q : list string) (x : setup_environment.node) :
  setup_environment.node_at t q = Some x ->
  setup_environment.node_at (snd (setup_environment.os_mkdir p t)) q = Some x.
Proof.
  intros Hq. unfold setup_environment.os_mkdir.
  destruct (setup_environment.resolve t [] (removelast p)); [done |].
  destruct (setup_environment.node_at t p) eqn:Hp; [done |].
  cbn [snd]. destruct q as [| c q]; [done |].
  cbn [setup_environment.node_at] in *.
  rewrite <- Hq. apply lookup_insert_ne. intros ->.
  cbn [setup_environment.node_at] in Hp. congruence.
Qed.

Lemma os_mkdir_done (p : list string) (t t' : setup_environment.tree) :
  setup_environment.os_mkdir p t = (setup_environment.Done, t') ->
  setup_environment.is_dir p t' = true.
Proof.
  intros H.
  assert (Hkeep : forall q x, setup_environment.node_at t q = Some x ->
                              setup_environment.node_at t' q = Some x).
  { intros q x Hq. apply (os_mkdir_keeps p) in Hq. by rewrite H in Hq. }
  unfold setup_environment.os_mkdir in H.
  destruct (setup_environment.resolve t [] (removelast p)) eqn:Hr; [done |].
  destruct (setup_environment.node_at t p) eqn:Hp; [done |].
  injection H as <-. unfold setup_environment.is_dir.
  rewrite (resolve_mono t _ _ _ Hkeep Hr).
  destruct p as [| c p]; [done |]. cbn [setup_environment.node_at].
  replace (<[c :: p := setup_environment.Dir]> t !! (c :: p))
    with (Some setup_environment.Dir); [done |].
  symmetry. apply lookup_insert_eq.
Qed.

Lemma mkdir_plain_keeps (p : list string) (ok : bool)
  (t : setup_environment.tree) (q : list string) (x : setup_environment.node) :
  setup_environment.node_at t q = Some x ->
  setup_environment.node_at (snd (setup_environment.mkdir_plain p ok t)) q
  = Some x.
Proof.
  intros Hq. apply (os_mkdir_keeps p) in Hq.
  unfold setup_environment.mkdir_plain.
  destruct (setup_environment.os_mkdir p t) as [[| e] t1]; [done |].
  destruct e; try done; by case_if.
Qed.

Lemma mkdir_plain_done (p : list string) (ok : bool)
  (t t' : setup_environment.tree) :
  setup_environment.mkdir_plain p ok t = (setup_environment.Done, t') ->
  setup_environment.is_dir p t' = true.
Proof.
  unfold setup_environment.mkdir_plain.
  destruct (setup_environment.os_mkdir p t) as [[| e] t1] eqn:E.
  - intros [= <-]. by apply os_mkdir_done in E.
  - destruct e; try done;
      destruct (setup_environment.is_dir p t1) eqn:Hd;
      destruct ok; cbn; try done; by intros [= <-].
Qed.

Lemma mkdir_parents_keeps (rp : list string) (ok : bool)
  (t : setup_environment.tree) (q : list string) (x : setup_environment.node) :
  setup_environment.node_at t q = Some x ->
  setup_environment.node_at (snd (setup_environment.mkdir_parents rp ok t)) q
  = Some x.
Proof.
  revert ok t. induction rp as [| a rp IH]; intros ok t Hq;
    cbn [setup_environment.mkdir_parents].
  - apply (os_mkdir_keeps (rev [])) in Hq.
    destruct (setup_environment.os_mkdir _ t) as [[| e] t1]; try done.
    destruct e; try done; by case_if.
  - apply (os_mkdir_keeps (rev (a :: rp))) in Hq.
    destruct (setup_environment.os_mkdir _ t) as [[| e] t1]; try done.
    destruct e; try (by case_if).
    cbn [snd] in Hq. apply (IH true) in Hq.
    destruct (setup_environment.mkdir_parents rp true t1) as [[| e] t2];
      [| done].
    by apply mkdir_plain_keeps.
Qed.

Lemma mkdir_parents_done (rp : list string) (ok : bool)
  (t t' : setup_environment.tree) :
  setup_environment.mkdir_parents rp ok t = (setup_environment.Done, t') ->
  setup_environment.is_dir (rev rp) t' = true.
Proof.
  destruct rp as [| a rp]; cbn [setup_environment.mkdir_parents];
    destruct (setup_environment.os_mkdir _ t) as [[| e] t1] eqn:E;
    try (intros [= <-]; by apply os_mkdir_done in E).
  - destruct e; try done;
      destruct (setup_environment.is_dir (rev []) t1) eqn:Hd;
      destruct ok; cbn; try done; by intros [= <-].
  - destruct e;
      try (destruct (setup_environment.is_dir (rev (a :: rp)) t1) eqn:Hd;
           destruct ok; cbn; try done; by intros [= <-]).
    destruct (setup_environment.mkdir_parents rp true t1) as [[| e] t2];
      [| done].
    apply mkdir_plain_done.
Qed.

Lemma mkdir_parents_existing (rp : list string) (t : setup_environment.tree) :
  setup_environment.is_dir (rev rp) t = true ->
  setup_environment.mkdir_parents rp true t = (setup_environment.Done, t).
Proof.
  intros Hd.
  assert (Hos : setup_environment.os_mkdir (rev rp) t
                = (setup_environment.Raised setup_environment.FileExistsError,
                   t)).
  { unfold setup_environment.is_dir in Hd. unfold setup_environment.os_mkdir.
    destruct (setup_environment.resolve t [] (removelast (rev rp)));
      [done |].
    by destruct (setup_environment.node_at t (rev rp)). }
  destruct rp as [| a rp]; cbn [setup_environment.mkdir_parents];
    rewrite Hos, Hd; reflexivity.
Qed.

Lemma for_dirs_keeps (l : list string) (t : setup_environment.tree)
  (q : list string) (x : setup_environment.node) :
  setup_environment.node_at t q = Some x ->
  setup_environment.node_at (snd (setup_environment.for_dirs l t)) q = Some x.
Proof.
  revert t. induction l as [| d l IH]; intros t Hq; [done |].
  cbn [setup_environment.for_dirs]. unfold setup_environment.mkdir.
  apply (mkdir_parents_keeps (rev (setup_environment.parts d)) true) in Hq.
  destruct (setup_environment.mkdir_parents _ true t) as [[| e] t1];
    [| done].
  by apply IH.
Qed.

Lemma for_dirs_done (l : list string) (t t' : setup_environment.tree) :
  setup_environment.for_dirs l t = (setup_environment.Done, t') ->
  Forall (fun d => setup_environment.is_dir (setup_environment.parts d) t'
                   = true) l.
Proof.
  revert t. induction l as [| d l IH]; intros t H; [constructor |].
  cbn [setup_environment.for_dirs] in H. unfold setup_environment.mkdir in H.
  destruct (setup_environment.mkdir_parents _ true t) as [[| e] t1] eqn:E;
    [| done].
  constructor; [| by eapply IH].
  apply mkdir_parents_done in E. rewrite rev_involutive in E.
  eapply is_dir_mono; [| exact E].
  intros q x Hq. apply (for_dirs_keeps l) in Hq. by rewrite H in Hq.
Qed.

Lemma for_dirs_existing (l : list string) (t : setup_environment.tree) :
  Forall (fun d => setup_environment.is_dir (setup_environment.parts d) t
                   = true) l ->
  setup_environment.for_dirs l t = (setup_environment.Done, t).
Proof.
  induction 1 as [| d l Hd _ IH]; [done |].
  cbn [setup_environment.for_dirs]. unfold setup_environment.mkdir.
  rewrite mkdir_parents_existing by (by rewrite rev_involutive).
  exact IH.
Qed.

(** X20: [create_directories] can be run again.  When it succeeds, each
    of the twelve paths is a directory afterwards, every node that was
    there before is still there, and a second run succeeds and changes
    nothing. *)
Theorem create_directories_again (t t' : setup_environment.tree) :
  setup_environment.create_directories t = (setup_environment.Done, t') ->
  Forall (fun d => setup_environment.is_dir (setup_environment.parts d) t'
                   = true) setup_environment.directories
  /\ (forall q x, setup_environment.node_at t q = Some x ->
                  setup_environment.node_at t' q = Some x)
  /\ setup_environment.create_directories t' = (setup_environment.Done, t').
Proof.
  intros H. unfold setup_environment.create_directories in *.
  pose proof (for_dirs_done _ _ _ H) as Hd.
  split; [done |]. split; [| by apply for_dirs_existing].
  intros q x Hq.
  apply (for_dirs_keeps setup_environment.directories) in Hq.
  by rewrite H in Hq.
Qed.

Lemma create_directories_empty :
  setup_environment.create_directories ∅
  = (setup_environment.Done, snd (setup_environment.create_directories ∅)).
Proof.
  assert (H : fst (setup_environment.create_directories ∅)
              = setup_environment.Done) by (vm_compute; reflexivity).
  rewrite (surjective_pairing (setup_environment.create_directories ∅)) at 1.
  by rewrite H.
Qed.

Lemma create_directories_again_witness :
  Forall (fun d => setup_environment.is_dir (setup_environment.parts d)
                     (snd (setup_environment.create_directories ∅))
                   = true) setup_environment.directories
  /\ (forall q x, setup_environment.node_at ∅ q = Some x ->
                  setup_environment.node_at
                    (snd (setup_environment.create_directories ∅)) q = Some x)
  /\ setup_environment.create_directories
       (snd (setup_environment.create_directories ∅))
     = (setup_environment.Done, snd (setup_environment.create_directories ∅)).
Proof.
  exact (create_directories_again ∅
           (snd (setup_environment.create_directories ∅))
           create_directories_empty).
Defined.

(** ** [check_gui_environment.py] *)

Lemma for_packages_false (env : check_gui_environment.environment)
  (l missing : list string) :
  check_gui_environment.for_packages env l missing = false
  <-> (forall package, package ∈ l ->
                       check_gui_environment.dpkg env package <> None)
      /\ (missing <> []
          \/ exists package returncode,
               package ∈ l
               /\ check_gui_environment.dpkg env package = Some returncode
               /\ returncode <> 0%Z).
Proof.
  revert missing. induction l as [| package rest IH]; intros missing.
  - cbn [check_gui_environment.for_packages]. split.
    + destruct missing; [done |]. intros _. split; [| by left].
      intros package Hin. by apply elem_of_nil in Hin.
    + intros [_ [Hm | (package & rc & Hin & _)]];
        [by destruct missing | by apply elem_of_nil in Hin].
  - cbn [check_gui_environment.for_packages].
    destruct (check_gui_environment.dpkg env package) as [rc |] eqn:Hrc.
    + rewrite IH. split.
      * intros [Hall Hsome]. split.
        { intros x Hx. apply elem_of_cons in Hx as [-> | Hx];
            [by rewrite Hrc | by apply Hall]. }
        destruct Hsome as [Hm | (x & r & Hx & Hr & Hne)].
        { destruct (rc =? 0)%Z eqn:E; cbn [negb] in Hm; [by left |].
          right. exists package, rc. apply Z.eqb_neq in E.
          split; [apply list_elem_of_here | done]. }
        right. exists x, r. split; [by apply list_elem_of_further | done].
      * intros [Hall Hsome]. split.
        { intros x Hx. apply Hall. by apply list_elem_of_further. }
        destruct Hsome as [Hm | (x & r & Hx & Hr & Hne)].
        { left. destruct (negb (rc =? 0)%Z); [by destruct missing | done]. }
        apply elem_of_cons in Hx as [-> | Hx].
        { left. rewrite Hrc in Hr. injection Hr as ->.
          apply Z.eqb_neq in Hne. rewrite Hne. cbn [negb].
          by destruct missing. }
        right. eauto.
    + split; [done |]. intros [Hall _]. exfalso.
      apply (Hall package); [apply list_elem_of_here | done].
Qed.

(** X21: [check_system_packages] reports a problem exactly when [dpkg]
    could be run for each of the three packages and gave a return code
    other than zero for one of them; as soon as the command is not
    found the check passes, whatever the earlier packages gave. *)
Theorem check_system_packages_false (env : check_gui_environment.environment) :
  check_gui_environment.check_system_packages env = false
  <-> (forall package,
         package ∈ check_gui_environment.required_packages ->
         check_gui_environment.dpkg env package <> None)
      /\ exists package returncode,
           package ∈ check_gui_environment.required_packages
           /\ check_gui_environment.dpkg env package = Some returncode
           /\ returncode <> 0%Z.
Proof.
  unfold check_gui_environment.check_system_packages.
  rewrite for_packages_false. split.
  - intros [Hall [Hm | Hsome]]; done.
  - intros [Hall Hsome]. split; [done | by right].
Qed.

Lemma main_all_checks (env : check_gui_environment.environment) :
  check_gui_environment.main env
  = check_gui_environment.check_display_variable env
    && check_gui_environment.check_x11_socket env
    && check_gui_environment.check_qt_libraries env
    && check_gui_environment.check_system_packages env
    && check_gui_environment.run_simple_gui_test env.
Proof.
  unfold check_gui_environment.main.
  destruct (check_gui_environment.check_display_variable env),
    (check_gui_environment.check_x11_socket env),
    (check_gui_environment.check_qt_libraries env),
    (check_gui_environment.check_system_packages env),
    (check_gui_environment.run_simple_gui_test env); reflexivity.
Qed.

(** X22: the diagnostic exits with status 0 exactly when every check
    passes: [DISPLAY] is set and not empty, the X11 socket directory
    exists, PyQt6 can be imported, the package check passes, and the
    event loop of the GUI test returns 0.  Without PyQt6 the GUI test is
    not run and the status is 1. *)
Theorem exit_status_zero (env : check_gui_environment.environment) :
  check_gui_environment.exit_status env = 0%Z
  <-> (exists d, check_gui_environment.display env = Some d /\ d <> "")
      /\ is_Some (check_gui_environment.x11_unix env)
      /\ check_gui_environment.pyqt6 env = true
      /\ check_gui_environment.check_system_packages env = true
      /\ check_gui_environment.app_exec env = Some 0%Z.
Proof.
  unfold check_gui_environment.exit_status. rewrite main_all_checks.
  unfold check_gui_environment.check_display_variable,
    check_gui_environment.check_x11_socket,
    check_gui_environment.check_qt_libraries,
    check_gui_environment.run_simple_gui_test.
  split.
  - intros H.
    destruct (check_gui_environment.display env) as [d |]; [| done].
    destruct (String.eqb d "") eqn:Hd; [done |].
    apply String.eqb_neq in Hd.
    destruct (check_gui_environment.x11_unix env) as [socket_files |];
      [| done].
    destruct (check_gui_environment.pyqt6 env); [| done].
    destruct (check_gui_environment.check_system_packages env); [| done].
    destruct (check_gui_environment.app_exec env) as [result |]; [| done].
    destruct (result =? 0)%Z eqn:Hres; [| done].
    apply Z.eqb_eq in Hres as ->. eauto 10.
  - intros ((d & -> & Hd) & [socket_files ->] & -> & -> & ->).
    apply String.eqb_neq in Hd. by rewrite Hd.
Qed.
